(** * Period comparison aggregation engine

    A shallow embedding of the comparison pipeline found in
    [data_analyzer.py], [data_analyzer_v2.py], [auto_monthly_analysis.py]
    and [data_analysis_report.py]: column classification, group-by
    aggregation, interval binning, outer-join merging of two periods and
    growth-rate computation.

    Numbers are exact rationals in canonical form ([Qc]) extended with the
    IEEE specials the code manipulates ([inf], [-inf], [nan]); rounding
    error of binary floating point is not modelled. *)

From Stdlib Require Import List String Ascii Bool Arith ZArith QArith Qcanon Qround Lia.
From Stdlib Require Import Qabs Lqa DecimalString.
From Stdlib Require Import Sorting.Sorted Sorting.Permutation.
Import ListNotations.

Open Scope string_scope.
Open Scope list_scope.

Set Implicit Arguments.

(* ================================================================== *)
(** * Numbers *)

(** A float as the code sees it: a finite value or one of the specials
    [np.inf], [-np.inf], [np.nan]. *)
Inductive fnum : Type :=
| Fin (q : Qc)
| PInf
| NInf
| NaN.

Definition qz (z : Z) : Qc := Q2Qc (inject_Z z).

Definition Qc_ltb (a b : Qc) : bool :=
  match (a ?= b)%Qc with Lt => true | _ => false end.

Definition Qc_leb (a b : Qc) : bool :=
  match (a ?= b)%Qc with Gt => false | _ => true end.

Definition Qc_sign (a : Qc) : comparison := (a ?= 0)%Qc.

(** [x == y] on floats: [nan] equals nothing, itself included. *)
Definition feqb (x y : fnum) : bool :=
  match x, y with
  | Fin a, Fin b => Qc_eq_bool a b
  | PInf, PInf => true
  | NInf, NInf => true
  | _, _ => false
  end.

(** [x != y]: the negation of [==], so [nan != 0] holds. *)
Definition fneb (x y : fnum) : bool := negb (feqb x y).

(** [x < y]; every comparison with [nan] is false. *)
Definition fltb (x y : fnum) : bool :=
  match x, y with
  | NaN, _ | _, NaN => false
  | Fin a, Fin b => Qc_ltb a b
  | NInf, NInf => false
  | NInf, _ => true
  | _, NInf => false
  | PInf, _ => false
  | Fin _, PInf => true
  end.

Definition fgtb (x y : fnum) : bool := fltb y x.

Definition fleb (x y : fnum) : bool :=
  match x, y with
  | NaN, _ | _, NaN => false
  | _, _ => negb (fltb y x)
  end.

Definition fneg (x : fnum) : fnum :=
  match x with
  | Fin a => Fin (- a)%Qc
  | PInf => NInf
  | NInf => PInf
  | NaN => NaN
  end.

Definition fadd (x y : fnum) : fnum :=
  match x, y with
  | NaN, _ | _, NaN => NaN
  | Fin a, Fin b => Fin (a + b)%Qc
  | PInf, NInf | NInf, PInf => NaN
  | PInf, _ | _, PInf => PInf
  | NInf, _ | _, NInf => NInf
  end.

Definition fsub (x y : fnum) : fnum := fadd x (fneg y).

(** The infinity carrying the sign of a comparison with zero; [nan] for
    zero itself. *)
Definition inf_of_sign (s : comparison) : fnum :=
  match s with Gt => PInf | Lt => NInf | Eq => NaN end.

Definition fsign (x : fnum) : comparison :=
  match x with
  | Fin a => Qc_sign a
  | PInf => Gt
  | NInf => Lt
  | NaN => Eq
  end.

Definition sign_mul (s t : comparison) : comparison :=
  match s, t with
  | Eq, _ | _, Eq => Eq
  | Gt, Gt | Lt, Lt => Gt
  | _, _ => Lt
  end.

Definition fmul (x y : fnum) : fnum :=
  match x, y with
  | NaN, _ | _, NaN => NaN
  | Fin a, Fin b => Fin (a * b)%Qc
  | _, _ => inf_of_sign (sign_mul (fsign x) (fsign y))
  end.

(** Division of numpy scalars: a zero divisor gives a signed infinity (or
    [nan] for [0/0]) instead of raising. *)
Definition fdiv (x y : fnum) : fnum :=
  match x, y with
  | NaN, _ | _, NaN => NaN
  | Fin a, Fin b =>
      if Qc_eq_bool b 0 then inf_of_sign (Qc_sign a) else Fin (a / b)%Qc
  | Fin _, _ => Fin 0%Qc
  | _, Fin b =>
      match Qc_sign b with
      | Lt => fneg x
      | _ => x
      end
  | _, _ => NaN
  end.

(** Rounding to the nearest integer, ties to the even one. *)
Definition round_half_even (q : Q) : Z :=
  let f := Qfloor q in
  match (q - inject_Z f ?= 1 # 2)%Q with
  | Lt => f
  | Gt => (f + 1)%Z
  | Eq => if Z.even f then f else (f + 1)%Z
  end.

Definition pow10 (n : nat) : Z := (10 ^ Z.of_nat n)%Z.

(** [round(x, ndigits)] on a finite value. *)
Definition Qc_round (q : Qc) (ndigits : nat) : Qc :=
  (Q2Qc (inject_Z (round_half_even (q * qz (pow10 ndigits))%Qc))
   / qz (pow10 ndigits))%Qc.

(** [round(x, ndigits)]; the specials are returned unchanged. *)
Definition fround (x : fnum) (ndigits : nat) : fnum :=
  match x with
  | Fin q => Fin (Qc_round q ndigits)
  | _ => x
  end.

(** [pd.isna] on a float. *)
Definition fisna (x : fnum) : bool :=
  match x with NaN => true | _ => false end.

(* ================================================================== *)
(** * Growth-rate calculators, one per script *)

Module DataAnalyzerRate.

(** The [lambda row: ...] of [calculate_comparison] in [data_analyzer.py]
    (lines 262-268), on the two totals it reads from the row. *)
Definition growth_rate (current previous : fnum) : fnum :=
  if fneb previous (Fin 0%Qc)
  then fround (fmul (fdiv (fsub current previous) previous) (Fin (qz 100))) 2
  else if fgtb current (Fin 0%Qc) then Fin (qz 100) else Fin 0%Qc.

(** [merged[change_col] = merged[current_col] - merged[previous_col]]. *)
Definition change (current previous : fnum) : fnum := fsub current previous.

End DataAnalyzerRate.

Module DataAnalyzerV2Rate.

(** The same expression as it stands in [data_analyzer_v2.py]
    (lines 496-502). *)
Definition growth_rate (current previous : fnum) : fnum :=
  if fneb previous (Fin 0%Qc)
  then fround (fmul (fdiv (fsub current previous) previous) (Fin (qz 100))) 2
  else if fgtb current (Fin 0%Qc) then Fin (qz 100) else Fin 0%Qc.

Definition change (current previous : fnum) : fnum := fsub current previous.

End DataAnalyzerV2Rate.

Module AutoMonthlyRate.

(** [np.divide(a, b, out=..., where=mask)]: the quotient where the mask
    holds, the prefilled [out] value elsewhere. *)
Fixpoint np_divide (a b out : list fnum) (mask : list bool) : list fnum :=
  match a, b, out, mask with
  | x :: a', y :: b', o :: out', m :: mask' =>
      (if m then fdiv x y else o) :: np_divide a' b' out' mask'
  | _, _, _, _ => []
  end.

(** [np.where(cond, v, arr)] with a scalar [v]. *)
Fixpoint np_where (cond : list bool) (v : fnum) (arr : list fnum) : list fnum :=
  match cond, arr with
  | c :: cond', x :: arr' => (if c then v else x) :: np_where cond' v arr'
  | _, _ => []
  end.

Fixpoint zip_with {A B C} (f : A -> B -> C) (l : list A) (l' : list B) : list C :=
  match l, l' with
  | x :: t, y :: t' => f x y :: zip_with f t t'
  | _, _ => []
  end.

(** The growth column of [calculate_growth_rate] in
    [auto_monthly_analysis.py] (lines 228-246), from the current and the
    previous column of one metric. *)
Definition growth_column (current previous : list fnum) : list fnum :=
  let growth_rate :=
    np_divide (zip_with fsub current previous) previous
              (map (fun _ => PInf) current)
              (map (fun p => fneb p (Fin 0%Qc)) previous) in
  let growth_rate :=
    np_where (zip_with (fun p c => feqb p (Fin 0%Qc) && fgtb c (Fin 0%Qc))
                       previous current)
             PInf growth_rate in
  let growth_rate :=
    np_where (zip_with (fun p c => feqb p (Fin 0%Qc) && feqb c (Fin 0%Qc))
                       previous current)
             (Fin 0%Qc) growth_rate in
  growth_rate.

(** What [growth_column] computes at one position. *)
Definition growth_rate (current previous : fnum) : fnum :=
  let g := if fneb previous (Fin 0%Qc)
           then fdiv (fsub current previous) previous else PInf in
  let g := if feqb previous (Fin 0%Qc) && fgtb current (Fin 0%Qc)
           then PInf else g in
  if feqb previous (Fin 0%Qc) && feqb current (Fin 0%Qc)
  then Fin 0%Qc else g.

End AutoMonthlyRate.

Module ReportRate.

(** [calculate_growth_rates] of [data_analysis_report.py]
    (lines 85-101): month-over-month and year-over-year growth. *)
Definition calculate_growth_rates
           (current_value last_month_value last_year_value : fnum)
  : fnum * fnum :=
  let mom_growth :=
    if fisna last_month_value || feqb last_month_value (Fin 0%Qc)
    then NaN
    else fmul (fdiv (fsub current_value last_month_value) last_month_value)
              (Fin (qz 100)) in
  let yoy_growth :=
    if fisna last_year_value || feqb last_year_value (Fin 0%Qc)
    then NaN
    else fmul (fdiv (fsub current_value last_year_value) last_year_value)
              (Fin (qz 100)) in
  (mom_growth, yoy_growth).

End ReportRate.

(* ================================================================== *)
(** * Data frames *)

(** A cell holds a number or a text; a missing value is the float [nan],
    as in pandas. *)
Inductive cell : Type :=
| Num (x : fnum)
| Str (s : string).

Definition NA : cell := Num NaN.

(** [pd.isna] on a cell. *)
Definition isna (c : cell) : bool :=
  match c with
  | Num NaN => true
  | _ => false
  end.

(** Identity of key values in grouping and joining; two missing values
    count as the same key there. *)
Definition cell_eqb (a b : cell) : bool :=
  match a, b with
  | Num (Fin p), Num (Fin q) => Qc_eq_bool p q
  | Num PInf, Num PInf => true
  | Num NInf, Num NInf => true
  | Num NaN, Num NaN => true
  | Str s, Str t => String.eqb s t
  | _, _ => false
  end.

(** A column type: its name as [str(dtype)] prints it, or a categorical
    with its ordered categories. *)
Inductive dtype : Type :=
| Dtype (name : string)
| Categorical (categories : list string).

Definition dtype_str (d : dtype) : string :=
  match d with
  | Dtype name => name
  | Categorical _ => "category"
  end.

(** A row maps column names to cells. *)
Definition row : Type := list (string * cell).

Record DataFrame : Type := mkDataFrame {
  columns : list (string * dtype);
  rows : list row
}.

(** [pd.DataFrame()]. *)
Definition empty_frame : DataFrame := mkDataFrame [] [].

Definition column_names (df : DataFrame) : list string := map fst (columns df).

Definition mem (c : string) (l : list string) : bool := existsb (String.eqb c) l.

(** [col in df.columns]. *)
Definition has_column (df : DataFrame) (c : string) : bool :=
  mem c (column_names df).

Fixpoint column_dtype (cols : list (string * dtype)) (c : string) : option dtype :=
  match cols with
  | [] => None
  | (n, d) :: t => if String.eqb n c then Some d else column_dtype t c
  end.

(** [row[c]]. *)
Fixpoint get (r : row) (c : string) : cell :=
  match r with
  | [] => NA
  | (n, v) :: t => if String.eqb n c then v else get t c
  end.

(** The values of column [c], top to bottom. *)
Definition series (df : DataFrame) (c : string) : list cell :=
  map (fun r => get r c) (rows df).

(** Writing one cell of a row: in place when the column is there, at the
    end otherwise. *)
Fixpoint set_cell (r : row) (c : string) (v : cell) : row :=
  match r with
  | [] => [(c, v)]
  | (n, w) :: t => if String.eqb n c then (n, v) :: t else (n, w) :: set_cell t c v
  end.

Fixpoint set_dtype (cols : list (string * dtype)) (c : string) (d : dtype)
  : list (string * dtype) :=
  match cols with
  | [] => [(c, d)]
  | (n, e) :: t => if String.eqb n c then (n, d) :: t else (n, e) :: set_dtype t c d
  end.

(** [df[c] = f(row)], row by row. *)
Definition assign (df : DataFrame) (c : string) (d : dtype) (f : row -> cell)
  : DataFrame :=
  mkDataFrame (set_dtype (columns df) c d)
              (map (fun r => set_cell r c (f r)) (rows df)).

(** Option-valued iteration: the first failure aborts. *)
Fixpoint mapM {A B} (f : A -> option B) (l : list A) : option (list B) :=
  match l with
  | [] => Some []
  | x :: t =>
      match f x with
      | None => None
      | Some y =>
          match mapM f t with
          | None => None
          | Some ys => Some (y :: ys)
          end
      end
  end.

Fixpoint foldM {A S} (f : S -> A -> option S) (l : list A) (s : S) : option S :=
  match l with
  | [] => Some s
  | x :: t =>
      match f s x with
      | None => None
      | Some s' => foldM f t s'
      end
  end.

(** As [assign], with a computation that can raise on a row. *)
Definition assign_opt (df : DataFrame) (c : string) (d : dtype)
           (f : row -> option cell) : option DataFrame :=
  match mapM (fun r => match f r with
                       | Some v => Some (set_cell r c v)
                       | None => None
                       end) (rows df) with
  | Some rs => Some (mkDataFrame (set_dtype (columns df) c d) rs)
  | None => None
  end.

(** [df[cols]]; [None] is the [KeyError] of a missing column. *)
Definition select (df : DataFrame) (cols : list string) : option DataFrame :=
  if forallb (has_column df) cols
  then Some (mkDataFrame
               (map (fun c => (c, match column_dtype (columns df) c with
                                  | Some d => d
                                  | None => Dtype "object"
                                  end)) cols)
               (map (fun r => map (fun c => (c, get r c)) cols) (rows df)))
  else None.

(** [series.fillna(0)] on one cell. *)
Definition fillna0 (c : cell) : cell :=
  if isna c then Num (Fin 0%Qc) else c.

(** [df[c] = df[c].fillna(0)]; a missing column raises. *)
Definition fillna_column (df : DataFrame) (c : string) : option DataFrame :=
  if has_column df c
  then Some (mkDataFrame (columns df)
                         (map (fun r => set_cell r c (fillna0 (get r c))) (rows df)))
  else None.

(** [df.empty]: no row or no column. *)
Definition is_empty (df : DataFrame) : bool :=
  match columns df, rows df with
  | _ :: _, _ :: _ => false
  | _, _ => true
  end.

(** The number in a cell; a text has none, and arithmetic on it raises. *)
Definition num_of_cell (c : cell) : option fnum :=
  match c with
  | Num x => Some x
  | Str _ => None
  end.

(** The tuple of key values of a row. *)
Definition key_of (keys : list string) (r : row) : list cell :=
  map (get r) keys.

Fixpoint key_eqb (k k' : list cell) : bool :=
  match k, k' with
  | [], [] => true
  | a :: t, b :: t' => cell_eqb a b && key_eqb t t'
  | _, _ => false
  end.

Definition has_na_key (keys : list string) (r : row) : bool :=
  existsb isna (key_of keys r).

(** The keys of a list, each kept at its first occurrence. *)
Fixpoint dedup (l : list (list cell)) : list (list cell) :=
  match l with
  | [] => []
  | k :: t => k :: filter (fun k' => negb (key_eqb k k')) (dedup t)
  end.

(** [series.sum()]: missing values are skipped, an empty sum is [0].
    Summed columns are numeric in every caller; a text cell, which only
    an unconverted column could hold, is skipped. *)
Definition series_sum (l : list cell) : fnum :=
  fold_left (fun acc c =>
               match c with
               | Num x => if fisna x then acc else fadd acc x
               | Str _ => acc
               end) l (Fin 0%Qc).

Module Pandas.

Section Coercion.

(** The numeric parser behind [pd.to_numeric]; it belongs to the
    library and is left open. *)
Variable str_to_float : string -> option fnum.

(** [pd.to_numeric(..., errors='coerce')] on one cell. *)
Definition to_numeric_coerce (c : cell) : cell :=
  match c with
  | Num x => Num x
  | Str s =>
      match str_to_float s with
      | Some x => Num x
      | None => NA
      end
  end.

(** [pd.to_numeric(..., errors='raise')]; [None] is the [ValueError]. *)
Definition to_numeric_raise (l : list cell) : option (list cell) :=
  mapM (fun c =>
          match c with
          | Num x => Some (Num x)
          | Str s =>
              match str_to_float s with
              | Some x => Some (Num x)
              | None => None
              end
          end) l.

End Coercion.

(** The group keys of [df.groupby(keys)]. Rows with a missing key are
    already gone ([dropna=True]). A single categorical key contributes
    its categories in their order: all of them when [observed] is
    false, those present in the data otherwise. Any other key list
    contributes the key tuples met in the data; a categorical column
    grouped together with other columns, which the program never does,
    is read like an ordinary one. (pandas also orders the groups by
    key; no statement below depends on row order.) *)
Definition group_keys (observed : bool) (cols : list (string * dtype))
           (keys : list string) (valid : list row) : list (list cell) :=
  match keys with
  | [k] =>
      match column_dtype cols k with
      | Some (Categorical cats) =>
          map (fun c => [Str c])
              (if observed
               then filter (fun c => existsb (fun r => cell_eqb (get r k) (Str c))
                                             valid) cats
               else cats)
      | _ => dedup (map (key_of keys) valid)
      end
  | _ => dedup (map (key_of keys) valid)
  end.

(** One output row of the aggregation: the key, then one total per
    metric over the rows of the group. *)
Definition group_row (keys metrics : list string) (valid : list row)
           (k : list cell) : row :=
  combine keys k
  ++ map (fun m =>
            (m, Num (series_sum
                       (map (fun r => get r m)
                            (filter (fun r => key_eqb (key_of keys r) k) valid)))))
         metrics.

(** [df.groupby(keys)[metrics].sum().reset_index()]. [observed] is the
    library's default for categorical keys, which the code does not
    set: false up to pandas 2, true from pandas 3. [None] stands for an
    exception (no key passed, or a column that is not in the frame). *)
Definition groupby_sum (observed : bool) (df : DataFrame)
           (keys metrics : list string) : option DataFrame :=
  match keys with
  | [] => None
  | _ :: _ =>
      if forallb (has_column df) keys && forallb (has_column df) metrics
      then
        let valid := filter (fun r => negb (has_na_key keys r)) (rows df) in
        Some (mkDataFrame
                (map (fun k => (k, match column_dtype (columns df) k with
                                   | Some d => d
                                   | None => Dtype "object"
                                   end)) keys
                 ++ map (fun m => (m, Dtype "float64")) metrics)
                (map (group_row keys metrics valid)
                     (group_keys observed (columns df) keys valid)))
      else None
  end.

(** The rows of a full outer join. Non-key columns are read through
    [lcols] and [rcols], pairs of a source name and its name in the
    result. *)
Definition join_row (on : list string) (lcols rcols : list (string * string))
           (l r : option row) : row :=
  map (fun k => (k, match l, r with
                    | Some x, _ => get x k
                    | None, Some y => get y k
                    | None, None => NA
                    end)) on
  ++ map (fun c => (snd c, match l with Some x => get x (fst c) | None => NA end))
         lcols
  ++ map (fun c => (snd c, match r with Some y => get y (fst c) | None => NA end))
         rcols.

Definition matches (on : list string) (x : row) (ys : list row) : list row :=
  filter (fun y => key_eqb (key_of on x) (key_of on y)) ys.

(** [pd.merge(left, right, on=on, how='outer', suffixes=(sl, sr))].
    A non-key column present on both sides takes the side's suffix.
    [None] stands for an exception: a key column that one side lacks,
    or an empty key list, which no caller passes. Rows of the left
    frame come first, then the rows only the right frame has (pandas
    orders the result by key; no statement below depends on row
    order). *)
Definition merge_outer (left right : DataFrame) (on : list string)
           (sl sr : string) : option DataFrame :=
  match on with
  | [] => None
  | _ :: _ =>
      if forallb (has_column left) on && forallb (has_column right) on
      then
        let lothers := filter (fun c => negb (mem (fst c) on)) (columns left) in
        let rothers := filter (fun c => negb (mem (fst c) on)) (columns right) in
        let lname c := if mem c (map fst rothers) then (c ++ sl)%string else c in
        let rname c := if mem c (map fst lothers) then (c ++ sr)%string else c in
        let lcols := map (fun c => (fst c, lname (fst c))) lothers in
        let rcols := map (fun c => (fst c, rname (fst c))) rothers in
        Some (mkDataFrame
                (map (fun k => (k, match column_dtype (columns left) k with
                                   | Some d => d
                                   | None => Dtype "object"
                                   end)) on
                 ++ map (fun c => (lname (fst c), snd c)) lothers
                 ++ map (fun c => (rname (fst c), snd c)) rothers)
                (flat_map (fun x =>
                             match matches on x (rows right) with
                             | [] => [join_row on lcols rcols (Some x) None]
                             | ys => map (fun y => join_row on lcols rcols
                                                            (Some x) (Some y)) ys
                             end) (rows left)
                 ++ map (fun y => join_row on lcols rcols None (Some y))
                        (filter (fun y => match matches on y (rows left) with
                                          | [] => true
                                          | _ => false
                                          end) (rows right))))
      else None
  end.

End Pandas.

(* ================================================================== *)
(** * Strings *)

(** [sub in s]. *)
Fixpoint contains (sub s : string) : bool :=
  String.prefix sub s
  || match s with
     | EmptyString => false
     | String _ t => contains sub t
     end.

(** [str.lower] on the ASCII letters; other bytes are kept. *)
Definition lower_ascii (a : ascii) : ascii :=
  let n := nat_of_ascii a in
  if (65 <=? n)%nat && (n <=? 90)%nat then ascii_of_nat (n + 32) else a.

Fixpoint lower (s : string) : string :=
  match s with
  | EmptyString => EmptyString
  | String a t => String (lower_ascii a) (lower t)
  end.

Definition is_space (a : ascii) : bool :=
  let n := nat_of_ascii a in
  (n =? 32)%nat || ((9 <=? n)%nat && (n <=? 13)%nat).

Fixpoint lstrip (s : string) : string :=
  match s with
  | EmptyString => EmptyString
  | String a t => if is_space a then lstrip t else s
  end.

Fixpoint rstrip (s : string) : string :=
  match s with
  | EmptyString => EmptyString
  | String a t =>
      match rstrip t with
      | EmptyString => if is_space a then EmptyString else String a EmptyString
      | t' => String a t'
      end
  end.

(** [str.strip] for ASCII white space. *)
Definition strip (s : string) : string := rstrip (lstrip s).

(** [s.split(',')]: the pieces between commas, at least one. *)
Fixpoint split_comma (s : string) : list string :=
  match s with
  | EmptyString => [EmptyString]
  | String a t =>
      if Ascii.eqb a ","%char
      then EmptyString :: split_comma t
      else match split_comma t with
           | [] => [String a EmptyString]
           | p :: ps => String a p :: ps
           end
  end.

(* ================================================================== *)
(** * [data_analyzer.py] *)

Module DataAnalyzer.

Record ExcelDataAnalyzer : Type := mkAnalyzer {
  current_month_data : option DataFrame;
  previous_month_data : option DataFrame;
  dimension_columns : list string;
  metric_columns : list string
}.

(** [__init__]. *)
Definition init : ExcelDataAnalyzer := mkAnalyzer None None [] [].

Section WithParser.

Variable str_to_float : string -> option fnum.

(** The three-way test of [analyze_columns] on one column type. *)
Definition is_text_dtype (d : dtype) : bool :=
  mem (dtype_str d) ["object"; "string"] || String.prefix "string" (dtype_str d).

Definition is_number_dtype (d : dtype) : bool :=
  mem (dtype_str d) ["int64"; "int32"; "float64"; "float32"]
  || contains "int" (dtype_str d) || contains "float" (dtype_str d).

(** [analyze_columns] (lines 89-131): the dimension and the metric
    columns, each in column order. *)
Definition analyze_columns (df : DataFrame) : list string * list string :=
  fold_left
    (fun acc col =>
       let '(dimension_cols, metric_cols) := acc in
       let name := fst col in
       let dt := snd col in
       let non_null_values := filter (fun c => negb (isna c)) (series df name) in
       if (List.length non_null_values =? 0)%nat then acc
       else if is_text_dtype dt then (dimension_cols ++ [name], metric_cols)
       else if is_number_dtype dt then (dimension_cols, metric_cols ++ [name])
       else match Pandas.to_numeric_raise str_to_float
                    (firstn 10 non_null_values) with
            | Some _ => (dimension_cols, metric_cols ++ [name])
            | None => (dimension_cols ++ [name], metric_cols)
            end)
    (columns df) ([], []).

(** The loop [for col in metric_cols: df_copy[col] = pd.to_numeric(...)]. *)
Definition coerce_columns (df : DataFrame) (cols : list string) : DataFrame :=
  fold_left (fun d col =>
               assign d col (Dtype "float64")
                      (fun r => Pandas.to_numeric_coerce str_to_float (get r col)))
            cols df.

Section WithObserved.

(** pandas' default for [groupby(observed=...)]. *)
Variable observed : bool.

(** [group_and_summarize] (lines 198-225). Reading a metric column
    that the frame lacks raises, and every exception ends in the
    empty frame. *)
Definition group_and_summarize (df : DataFrame)
           (group_by_cols metric_cols : list string) : DataFrame :=
  if forallb (has_column df) metric_cols
  then match Pandas.groupby_sum observed (coerce_columns df metric_cols)
                                group_by_cols metric_cols with
       | Some grouped => grouped
       | None => empty_frame
       end
  else empty_frame.

End WithObserved.

End WithParser.

Definition current_col (col : string) : string := (col ++ "_本月")%string.
Definition previous_col (col : string) : string := (col ++ "_上月")%string.
Definition change_col (col : string) : string := (col ++ "_变化")%string.
Definition growth_col (col : string) : string := (col ++ "_环比(%)")%string.

(** The first loop of [calculate_comparison] (lines 247-249). *)
Definition fill_metrics (merged : DataFrame) (metric_cols : list string)
  : option DataFrame :=
  foldM (fun m col =>
           match fillna_column m (current_col col) with
           | Some m' => fillna_column m' (previous_col col)
           | None => None
           end) metric_cols merged.

(** The second loop (lines 252-268): the change and the growth column
    of each metric. *)
Definition add_growth (merged : DataFrame) (metric_cols : list string)
  : option DataFrame :=
  foldM (fun m col =>
           match assign_opt m (change_col col) (Dtype "float64")
                   (fun r =>
                      match num_of_cell (get r (current_col col)),
                            num_of_cell (get r (previous_col col)) with
                      | Some c, Some p => Some (Num (DataAnalyzerRate.change c p))
                      | _, _ => None
                      end) with
           | Some m' =>
               assign_opt m' (growth_col col) (Dtype "float64")
                 (fun r =>
                    match num_of_cell (get r (current_col col)),
                          num_of_cell (get r (previous_col col)) with
                    | Some c, Some p => Some (Num (DataAnalyzerRate.growth_rate c p))
                    | _, _ => None
                    end)
           | None => None
           end) metric_cols merged.

Definition result_columns (group_by_cols metric_cols : list string) : list string :=
  group_by_cols
  ++ flat_map (fun col => [previous_col col; current_col col;
                           change_col col; growth_col col]) metric_cols.

(** The merge and the zero fill that open [calculate_comparison]
    (lines 242-249). *)
Definition merge_and_fill (current_df previous_df : DataFrame)
           (group_by_cols metric_cols : list string) : option DataFrame :=
  match Pandas.merge_outer current_df previous_df group_by_cols
                           "_本月" "_上月" with
  | None => None
  | Some merged => fill_metrics merged metric_cols
  end.

(** The body of the [try] of [calculate_comparison] (lines 242-280). *)
Definition comparison_body (current_df previous_df : DataFrame)
           (group_by_cols metric_cols : list string) : option DataFrame :=
  match merge_and_fill current_df previous_df group_by_cols metric_cols with
  | None => None
  | Some merged =>
      match add_growth merged metric_cols with
      | None => None
      | Some merged => select merged (result_columns group_by_cols metric_cols)
      end
  end.

(** [calculate_comparison]: any exception ends in the empty frame. *)
Definition calculate_comparison (current_df previous_df : DataFrame)
           (group_by_cols metric_cols : list string) : DataFrame :=
  match comparison_body current_df previous_df group_by_cols metric_cols with
  | Some result => result
  | None => empty_frame
  end.

(** Steps 3 and 4 of [run] (lines 373-387): load both files, and, when
    both loaded, classify the columns. The arguments are what
    [load_excel_data] returned for the two file names. *)
Definition run_load_and_classify (str_to_float : string -> option fnum)
           (self : ExcelDataAnalyzer) (current previous : option DataFrame)
  : ExcelDataAnalyzer :=
  let self := mkAnalyzer current previous
                         (dimension_columns self) (metric_columns self) in
  match current_month_data self, previous_month_data self with
  | Some cur, Some _ =>
      let '(dims, metrics) := analyze_columns str_to_float cur in
      mkAnalyzer (current_month_data self) (previous_month_data self) dims metrics
  | _, _ => self
  end.

End DataAnalyzer.

(* ================================================================== *)
(** * [data_analyzer_v2.py] *)

Module DataAnalyzerV2.

Record ExcelDataAnalyzer : Type := mkAnalyzer {
  current_month_data : option DataFrame;
  previous_month_data : option DataFrame;
  dimension_columns : list string;
  metric_columns : list string
}.

Definition init : ExcelDataAnalyzer := mkAnalyzer None None [] [].

Definition interval_col : string := "区间".

(** [sorted] on finite floats: a stable insertion sort. *)
Fixpoint insert_sorted (x : Qc) (l : list Qc) : list Qc :=
  match l with
  | [] => [x]
  | y :: t => if Qc_leb x y then x :: l else y :: insert_sorted x t
  end.

Fixpoint sorted (l : list Qc) : list Qc :=
  match l with
  | [] => []
  | x :: t => insert_sorted x (sorted t)
  end.

(** [series.min()] and [series.max()]; [nan] on an empty series. *)
Definition series_min (l : list fnum) : fnum :=
  match l with
  | [] => NaN
  | x :: t => fold_left (fun m y => if fltb y m then y else m) t x
  end.

Definition series_max (l : list fnum) : fnum :=
  match l with
  | [] => NaN
  | x :: t => fold_left (fun m y => if fltb m y then y else m) t x
  end.

Section WithParsers.

(** [pd.to_numeric]'s parser, Python's [float()] on a finite literal
    ([None] is its [ValueError]) and the text Python prints for a
    float in an f-string. *)
Variable str_to_float : string -> option fnum.
Variable py_float : string -> option Qc.
Variable float_str : Qc -> string.

Definition is_text_dtype (d : dtype) : bool :=
  mem (dtype_str d) ["object"; "string"] || String.prefix "string" (dtype_str d).

Definition is_number_dtype (d : dtype) : bool :=
  mem (dtype_str d) ["int64"; "int32"; "float64"; "float32"]
  || contains "int" (dtype_str d) || contains "float" (dtype_str d).

(** [analyze_columns] (lines 91-133). *)
Definition analyze_columns (df : DataFrame) : list string * list string :=
  fold_left
    (fun acc col =>
       let '(dimension_cols, metric_cols) := acc in
       let name := fst col in
       let dt := snd col in
       let non_null_values := filter (fun c => negb (isna c)) (series df name) in
       if (List.length non_null_values =? 0)%nat then acc
       else if is_text_dtype dt then (dimension_cols ++ [name], metric_cols)
       else if is_number_dtype dt then (dimension_cols, metric_cols ++ [name])
       else match Pandas.to_numeric_raise str_to_float
                    (firstn 10 non_null_values) with
            | Some _ => (dimension_cols, metric_cols ++ [name])
            | None => (dimension_cols ++ [name], metric_cols)
            end)
    (columns df) ([], []).

(** [analyze_metric_range] (lines 290-315) on the two loaded frames. *)
Definition analyze_metric_range (current previous : DataFrame)
           (metric_name : string) : fnum * fnum :=
  let combined := series current metric_name ++ series previous metric_name in
  let metric_values :=
    filter (fun x => negb (fisna x))
           (flat_map (fun c => match Pandas.to_numeric_coerce str_to_float c with
                               | Num x => [x]
                               | Str _ => []
                               end) combined) in
  (series_min metric_values, series_max metric_values).

(** The parse of one answer (lines 347-350); [None] is the
    [ValueError] of [float]. *)
Definition parse_cutpoints (user_input : string) : option (list Qc) :=
  if contains "," user_input
  then mapM (fun x => py_float (strip x)) (split_comma user_input)
  else mapM py_float [user_input].

(** [get_interval_cutpoints] (lines 338-368) over the answers the
    user types, one per prompt; [None] when they run out before one
    is accepted. *)
Fixpoint get_interval_cutpoints (answers : list string) (min_val max_val : fnum)
  : option (list Qc) :=
  match answers with
  | [] => None
  | answer :: rest =>
      let user_input := strip answer in
      if String.eqb user_input ""
      then get_interval_cutpoints rest min_val max_val
      else match parse_cutpoints user_input with
           | None => get_interval_cutpoints rest min_val max_val
           | Some cutpoints =>
               let cutpoints := sorted cutpoints in
               if existsb (fun point => fltb (Fin point) min_val
                                        || fgtb (Fin point) max_val) cutpoints
               then get_interval_cutpoints rest min_val max_val
               else Some cutpoints
           end
  end.

(** The middle labels: one per adjacent pair of cut points. *)
Fixpoint middle_labels (cutpoints : list Qc) : list string :=
  match cutpoints with
  | a :: ((b :: _) as t) => (float_str a ++ "-" ++ float_str b)%string
                            :: middle_labels t
  | _ => []
  end.

(** [create_interval_labels] (lines 370-395). *)
Definition create_interval_labels (cutpoints : list Qc) (min_val max_val : fnum)
  : list string :=
  match cutpoints with
  | [] => []
  | c0 :: _ =>
      (("<=" ++ float_str c0)%string :: middle_labels cutpoints)
      ++ [(">" ++ float_str (last cutpoints c0))%string]
  end.

(** No edge is below its predecessor. *)
Fixpoint monotonic (bins : list fnum) : bool :=
  match bins with
  | a :: ((b :: _) as t) => negb (fltb b a) && monotonic t
  | _ => true
  end.

Fixpoint unique_edges (bins : list fnum) : bool :=
  match bins with
  | [] => true
  | a :: t => negb (existsb (feqb a) t) && unique_edges t
  end.

Fixpoint unique_labels (labels : list string) : bool :=
  match labels with
  | [] => true
  | a :: t => negb (mem a t) && unique_labels t
  end.

(** [bins.searchsorted(x, side='right')] on increasing edges: how
    many edges are at most [x]. *)
Definition searchsorted_right (bins : list fnum) (x : fnum) : nat :=
  List.length (filter (fun b => fleb b x) bins).

(** The label [pd.cut(..., right=False, include_lowest=True)] gives
    one value. *)
Definition cut_value (bins : list fnum) (labels : list string) (c : cell) : cell :=
  match c with
  | Str _ => NA
  | Num x =>
      let ids := searchsorted_right bins x in
      let ids := match bins with
                 | b0 :: _ => if feqb x b0 then 1%nat else ids
                 | [] => ids
                 end in
      if fisna x || (ids =? List.length bins)%nat || (ids =? 0)%nat
      then NA
      else match nth_error labels (ids - 1) with
           | Some l => Str l
           | None => NA
           end
  end.

(** The checks of [pd.cut] that end in a [ValueError]: edges that
    decrease or repeat, a label count other than one per interval,
    a repeated label. *)
Definition pd_cut_ok (bins : list fnum) (labels : list string) : bool :=
  monotonic bins && unique_edges bins
  && (List.length labels =? List.length bins - 1)%nat
  && unique_labels labels.

(** [pd.cut(series, bins=bins, labels=labels, include_lowest=True,
    right=False)]. *)
Definition pd_cut (values : list cell) (bins : list fnum) (labels : list string)
  : option (list cell) :=
  if pd_cut_ok bins labels
  then Some (map (cut_value bins labels) values)
  else None.

(** [apply_interval_binning] (lines 397-423); [None] is an exception
    ([KeyError] for a missing column, or the [ValueError] of
    [pd.cut]). The new column holds, row by row, what [pd_cut]
    returns for the converted metric column. *)
Definition apply_interval_binning (df : DataFrame) (metric_name : string)
           (cutpoints : list Qc) (labels : list string) : option DataFrame :=
  if has_column df metric_name
  then
    let df_copy :=
      assign df metric_name (Dtype "float64")
             (fun r => Pandas.to_numeric_coerce str_to_float (get r metric_name)) in
    let bins := [NInf] ++ map Fin cutpoints ++ [PInf] in
    if pd_cut_ok bins labels
    then Some (assign df_copy interval_col (Categorical labels)
                      (fun r => cut_value bins labels (get r metric_name)))
    else None
  else None.

(** The loop [for col in metric_cols: if col in df_copy.columns: ...]
    (lines 441-443). *)
Definition coerce_columns (df : DataFrame) (cols : list string) : DataFrame :=
  fold_left (fun d col =>
               if has_column d col
               then assign d col (Dtype "float64")
                           (fun r => Pandas.to_numeric_coerce str_to_float
                                                              (get r col))
               else d) cols df.

Section WithObserved.

Variable observed : bool.

(** [group_and_summarize] (lines 425-456). *)
Definition group_and_summarize (df : DataFrame)
           (group_by_cols metric_cols : list string) : DataFrame :=
  let df_copy := coerce_columns df metric_cols in
  let available_metrics := filter (has_column df_copy) metric_cols in
  match Pandas.groupby_sum observed df_copy group_by_cols available_metrics with
  | Some grouped => grouped
  | None => empty_frame
  end.

End WithObserved.

End WithParsers.

Definition current_col (col : string) : string := (col ++ "_本月")%string.
Definition previous_col (col : string) : string := (col ++ "_上月")%string.
Definition change_col (col : string) : string := (col ++ "_变化")%string.
Definition growth_col (col : string) : string := (col ++ "_环比(%)")%string.

Definition fill_metrics (merged : DataFrame) (metric_cols : list string)
  : option DataFrame :=
  foldM (fun m col =>
           match fillna_column m (current_col col) with
           | Some m' => fillna_column m' (previous_col col)
           | None => None
           end) metric_cols merged.

Definition add_growth (merged : DataFrame) (metric_cols : list string)
  : option DataFrame :=
  foldM (fun m col =>
           match assign_opt m (change_col col) (Dtype "float64")
                   (fun r =>
                      match num_of_cell (get r (current_col col)),
                            num_of_cell (get r (previous_col col)) with
                      | Some c, Some p => Some (Num (DataAnalyzerV2Rate.change c p))
                      | _, _ => None
                      end) with
           | Some m' =>
               assign_opt m' (growth_col col) (Dtype "float64")
                 (fun r =>
                    match num_of_cell (get r (current_col col)),
                          num_of_cell (get r (previous_col col)) with
                    | Some c, Some p => Some (Num (DataAnalyzerV2Rate.growth_rate c p))
                    | _, _ => None
                    end)
           | None => None
           end) metric_cols merged.

(** The body of the [try] of [calculate_comparison] (lines 472-516). *)
Definition comparison_body (current_df previous_df : DataFrame)
           (group_by_cols metric_cols : list string) : option DataFrame :=
  match Pandas.merge_outer current_df previous_df group_by_cols
                           "_本月" "_上月" with
  | None => None
  | Some merged =>
      let available_metrics :=
        filter (fun col => has_column merged (current_col col)
                           && has_column merged (previous_col col)) metric_cols in
      match fill_metrics merged available_metrics with
      | None => None
      | Some merged =>
          match add_growth merged available_metrics with
          | None => None
          | Some merged =>
              let result_columns :=
                group_by_cols
                ++ flat_map (fun col => [previous_col col; current_col col;
                                         change_col col; growth_col col])
                            available_metrics in
              select merged (filter (has_column merged) result_columns)
          end
      end
  end.

Definition calculate_comparison (current_df previous_df : DataFrame)
           (group_by_cols metric_cols : list string) : DataFrame :=
  match comparison_body current_df previous_df group_by_cols metric_cols with
  | Some result => result
  | None => empty_frame
  end.

(** [run_metric_interval_summary] (lines 609-673). [selected_metric]
    is the user's choice among the metric columns and [answers] what
    is typed at the cut-point prompt. [None] is an exception leaving
    the method (or the prompt never satisfied). *)
Definition run_metric_interval_summary
           (str_to_float : string -> option fnum)
           (py_float : string -> option Qc) (float_str : Qc -> string)
           (observed : bool) (self : ExcelDataAnalyzer)
           (selected_metric : string) (answers : list string)
  : option DataFrame :=
  match metric_columns self, current_month_data self, previous_month_data self with
  | [], _, _ => Some empty_frame
  | _, Some current, Some previous =>
      let '(min_val, max_val) :=
        analyze_metric_range str_to_float current previous selected_metric in
      match get_interval_cutpoints py_float answers min_val max_val with
      | None => None
      | Some cutpoints =>
          let labels := create_interval_labels float_str cutpoints min_val max_val in
          match apply_interval_binning str_to_float current selected_metric
                                       cutpoints labels,
                apply_interval_binning str_to_float previous selected_metric
                                       cutpoints labels with
          | Some current_binned, Some previous_binned =>
              let other_metrics :=
                filter (fun col => negb (String.eqb col selected_metric))
                       (metric_columns self) in
              let current_summary :=
                group_and_summarize str_to_float observed current_binned
                                    [interval_col] other_metrics in
              let previous_summary :=
                group_and_summarize str_to_float observed previous_binned
                                    [interval_col] other_metrics in
              if is_empty current_summary || is_empty previous_summary
              then Some empty_frame
              else Some (calculate_comparison current_summary previous_summary
                                              [interval_col] other_metrics)
          | _, _ => None
          end
      end
  | _, _, _ => None
  end.

End DataAnalyzerV2.

(* ================================================================== *)
(** * [auto_monthly_analysis.py] *)

Module AutoMonthly.

Record AutoMonthlyAnalyzer : Type := mkAnalyzer {
  exclude_columns : list string;
  exclude_set : list string;
  dimension_columns : list string;
  metric_columns : list string
}.

Definition default_exclude : list string :=
  ["客户ID"; "客户id"; "customer_id"; "cust_id";
   "订单号"; "订单编号"; "order_id"; "order_no";
   "产品编码"; "产品ID"; "product_id"; "prod_id";
   "日期"; "时间"; "date"; "time"; "datetime";
   "ID"; "id"; "Id"; "iD"].

(** [__init__] (lines 33-61). *)
Definition init (exclude_columns : list string) : AutoMonthlyAnalyzer :=
  let all_exclude := default_exclude ++ exclude_columns in
  mkAnalyzer exclude_columns (map lower all_exclude) [] [].

Definition current_col (metric : string) : string := (metric ++ "_本月")%string.
Definition previous_col (metric : string) : string := (metric ++ "_上月")%string.
Definition growth_col (metric : string) : string := (metric ++ "_环比增幅")%string.
Definition formatted_col (metric : string) : string :=
  (metric ++ "_环比增幅_百分比")%string.

(** Writing a column from a list of values, row by row. *)
Fixpoint set_values (rs : list row) (c : string) (vals : list cell) : list row :=
  match rs, vals with
  | r :: rs', v :: vals' => set_cell r c v :: set_values rs' c vals'
  | _, _ => []
  end.

(** [columns = [f"{col}{suffix}" ...]] on a frame. *)
Definition rename_columns (df : DataFrame) (suffix : string) : DataFrame :=
  mkDataFrame (map (fun c => ((fst c ++ suffix)%string, snd c)) (columns df))
              (map (map (fun c : string * cell => ((fst c ++ suffix)%string, snd c)))
                   (rows df)).

Definition na_row (cols : list string) : row := map (fun c => (c, NA)) cols.

(** The rows of [pd.concat([l, r], axis=1)] on default indexes: rows
    paired by position, the shorter side padded with missing values. *)
Fixpoint concat_rows (lc rc : list string) (l r : list row) : list row :=
  match l with
  | [] => map (fun y => na_row lc ++ y) r
  | x :: l' =>
      match r with
      | [] => (x ++ na_row rc) :: concat_rows lc rc l' []
      | y :: r' => (x ++ y) :: concat_rows lc rc l' r'
      end
  end.

Definition concat_axis1 (l r : DataFrame) : DataFrame :=
  mkDataFrame (columns l ++ columns r)
              (concat_rows (column_names l) (column_names r) (rows l) (rows r)).

(** [df.fillna(0)] on the whole frame. *)
Definition fillna_frame (df : DataFrame) : DataFrame :=
  mkDataFrame (columns df)
              (map (map (fun c : string * cell => (fst c, fillna0 (snd c)))) (rows df)).

(** [merge_monthly_data] (lines 168-202); [None] is an exception of
    [pd.merge]. *)
Definition merge_monthly_data (current_agg previous_agg : DataFrame)
           (dimension_cols : list string) : option DataFrame :=
  match dimension_cols with
  | _ :: _ =>
      match Pandas.merge_outer current_agg previous_agg dimension_cols
                               "_本月" "_上月" with
      | Some merged => Some (fillna_frame merged)
      | None => None
      end
  | [] =>
      Some (fillna_frame (concat_axis1 (rename_columns current_agg "_本月")
                                       (rename_columns previous_agg "_上月")))
  end.

(** [calculate_growth_rate] (lines 204-254); [None] is the exception
    of arithmetic on a text column. *)
Definition calculate_growth_rate (merged_df : DataFrame) (metric_cols : list string)
  : option DataFrame :=
  foldM (fun result_df metric =>
           if has_column result_df (current_col metric)
              && has_column result_df (previous_col metric)
           then
             match mapM num_of_cell (series result_df (current_col metric)),
                   mapM num_of_cell (series result_df (previous_col metric)) with
             | Some cur, Some prev =>
                 Some (mkDataFrame
                         (set_dtype (columns result_df) (growth_col metric)
                                    (Dtype "float64"))
                         (set_values (rows result_df) (growth_col metric)
                                     (map Num (AutoMonthlyRate.growth_column cur prev))))
             | _, _ => None
             end
           else Some result_df) metric_cols merged_df.

Section WithLibrary.

(** [pd.api.types.is_string_dtype] and [is_numeric_dtype], the
    default [groupby(observed=...)], and the text of a finite value
    under the format [.2%]. *)
Variable is_string_dtype : dtype -> bool.
Variable is_numeric_dtype : dtype -> bool.
Variable observed : bool.
Variable format_pct : Qc -> string.

(** The loop of [identify_column_types] (lines 103-127). *)
Definition classify (exclude : list string) (df : DataFrame)
  : list string * list string :=
  fold_left
    (fun acc col =>
       let '(dimension_cols, metric_cols) := acc in
       let name := fst col in
       let dt := snd col in
       if mem (lower name) exclude then acc
       else if mem (dtype_str dt) ["object"; "category"] || is_string_dtype dt
            then (dimension_cols ++ [name], metric_cols)
            else if is_numeric_dtype dt
                 then (dimension_cols, metric_cols ++ [name])
                 else acc)
    (columns df) ([], []).

(** [identify_column_types] (lines 91-135): the two lists, also
    stored in the analyzer. *)
Definition identify_column_types (self : AutoMonthlyAnalyzer) (df : DataFrame)
  : AutoMonthlyAnalyzer * (list string * list string) :=
  let '(dimension_cols, metric_cols) := classify (exclude_set self) df in
  (mkAnalyzer (exclude_columns self) (exclude_set self) dimension_cols metric_cols,
   (dimension_cols, metric_cols)).

(** [aggregate_data] (lines 137-166); [None] is an exception of
    pandas, such as a column the frame lacks. *)
Definition aggregate_data (df : DataFrame) (dimension_cols metric_cols : list string)
  : option DataFrame :=
  match dimension_cols with
  | [] =>
      if forallb (has_column df) metric_cols
      then Some (mkDataFrame
                   (map (fun m => (m, Dtype "float64")) metric_cols)
                   [map (fun m => (m, Num (series_sum (series df m)))) metric_cols])
      else None
  | _ :: _ =>
      match metric_cols with
      | [] => Some empty_frame
      | _ :: _ => Pandas.groupby_sum observed df dimension_cols metric_cols
      end
  end.

(** [format_percentage] (lines 279-285). *)
Definition format_percentage (value : cell) : option cell :=
  match value with
  | Str _ => None
  | Num NaN => Some (Str "N/A")
  | Num PInf => Some (Str "∞")
  | Num NInf => Some (Str "-∞")
  | Num (Fin q) => Some (Str (format_pct q))
  end.

(** [format_results] (lines 256-291). *)
Definition format_results (result_df : DataFrame) (metric_cols : list string)
  : option DataFrame :=
  foldM (fun formatted_df metric =>
           if has_column formatted_df (growth_col metric)
           then assign_opt formatted_df (formatted_col metric) (Dtype "object")
                           (fun r => format_percentage (get r (growth_col metric)))
           else Some formatted_df) metric_cols result_df.

(** Steps 2 to 6 of [run_analysis] (lines 358-382), from the two
    frames [load_data] returned: the analyzer afterwards and the
    formatted result, [None] when an exception left the method. *)
Definition run_analysis (self : AutoMonthlyAnalyzer)
           (current_df previous_df : DataFrame)
  : AutoMonthlyAnalyzer * option DataFrame :=
  let '(self, (dimension_cols, metric_cols)) :=
    identify_column_types self current_df in
  match metric_cols with
  | [] => (self, None)
  | _ :: _ =>
      (self,
       match aggregate_data current_df dimension_cols metric_cols,
             aggregate_data previous_df dimension_cols metric_cols with
       | Some current_agg, Some previous_agg =>
           match merge_monthly_data current_agg previous_agg dimension_cols with
           | Some merged_df =>
               match calculate_growth_rate merged_df metric_cols with
               | Some result_df => format_results result_df metric_cols
               | None => None
               end
           | None => None
           end
       | _, _ => None
       end)
  end.

End WithLibrary.

End AutoMonthly.

(* ================================================================== *)
(** * Vocabulary of the statements *)

(** The group keys of a frame, row by row. *)
Definition frame_keys (df : DataFrame) (keys : list string) : list (list cell) :=
  map (key_of keys) (rows df).


(** One period's aggregate over [keys] and [metrics]: these columns and
    no other, one row per key, no key value missing, a number in every
    metric cell. *)
Record is_aggregate (df : DataFrame) (keys metrics : list string) : Prop := {
  agg_columns : column_names df = keys ++ metrics;
  agg_keys_unique : NoDup (frame_keys df keys);
  agg_keys_present : forall r, In r (rows df) -> has_na_key keys r = false;
  agg_totals : forall r m, In r (rows df) -> In m metrics ->
                           exists x, get r m = Num x
}.

(** What the conversion loops do to one row: each listed column that is
    [present] has its cell converted, in turn. *)
Definition coerce_row (str_to_float : string -> option fnum)
           (present : string -> bool) (cols : list string) (r : row) : row :=
  fold_left (fun r col =>
               if present col
               then set_cell r col (Pandas.to_numeric_coerce str_to_float (get r col))
               else r) cols r.

(** The names the comparison adds do not clash with the grouping keys. *)
Definition fresh_names (keys metrics : list string) : Prop :=
  forall m, In m metrics ->
            ~ In (m ++ "_本月")%string keys /\ ~ In (m ++ "_上月")%string keys.

(** The single key of an interval-mode aggregation: a categorical
    column. *)
Definition categorical_key (df : DataFrame) (keys : list string)
           (cats : list string) : Prop :=
  exists k, keys = [k] /\ column_dtype (columns df) k = Some (Categorical cats).


(** The zero fill of [calculate_comparison] on one row: for each metric,
    the current and the prior total. *)
Definition fill_row (cur prev : string -> string) (metrics : list string) (r : row)
  : row :=
  fold_left (fun r m =>
               let r1 := set_cell r (cur m) (fillna0 (get r (cur m))) in
               set_cell r1 (prev m) (fillna0 (get r1 (prev m)))) metrics r.

(** The rows of the outer join of two aggregates over the same keys and
    metrics. *)
Definition joined_rows (keys metrics : list string) (sl sr : string)
           (ls rs : list row) : list row :=
  let lcols := map (fun m => (m, (m ++ sl)%string)) metrics in
  let rcols := map (fun m => (m, (m ++ sr)%string)) metrics in
  flat_map (fun x =>
              match Pandas.matches keys x rs with
              | [] => [Pandas.join_row keys lcols rcols (Some x) None]
              | ys => map (fun y => Pandas.join_row keys lcols rcols (Some x) (Some y)) ys
              end) ls
  ++ map (fun y => Pandas.join_row keys lcols rcols None (Some y))
         (filter (fun y => match Pandas.matches keys y ls with
                           | [] => true
                           | _ => false
                           end) rs).

(** A merged frame is the union of two aggregates: every key of either
    side once, and zero totals on the side that lacks the key. *)
Definition union_merge (current previous merged : DataFrame)
           (keys metrics : list string) : Prop :=
  NoDup (frame_keys merged keys)
  /\ (forall k, In k (frame_keys merged keys)
                <-> In k (frame_keys current keys) \/ In k (frame_keys previous keys))
  /\ (forall r m,
         In r (rows merged) -> In m metrics ->
         (~ In (key_of keys r) (frame_keys previous keys) ->
          get r (m ++ "_上月")%string = Num (Fin 0%Qc))
         /\ (~ In (key_of keys r) (frame_keys current keys) ->
             get r (m ++ "_本月")%string = Num (Fin 0%Qc))).

(* ================================================================== *)
(** * Decimal literals, for the worked examples *)

Definition digit_of (a : ascii) : option Z :=
  let n := nat_of_ascii a in
  if (48 <=? n)%nat && (n <=? 57)%nat then Some (Z.of_nat (n - 48)) else None.

(** Digits with at most one point, read left to right. *)
Fixpoint scan_decimal (s : string) (num : Z) (scale : positive)
         (seen_point seen_digit : bool) : option Q :=
  match s with
  | EmptyString => if seen_digit then Some (num # scale) else None
  | String a t =>
      if Ascii.eqb a "."%char
      then if seen_point then None else scan_decimal t num scale true seen_digit
      else match digit_of a with
           | Some d => scan_decimal t (10 * num + d)%Z
                                    (if seen_point then (10 * scale)%positive else scale)
                                    seen_point true
           | None => None
           end
  end.

(** [float(s)] on a plain decimal literal such as [-12.5]; the other
    spellings Python accepts (exponents, [inf], [nan]) are not read. *)
Definition decimal_literal (s : string) : option Qc :=
  match strip s with
  | String "-"%char t =>
      match scan_decimal t 0 1 false false with
      | Some q => Some (Q2Qc (- q))
      | None => None
      end
  | t =>
      match scan_decimal t 0 1 false false with
      | Some q => Some (Q2Qc q)
      | None => None
      end
  end.

(** The decimal digits of a fraction in [0, 1), at most [fuel] of them,
    stopping when nothing is left. *)
Fixpoint fraction_digits (fuel : nat) (q : Q) : string :=
  match fuel with
  | O => EmptyString
  | S fuel' =>
      let d := Qfloor (q * 10) in
      let rest := (q * 10 - inject_Z d)%Q in
      (NilZero.string_of_int (Z.to_int d)
       ++ (if Qeq_bool rest 0 then EmptyString else fraction_digits fuel' rest))%string
  end.

(** The text Python prints for a float of moderate size with a short
    decimal expansion: [100.0], [-12.5]. *)
Definition float_repr (q : Qc) : string :=
  let a := Qabs q in
  let i := Qfloor a in
  ((if Qc_ltb q 0 then "-" else "")
   ++ NilZero.string_of_int (Z.to_int i) ++ "."
   ++ fraction_digits 17 (a - inject_Z i)%Q)%string.

(** A parser that reads no text as a number: enough for frames whose
    numbers are already numbers. *)
Definition no_text_number : string -> option fnum := fun _ => None.

(** Finite decimal literals as [pd.to_numeric] reads them. *)
Definition decimal_number (s : string) : option fnum :=
  match decimal_literal s with
  | Some q => Some (Fin q)
  | None => None
  end.

(** Boolean equality, used to compare computed frames. *)
Definition dtype_eqb (d e : dtype) : bool :=
  match d, e with
  | Dtype a, Dtype b => String.eqb a b
  | Categorical a, Categorical b =>
      (fix eqb (l l' : list string) : bool :=
         match l, l' with
         | [], [] => true
         | x :: t, y :: t' => String.eqb x y && eqb t t'
         | _, _ => false
         end) a b
  | _, _ => false
  end.

Fixpoint row_eqb (r r' : row) : bool :=
  match r, r' with
  | [], [] => true
  | (n, v) :: t, (n', v') :: t' => String.eqb n n' && cell_eqb v v' && row_eqb t t'
  | _, _ => false
  end.

Fixpoint rows_eqb (l l' : list row) : bool :=
  match l, l' with
  | [], [] => true
  | r :: t, r' :: t' => row_eqb r r' && rows_eqb t t'
  | _, _ => false
  end.

Fixpoint columns_eqb (l l' : list (string * dtype)) : bool :=
  match l, l' with
  | [], [] => true
  | (n, d) :: t, (n', d') :: t' => String.eqb n n' && dtype_eqb d d' && columns_eqb t t'
  | _, _ => false
  end.

Definition frame_eqb (a b : DataFrame) : bool :=
  columns_eqb (columns a) (columns b) && rows_eqb (rows a) (rows b).

(** Cells of whole numbers and of texts, to write frames down. *)
Definition int_cell (z : Z) : cell := Num (Fin (qz z)).

(* ================================================================== *)
(** * Frames of the worked examples *)

(** End-to-end scenario 1 of the specification; the prior period has one
    more row, whose region is missing. *)
Definition sales_current : DataFrame :=
  mkDataFrame [("region", Dtype "object"); ("sales", Dtype "int64")]
              [[("region", Str "East"); ("sales", int_cell 100)]].

Definition sales_previous : DataFrame :=
  mkDataFrame [("region", Dtype "object"); ("sales", Dtype "int64")]
              [[("region", Str "East"); ("sales", int_cell 80)];
               [("region", Str "West"); ("sales", int_cell 50)];
               [("region", NA); ("sales", int_cell 7)]].

(** End-to-end scenario 2: a group that the prior period does not have,
    with a current total of 40. *)
Definition north_current : DataFrame :=
  mkDataFrame [("region", Dtype "object"); ("sales", Dtype "int64")]
              [[("region", Str "North"); ("sales", int_cell 40)]].

(** End-to-end scenario 3: loans binned at 100 and 500. The last row of
    the current period holds a text where the amount should be. *)
Definition loans : DataFrame :=
  mkDataFrame [("loan_amount", Dtype "object"); ("count", Dtype "int64")]
              [[("loan_amount", int_cell 100); ("count", int_cell 1)];
               [("loan_amount", int_cell 500); ("count", int_cell 2)];
               [("loan_amount", int_cell 50); ("count", int_cell 4)];
               [("loan_amount", Str "n/a"); ("count", int_cell 8)]].

Definition loans_previous : DataFrame :=
  mkDataFrame [("loan_amount", Dtype "float64"); ("count", Dtype "int64")]
              [[("loan_amount", int_cell 50); ("count", int_cell 3)];
               [("loan_amount", int_cell 100); ("count", int_cell 5)]].

Definition loan_cutpoints : list Qc := [qz 100; qz 500].

Definition loan_labels : list string :=
  DataAnalyzerV2.create_interval_labels float_repr loan_cutpoints NaN NaN.

Definition binned (df : DataFrame) : DataFrame :=
  match DataAnalyzerV2.apply_interval_binning no_text_number df "loan_amount"
                                              loan_cutpoints loan_labels with
  | Some b => b
  | None => empty_frame
  end.

(* ================================================================== *)
(** * Totals as rationals *)




(** What the second loop of [calculate_comparison] does to one row for
    one metric: the change, then the growth, each read from the current
    and the prior total; [chg] and [gr] are the analyzer's own
    formulas. *)
Definition growth_step (chg gr : fnum -> fnum -> fnum) (r : row) (m : string) : row :=
  let value (f : fnum -> fnum -> fnum) (r : row) :=
    match num_of_cell (get r (m ++ "_本月")%string),
          num_of_cell (get r (m ++ "_上月")%string) with
    | Some c, Some p => Num (f c p)
    | _, _ => NA
    end in
  let r1 := set_cell r (m ++ "_变化")%string (value chg r) in
  set_cell r1 (m ++ "_环比(%)")%string (value gr r1).

Definition growth_row (chg gr : fnum -> fnum -> fnum) (metrics : list string) (r : row)
  : row :=
  fold_left (growth_step chg gr) metrics r.

(** The columns after that loop. *)
Definition growth_columns (metrics : list string) (cols : list (string * dtype))
  : list (string * dtype) :=
  fold_left (fun cl m => set_dtype (set_dtype cl (m ++ "_变化")%string (Dtype "float64"))
                                   (m ++ "_环比(%)")%string (Dtype "float64"))
            metrics cols.

(** Every current and prior total of the row is a number. *)
Definition numeric_totals (metrics : list string) (r : row) : Prop :=
  forall m, In m metrics ->
            (exists c, get r (m ++ "_本月")%string = Num c)
            /\ exists p, get r (m ++ "_上月")%string = Num p.

(** The names the comparison derives from the metrics are not names of
    grouping keys. *)
Definition derived_names_fresh (keys metrics : list string) : Prop :=
  forall m, In m metrics ->
            ~ In (m ++ "_本月")%string keys /\ ~ In (m ++ "_上月")%string keys
            /\ ~ In (m ++ "_变化")%string keys /\ ~ In (m ++ "_环比(%)")%string keys.

(** A loop that writes one derived column per metric, on one row:
    [name] gives the column written for a metric and [value] what is
    written, read from the row as it stands. *)
Definition derive_row (name : string -> string) (value : string -> row -> cell)
           (metrics : list string) (r : row) : row :=
  fold_left (fun r m => set_cell r (name m) (value m r)) metrics r.

(** What [calculate_growth_rate] of the automatic script writes in the
    growth column of a metric. *)
Definition auto_growth_value (m : string) (r : row) : cell :=
  match num_of_cell (get r (AutoMonthly.current_col m)),
        num_of_cell (get r (AutoMonthly.previous_col m)) with
  | Some c, Some p => Num (AutoMonthlyRate.growth_rate c p)
  | _, _ => NA
  end.

(** What [format_results] writes in the percentage column of a
    metric. *)
Definition auto_format_value (format_pct : Qc -> string) (m : string) (r : row) : cell :=
  match AutoMonthly.format_percentage format_pct (get r (AutoMonthly.growth_col m)) with
  | Some text => text
  | None => NA
  end.

(** The names the automatic script derives from the metrics are not
    names of grouping keys. *)
Definition auto_names_fresh (keys metrics : list string) : Prop :=
  forall m, In m metrics ->
            ~ In (AutoMonthly.current_col m) keys
            /\ ~ In (AutoMonthly.previous_col m) keys
            /\ ~ In (AutoMonthly.growth_col m) keys
            /\ ~ In (AutoMonthly.formatted_col m) keys.

(** The verdict of [analyze_columns] on one column: [Some true] for a
    dimension, [Some false] for a metric, [None] for a column without a
    value, which is passed over. *)
Definition column_kind (str_to_float : string -> option fnum) (df : DataFrame)
           (col : string * dtype) : option bool :=
  let non_null_values := filter (fun c => negb (isna c)) (series df (fst col)) in
  if (List.length non_null_values =? 0)%nat then None
  else if DataAnalyzer.is_text_dtype (snd col) then Some true
  else if DataAnalyzer.is_number_dtype (snd col) then Some false
  else match Pandas.to_numeric_raise str_to_float (firstn 10 non_null_values) with
       | Some _ => Some false
       | None => Some true
       end.

(** The columns of one kind, in column order. *)
Definition columns_of_kind (kind : string * dtype -> option bool) (b : bool)
           (cols : list (string * dtype)) : list string :=
  map fst (filter (fun col => match kind col with
                              | Some b' => Bool.eqb b' b
                              | None => false
                              end) cols).

(** The verdict of [identify_column_types] on one column. *)
Definition auto_column_kind (is_string_dtype is_numeric_dtype : dtype -> bool)
           (exclude : list string) (col : string * dtype) : option bool :=
  if mem (lower (fst col)) exclude then None
  else if mem (dtype_str (snd col)) ["object"; "category"] || is_string_dtype (snd col)
       then Some true
       else if is_numeric_dtype (snd col) then Some false else None.

(* ================================================================== *)
(** * The prompts of the interactive analyzers *)

Module Prompts.

Section WithParser.

(** [int(s)]; [None] is its [ValueError]. The parser belongs to Python
    and is left open. *)
Variable py_int : string -> option Z.

(** [dimensions[idx - 1]] for each index, as the loop of
    [get_user_dimension_selection] collects them (lines 180-186 of
    [data_analyzer.py], 224-230 of [data_analyzer_v2.py]); [None] when
    the loop breaks on an index out of range. *)
Fixpoint select_indices (dimensions : list string) (indices : list Z)
  : option (list string) :=
  match indices with
  | [] => Some []
  | idx :: rest =>
      if (1 <=? idx)%Z && (idx <=? Z.of_nat (List.length dimensions))%Z
      then match select_indices dimensions rest with
           | Some selected_dims =>
               Some (nth (Z.to_nat (idx - 1)) dimensions "" :: selected_dims)
           | None => None
           end
      else None
  end.

(** The indices typed in one answer; [None] is the [ValueError]. *)
Definition parse_indices (selection : string) : option (list Z) :=
  if contains "," selection
  then mapM (fun x => py_int (strip x)) (split_comma selection)
  else mapM py_int [selection].

(** [get_user_dimension_selection] over the answers the user types, one
    per prompt; [None] when they run out before one is accepted. *)
Fixpoint get_user_dimension_selection (answers : list string)
         (dimensions : list string) : option (list string) :=
  match answers with
  | [] => None
  | answer :: rest =>
      let selection := strip answer in
      if String.eqb (lower selection) "all" then Some dimensions
      else match parse_indices selection with
           | None => get_user_dimension_selection rest dimensions
           | Some indices =>
               match select_indices dimensions indices with
               | Some (d :: ds) => Some (d :: ds)
               | _ => get_user_dimension_selection rest dimensions
               end
           end
  end.

(** [get_user_metric_selection] of [data_analyzer_v2.py] (lines
    262-288), likewise. *)
Fixpoint get_user_metric_selection (answers : list string) (metrics : list string)
  : option string :=
  match answers with
  | [] => None
  | answer :: rest =>
      let selection := strip answer in
      match py_int selection with
      | None => get_user_metric_selection rest metrics
      | Some idx =>
          if (1 <=? idx)%Z && (idx <=? Z.of_nat (List.length metrics))%Z
          then Some (nth (Z.to_nat (idx - 1)) metrics "")
          else get_user_metric_selection rest metrics
      end
  end.

(** [get_analysis_mode_choice] (lines 153-175), likewise. *)
Fixpoint get_analysis_mode_choice (answers : list string) : option Z :=
  match answers with
  | [] => None
  | answer :: rest =>
      let choice := strip answer in
      if String.eqb choice "1" then Some 1%Z
      else if String.eqb choice "2" then Some 2%Z
      else get_analysis_mode_choice rest
  end.

End WithParser.

End Prompts.

(* ================================================================== *)
(** * The interactive sessions, from the loaded data on *)

Module Sessions.

Section WithLibrary.

Variable str_to_float : string -> option fnum.
Variable py_int : string -> option Z.
Variable observed : bool.


(** [run_dimension_summary] of [data_analyzer_v2.py] (lines 562-607);
    [None] when the prompt is never satisfied. A frame that was not
    loaded makes [group_and_summarize] return the empty frame. *)
Definition run_dimension_summary (self : DataAnalyzerV2.ExcelDataAnalyzer)
           (answers : list string) : option DataFrame :=
  match DataAnalyzerV2.dimension_columns self, DataAnalyzerV2.metric_columns self with
  | [], _ => Some empty_frame
  | _, [] => Some empty_frame
  | dimension_columns, metric_columns =>
      match Prompts.get_user_dimension_selection py_int answers dimension_columns with
      | None => None
      | Some selected_dimensions =>
          let summary data :=
            match data with
            | Some df =>
                DataAnalyzerV2.group_and_summarize str_to_float observed df
                                                   selected_dimensions metric_columns
            | None => empty_frame
            end in
          let current_summary := summary (DataAnalyzerV2.current_month_data self) in
          let previous_summary := summary (DataAnalyzerV2.previous_month_data self) in
          if is_empty current_summary || is_empty previous_summary
          then Some empty_frame
          else Some (DataAnalyzerV2.calculate_comparison current_summary
                                                         previous_summary
                                                         selected_dimensions
                                                         metric_columns)
      end
  end.

End WithLibrary.

End Sessions.

(** No column of the frame is named like a column the comparison
    derives from another column. *)
Definition no_derived_column_names (df : DataFrame) : Prop :=
  derived_names_fresh (column_names df) (column_names df).

(** The categories of every categorical column are distinct, as pandas
    has them. *)
Definition distinct_categories (df : DataFrame) : Prop :=
  forall k cats, column_dtype (columns df) k = Some (Categorical cats) -> NoDup cats.

(* ================================================================== *)
(** * [data_analysis_report.py] *)

Module Report.

(** A point in time is a number, [nan] standing for [NaT]. The three
    periods of [self.data]. *)
Record Periods : Type := mkPeriods {
  current : DataFrame;
  last_month : DataFrame;
  last_year : DataFrame
}.

Record DataAnalysisReport : Type := mkReport {
  data : option Periods;
  report_date : option fnum;
  last_month_date : option fnum;
  last_year_date : option fnum
}.

(** [__init__]; the empty dictionary is [None]. *)
Definition init : DataAnalysisReport := mkReport None None None None.

(** [df[df[date_column] == date]]: a text never equals a point in
    time, nor does [NaT]. *)
Definition rows_dated (df : DataFrame) (date_column : string) (date : fnum)
  : DataFrame :=
  mkDataFrame (columns df)
              (filter (fun r => match get r date_column with
                                | Num x => feqb x date
                                | Str _ => false
                                end) (rows df)).

(** [df[date_column].max()]: missing dates are skipped, and a text
    among the dates raises. *)
Definition latest_date (df : DataFrame) (date_column : string) : option fnum :=
  match mapM num_of_cell (series df date_column) with
  | Some dates =>
      Some (DataAnalyzerV2.series_max (filter (fun x => negb (fisna x)) dates))
  | None => None
  end.

Section WithCalendar.

(** [date - pd.DateOffset(months=1)] and [date - pd.DateOffset(years=1)],
    left to the library. *)
Variable month_before : fnum -> fnum.
Variable year_before : fnum -> fnum.

(** [prepare_data_by_periods] (lines 50-83): the analyzer afterwards;
    [None] is an exception (the date column is not in the frame, or the
    latest date cannot be taken). *)
Definition prepare_data_by_periods (self : DataAnalysisReport) (df : DataFrame)
           (date_column : string) (target_date : option fnum)
  : option DataAnalysisReport :=
  if has_column df date_column
  then
    match (match target_date with
           | Some date => Some date
           | None => latest_date df date_column
           end) with
    | Some target_date =>
        let last_month_date := month_before target_date in
        let last_year_date := year_before target_date in
        Some (mkReport
                (Some (mkPeriods (rows_dated df date_column target_date)
                                 (rows_dated df date_column last_month_date)
                                 (rows_dated df date_column last_year_date)))
                (Some target_date) (Some last_month_date) (Some last_year_date))
    | None => None
    end
  else None.

End WithCalendar.

(** The five aggregations of [analyze_by_dimensions]. *)
Inductive Aggregation : Type := Sum | Mean | Count | Max | Min.

Definition aggregation_of (name : string) : option Aggregation :=
  if String.eqb name "sum" then Some Sum
  else if String.eqb name "mean" then Some Mean
  else if String.eqb name "count" then Some Count
  else if String.eqb name "max" then Some Max
  else if String.eqb name "min" then Some Min
  else None.

(** One group's aggregate of the value column. [count] counts the
    values that are not missing. The other four are modelled on
    numbers, missing values skipped: an empty [sum] is [0], an empty
    [mean], [max] or [min] is [nan]; on a text they stop with [None],
    as [mean] does in pandas (which concatenates texts under [sum] and
    compares them under [max] and [min]). *)
Definition aggregate (how : Aggregation) (values : list cell) : option cell :=
  match how with
  | Count =>
      Some (Num (Fin (qz (Z.of_nat (List.length
                                      (filter (fun c => negb (isna c)) values))))))
  | _ =>
      match mapM num_of_cell values with
      | None => None
      | Some numbers =>
          let present := filter (fun x => negb (fisna x)) numbers in
          Some (Num match how with
                    | Sum => series_sum values
                    | Mean =>
                        match present with
                        | [] => NaN
                        | _ :: _ =>
                            fdiv (series_sum values)
                                 (Fin (qz (Z.of_nat (List.length present))))
                        end
                    | Max => DataAnalyzerV2.series_max present
                    | _ => DataAnalyzerV2.series_min present
                    end)
      end
  end.

Section WithObserved.

(** pandas' default for [groupby(observed=...)]. *)
Variable observed : bool.

(** [df.groupby(dimensions)[value_column].<how>().reset_index()];
    [None] is an exception: no dimension, a column the frame lacks, or
    the value column among the dimensions. *)
Definition group_and_aggregate (how : Aggregation) (df : DataFrame)
           (dimensions : list string) (value_column : string) : option DataFrame :=
  match dimensions with
  | [] => None
  | _ :: _ =>
      if forallb (has_column df) dimensions && has_column df value_column
         && negb (mem value_column dimensions)
      then
        let valid := filter (fun r => negb (has_na_key dimensions r)) (rows df) in
        match mapM (fun k =>
                      match aggregate how
                              (map (fun r => get r value_column)
                                   (filter (fun r => key_eqb (key_of dimensions r) k)
                                           valid)) with
                      | Some v => Some (combine dimensions k ++ [(value_column, v)])
                      | None => None
                      end)
                   (Pandas.group_keys observed (columns df) dimensions valid) with
        | Some rs =>
            Some (mkDataFrame
                    (map (fun k => (k, match column_dtype (columns df) k with
                                       | Some d => d
                                       | None => Dtype "object"
                                       end)) dimensions
                     ++ [(value_column,
                          match how, column_dtype (columns df) value_column with
                          | Count, _ => Dtype "int64"
                          | Mean, _ => Dtype "float64"
                          | _, Some d => d
                          | _, None => Dtype "float64"
                          end)])
                    rs)
        | None => None
        end
      else None
  end.

(** The aggregate of one period (lines 120-137): an empty period gives
    an empty frame with the dimension and value columns, whatever the
    aggregation is called. *)
Definition aggregate_period (aggregation : string) (df : DataFrame)
           (dimensions : list string) (value_column : string) : option DataFrame :=
  match rows df with
  | _ :: _ =>
      match aggregation_of aggregation with
      | Some how => group_and_aggregate how df dimensions value_column
      | None => None
      end
  | [] =>
      Some (mkDataFrame (map (fun c => (c, Dtype "object"))
                             (dimensions ++ [value_column])) [])
  end.

(** [df.rename(columns={old: new})]. *)
Definition rename_column (df : DataFrame) (old new : string) : DataFrame :=
  let rename (c : string) := if String.eqb c old then new else c in
  mkDataFrame (map (fun c => (rename (fst c), snd c)) (columns df))
              (map (map (fun c : string * cell => (rename (fst c), snd c))) (rows df)).

(** [left.merge(right, on=on, how='left')], with pandas' default
    suffixes for a column name both sides have. *)
Definition merge_left (left right : DataFrame) (on : list string) : option DataFrame :=
  match on with
  | [] => None
  | _ :: _ =>
      if forallb (has_column left) on && forallb (has_column right) on
      then
        let lothers := filter (fun c => negb (mem (fst c) on)) (columns left) in
        let rothers := filter (fun c => negb (mem (fst c) on)) (columns right) in
        let lname c := if mem c (map fst rothers) then (c ++ "_x")%string else c in
        let rname c := if mem c (map fst lothers) then (c ++ "_y")%string else c in
        let lcols := map (fun c => (fst c, lname (fst c))) lothers in
        let rcols := map (fun c => (fst c, rname (fst c))) rothers in
        Some (mkDataFrame
                (map (fun k => (k, match column_dtype (columns left) k with
                                   | Some d => d
                                   | None => Dtype "object"
                                   end)) on
                 ++ map (fun c => (lname (fst c), snd c)) lothers
                 ++ map (fun c => (rname (fst c), snd c)) rothers)
                (flat_map (fun x =>
                             match Pandas.matches on x (rows right) with
                             | [] => [Pandas.join_row on lcols rcols (Some x) None]
                             | ys => map (fun y => Pandas.join_row on lcols rcols
                                                                   (Some x) (Some y)) ys
                             end) (rows left)))
      else None
  end.

Definition current_col (value_column : string) : string :=
  ("当前期_" ++ value_column)%string.
Definition last_month_col (value_column : string) : string :=
  ("上月_" ++ value_column)%string.
Definition last_year_col (value_column : string) : string :=
  ("去年同期_" ++ value_column)%string.
Definition mom_col : string := "环比增长率(%)".
Definition yoy_col : string := "同比增长率(%)".

(** Lines 146-157: the left merge with a prior period's aggregate, or
    a column of missing values when that aggregate has no row. *)
Definition add_period (result_df agg : DataFrame) (dimensions : list string)
           (value_column new_column : string) : option DataFrame :=
  match rows agg with
  | _ :: _ => merge_left result_df (rename_column agg value_column new_column) dimensions
  | [] => Some (assign result_df new_column (Dtype "float64") (fun _ => NA))
  end.

(** [calculate_growth_rates] on the three cells of a row; [None] is the
    [TypeError] of arithmetic on a text. A prior value that is missing
    or zero is not subtracted. *)
Definition growth_of_row (current_value last_month_value last_year_value : cell)
  : option (fnum * fnum) :=
  let unusable (v : cell) :=
    match v with
    | Num p => fisna p || feqb p (Fin 0%Qc)
    | Str _ => false
    end in
  match current_value, last_month_value, last_year_value with
  | Num c, Num l, Num y => Some (ReportRate.calculate_growth_rates c l y)
  | Str _, _, _ =>
      if unusable last_month_value && unusable last_year_value
      then Some (NaN, NaN)
      else None
  | _, _, _ => None
  end.

(** The [lambda row: ...] of lines 160-174: the two growth rates of a
    row of [result_df]; a column the frame lacks is a [KeyError]. *)
Definition row_growth (result_df : DataFrame) (value_column : string) (r : row)
  : option (fnum * fnum) :=
  if forallb (has_column result_df)
             [current_col value_column; last_month_col value_column;
              last_year_col value_column]
  then growth_of_row (get r (current_col value_column))
                     (get r (last_month_col value_column))
                     (get r (last_year_col value_column))
  else None.

(** The loop of lines 177-179 on one column: rounded to two decimals
    when its name contains [增长率]; rounding a text raises. *)
Definition round_column (df : DataFrame) (col : string) : option DataFrame :=
  if contains "增长率" col
  then match mapM (fun r => match get r col with
                            | Num x => Some (set_cell r col (Num (fround x 2)))
                            | Str _ => None
                            end) (rows df) with
       | Some rs => Some (mkDataFrame (columns df) rs)
       | None => None
       end
  else Some df.

(** Lines 159-179 of [analyze_by_dimensions]: the two growth columns,
    then the rounding. *)
Definition add_growth_rates (result_df : DataFrame) (value_column : string)
  : option DataFrame :=
  match assign_opt result_df mom_col (Dtype "float64")
                   (fun r => match row_growth result_df value_column r with
                             | Some g => Some (Num (fst g))
                             | None => None
                             end) with
  | None => None
  | Some result_df =>
      match assign_opt result_df yoy_col (Dtype "float64")
                       (fun r => match row_growth result_df value_column r with
                                 | Some g => Some (Num (snd g))
                                 | None => None
                                 end) with
      | None => None
      | Some result_df => foldM round_column (column_names result_df) result_df
      end
  end.

(** [analyze_by_dimensions] (lines 103-184); [None] is an exception,
    among them the [KeyError] of a row read at a column that a clash of
    names made the merge rename. *)
Definition analyze_by_dimensions (self : DataAnalysisReport)
           (dimensions : list string) (value_column aggregation : string)
  : option DataFrame :=
  match data self with
  | None => None
  | Some periods =>
      match aggregate_period aggregation (current periods) dimensions value_column with
      | None => None
      | Some agg_current =>
      match aggregate_period aggregation (last_month periods) dimensions value_column with
      | None => None
      | Some agg_last_month =>
      match aggregate_period aggregation (last_year periods) dimensions value_column with
      | None => None
      | Some agg_last_year =>
          match rows agg_current with
          | [] => Some empty_frame
          | _ :: _ =>
              let result_df :=
                rename_column agg_current value_column (current_col value_column) in
              match add_period result_df agg_last_month dimensions value_column
                               (last_month_col value_column) with
              | None => None
              | Some result_df =>
                  match add_period result_df agg_last_year dimensions value_column
                                   (last_year_col value_column) with
                  | None => None
                  | Some result_df => add_growth_rates result_df value_column
                  end
              end
          end
      end
      end
      end
  end.

End WithObserved.

(** The statistics [generate_summary_report] keeps of one growth
    column. *)
Record GrowthStats : Type := mkGrowthStats {
  mean_rate : fnum;
  max_rate : fnum;
  min_rate : fnum;
  positive_items : nat;
  negative_items : nat
}.

(** The entry of one analysis in the summary. *)
Record Summary : Type := mkSummary {
  total_records : nat;
  mom_stats : GrowthStats;
  yoy_stats : GrowthStats
}.

(** [d[k] = v] on a dict kept in insertion order. *)
Fixpoint dict_set {V : Type} (d : list (string * V)) (k : string) (v : V)
  : list (string * V) :=
  match d with
  | [] => [(k, v)]
  | (n, w) :: t => if String.eqb n k then (n, v) :: t else (n, w) :: dict_set t k v
  end.

(** Lines 197-201 (and 204-208) on one growth column: [mean], [max]
    and [min] skip the missing rates, and a missing rate is neither
    above nor below zero. [None] is an exception: the [KeyError] of a
    frame without the column, or the [TypeError] of a text in it. *)
Definition growth_stats (result_df : DataFrame) (col : string) : option GrowthStats :=
  if has_column result_df col
  then
    match mapM num_of_cell (series result_df col) with
    | None => None
    | Some rates =>
        let present := filter (fun x => negb (fisna x)) rates in
        Some (mkGrowthStats
                match present with
                | [] => NaN
                | _ :: _ => fdiv (series_sum (series result_df col))
                                 (Fin (qz (Z.of_nat (List.length present))))
                end
                (DataAnalyzerV2.series_max present)
                (DataAnalyzerV2.series_min present)
                (List.length (filter (fun x => fgtb x (Fin 0%Qc)) rates))
                (List.length (filter (fun x => fltb x (Fin 0%Qc)) rates)))
    end
  else None.

(** The dict built at lines 194-210 for one analysis. *)
Definition summary_entry (result_df : DataFrame) : option Summary :=
  match growth_stats result_df mom_col, growth_stats result_df yoy_col with
  | Some mom, Some yoy => Some (mkSummary (List.length (rows result_df)) mom yoy)
  | _, _ => None
  end.

(** [generate_summary_report] (lines 186-212). [analysis_results] is
    the dict of the analyses, in insertion order; the parameter
    [dimensions], which the method does not read, is left out. *)
Definition generate_summary_report (analysis_results : list (string * DataFrame))
  : option (list (string * Summary)) :=
  foldM (fun summary (item : string * DataFrame) =>
           let '(dim_name, result_df) := item in
           match rows result_df with
           | [] => Some summary
           | _ :: _ =>
               match summary_entry result_df with
               | Some entry => Some (dict_set summary dim_name entry)
               | None => None
               end
           end) analysis_results [].

End Report.

(** The value that a prior period's aggregate holds for the group of
    a row; missing when that period has no such group. *)
Definition prior_value (agg : DataFrame) (dimensions : list string)
           (value_column : string) (x : row) : cell :=
  match Pandas.matches dimensions x (rows agg) with
  | y :: _ => get y value_column
  | [] => NA
  end.

(** The names the report works with do not interfere: the value column
    and the three columns derived from it are not dimensions, and only
    the two growth columns have [增长率] in their names. *)
Definition report_names_fresh (dimensions : list string) (value_column : string)
  : Prop :=
  ~ In value_column dimensions
  /\ ~ In (Report.current_col value_column) dimensions
  /\ ~ In (Report.last_month_col value_column) dimensions
  /\ ~ In (Report.last_year_col value_column) dimensions
  /\ contains "增长率" value_column = false
  /\ forall d, In d dimensions -> contains "增长率" d = false.

(** A frame whose rows all carry exactly the columns [names], in this
    order. *)
Definition rows_shaped (df : DataFrame) (names : list string) : Prop :=
  column_names df = names /\ forall r, In r (rows df) -> map fst r = names.

(** The total of a column over a whole frame, as the automatic script
    reports it without dimensions: the sum of the column, zero filled. *)
Definition filled_total (df : DataFrame) (m : string) : fnum :=
  let total := series_sum (series df m) in
  if fisna total then Fin 0%Qc else total.

(** An analysis with at least one row. *)
Definition has_rows (df : DataFrame) : bool :=
  match rows df with
  | [] => false
  | _ :: _ => true
  end.

(** A row whose rate in column [col] is zero or missing. *)
Definition flat_or_missing (col : string) (r : row) : bool :=
  match get r col with
  | Num x => fisna x || feqb x (Fin 0%Qc)
  | Str _ => false
  end.

(** Statistics that count every row of [df] once, as growing, falling
    or neither, and whose extremes bound every rate of column [col]. *)
Definition counted_once (df : DataFrame) (col : string) (stats : Report.GrowthStats)
  : Prop :=
  (Report.positive_items stats + Report.negative_items stats
   + List.length (filter (flat_or_missing col) (rows df))
   = List.length (rows df))%nat
  /\ forall r x, In r (rows df) -> get r col = Num x -> fisna x = false ->
                 fleb (Report.min_rate stats) x = true
                 /\ fleb x (Report.max_rate stats) = true.

(** The values [analyze_metric_range] takes the range of: the numbers
    of the metric column in the rows of either period. *)
Definition metric_value (stf : string -> option fnum) (metric_name : string)
           (r : row) (x : fnum) : Prop :=
  Pandas.to_numeric_coerce stf (get r metric_name) = Num x /\ fisna x = false.

(* ================================================================== *)
(** * Further example frames *)

(** [int(s)] on a plain literal such as [-12]: digits with an optional
    minus sign, spaces around them allowed. *)
Definition int_literal (s : string) : option Z :=
  if contains "." s then None
  else match decimal_literal s with
       | Some q => Some (Qnum q)
       | None => None
       end.

(** The summary by region of a sales frame of the first scenario. *)
Definition sales_summary (df : DataFrame) : DataFrame :=
  DataAnalyzer.group_and_summarize no_text_number false df ["region"] ["sales"].

(** The filled merge of the two summaries; the second row is the West
    region, which only the prior period has. *)
Definition sales_merged : DataFrame :=
  match DataAnalyzer.merge_and_fill (sales_summary sales_current)
                                    (sales_summary sales_previous)
                                    ["region"] ["sales"] with
  | Some merged => merged
  | None => empty_frame
  end.


(** The second analyzer after loading and classifying the first
    scenario's files. *)
Definition sales_analyzer : DataAnalyzerV2.ExcelDataAnalyzer :=
  DataAnalyzerV2.mkAnalyzer
    (Some sales_current) (Some sales_previous)
    (fst (DataAnalyzerV2.analyze_columns no_text_number sales_current))
    (snd (DataAnalyzerV2.analyze_columns no_text_number sales_current)).

Definition sales_dimension_summary : DataFrame :=
  match Sessions.run_dimension_summary no_text_number int_literal false sales_analyzer
                                       ["all"] with
  | Some result => result
  | None => empty_frame
  end.

(** A frame for the report: dates are day numbers; day 100 is the
    latest, day 70 a month and day -265 a year before it. *)
Definition report_sales : DataFrame :=
  mkDataFrame [("date", Dtype "datetime64[ns]"); ("region", Dtype "object");
               ("amount", Dtype "int64")]
              [[("date", int_cell 100); ("region", Str "East"); ("amount", int_cell 120)];
               [("date", int_cell 100); ("region", Str "West"); ("amount", int_cell 50)];
               [("date", int_cell 70); ("region", Str "East"); ("amount", int_cell 100)];
               [("date", int_cell 70); ("region", Str "South"); ("amount", int_cell 30)];
               [("date", int_cell (-265)); ("region", Str "East");
                ("amount", int_cell 80)]].

Definition days_before (n : Z) (date : fnum) : fnum := fsub date (Fin (qz n)).

Definition report_prepared : Report.DataAnalysisReport :=
  match Report.prepare_data_by_periods (days_before 30) (days_before 365) Report.init
                                       report_sales "date" None with
  | Some prepared => prepared
  | None => Report.init
  end.

Definition report_periods : Report.Periods :=
  match Report.data report_prepared with
  | Some periods => periods
  | None => Report.mkPeriods empty_frame empty_frame empty_frame
  end.

Definition report_by_region : DataFrame :=
  match Report.analyze_by_dimensions false report_prepared ["region"] "amount" "sum" with
  | Some result => result
  | None => empty_frame
  end.

(** The automatic script on the first scenario's files: columns of
    dtype [object] are texts, those of dtype [int64] or [float64] are
    numbers. *)
Definition is_object_dtype (d : dtype) : bool := dtype_eqb d (Dtype "object").

Definition is_number_dtype (d : dtype) : bool :=
  dtype_eqb d (Dtype "int64") || dtype_eqb d (Dtype "float64").

Definition sales_automatic_run : AutoMonthly.AutoMonthlyAnalyzer * DataFrame :=
  match AutoMonthly.run_analysis is_object_dtype is_number_dtype false float_repr
                                 (AutoMonthly.init []) sales_current sales_previous with
  | (after, Some formatted) => (after, formatted)
  | (after, None) => (after, empty_frame)
  end.

(** The interval mode of the second analyzer on the two loan frames,
    binned by amount with the cut points typed as [500, 100]. *)
Definition loans_analyzer : DataAnalyzerV2.ExcelDataAnalyzer :=
  DataAnalyzerV2.mkAnalyzer (Some loans) (Some loans_previous)
                            [] ["loan_amount"; "count"].

Definition loans_interval_summary : DataFrame :=
  match DataAnalyzerV2.run_metric_interval_summary
          decimal_number decimal_literal float_repr false loans_analyzer
          "loan_amount" ["500, 100"] with
  | Some result => result
  | None => empty_frame
  end.

(** Two analyses of the report example, the second one without rows,
    and their summary. *)
Definition report_results : list (string * DataFrame) :=
  [("region", report_by_region); ("category", empty_frame)].

Definition report_summary : list (string * Report.Summary) :=
  match Report.generate_summary_report report_results with
  | Some summary => summary
  | None => []
  end.

(** Two files without a dimension column, for the grand totals of the
    automatic script. *)
Definition totals_current : DataFrame :=
  mkDataFrame [("sales", Dtype "int64"); ("units", Dtype "int64")]
              [[("sales", int_cell 100); ("units", int_cell 4)];
               [("sales", int_cell 20); ("units", NA)]].

Definition totals_previous : DataFrame :=
  mkDataFrame [("sales", Dtype "int64"); ("units", Dtype "int64")]
              [[("sales", int_cell 80); ("units", int_cell 0)]].

Definition totals_automatic_run : AutoMonthly.AutoMonthlyAnalyzer * DataFrame :=
  match AutoMonthly.run_analysis is_object_dtype is_number_dtype false float_repr
                                 (AutoMonthly.init []) totals_current totals_previous with
  | (after, Some formatted) => (after, formatted)
  | (after, None) => (after, empty_frame)
  end.

Unset Implicit Arguments.

(* ================================================================== *)
(** * Facts on numbers *)

Lemma Qc_eq_bool_refl (a : Qc) : Qc_eq_bool a a = true.
Proof.
  unfold Qc_eq_bool. destruct (Qc_eq_dec a a) as [_ | n]; [reflexivity | now elim n].
Qed.

Lemma Qc_eq_bool_iff (a b : Qc) : Qc_eq_bool a b = true <-> a = b.
Proof.
  split.
  - apply Qc_eq_bool_correct.
  - intros ->. apply Qc_eq_bool_refl.
Qed.

Lemma Qc_eq_bool_neq (a b : Qc) : a <> b -> Qc_eq_bool a b = false.
Proof.
  intros n. destruct (Qc_eq_bool a b) eqn:E; [| reflexivity].
  apply Qc_eq_bool_iff in E. contradiction.
Qed.

Lemma Qc_ltb_lt (a b : Qc) : Qc_ltb a b = true <-> (a < b)%Qc.
Proof.
  unfold Qc_ltb. rewrite Qclt_alt.
  destruct (a ?= b)%Qc; split; congruence.
Qed.

Lemma Qc_leb_le (a b : Qc) : Qc_leb a b = true <-> (a <= b)%Qc.
Proof.
  unfold Qc_leb. rewrite Qcle_alt.
  destruct (a ?= b)%Qc; split; congruence.
Qed.

(** The three array primitives of the automatic script, position by
    position. *)
Lemma zip_with_nth {A B C} (f : A -> B -> C) l l' i x y :
  nth_error l i = Some x -> nth_error l' i = Some y ->
  nth_error (AutoMonthlyRate.zip_with f l l') i = Some (f x y).
Proof.
  revert l l'. induction i as [| i IH]; intros [| a l] [| b l']; simpl;
    try discriminate.
  - now intros [= ->] [= ->].
  - apply IH.
Qed.

Lemma np_divide_nth a b out mask i x y o m :
  nth_error a i = Some x -> nth_error b i = Some y ->
  nth_error out i = Some o -> nth_error mask i = Some m ->
  nth_error (AutoMonthlyRate.np_divide a b out mask) i
  = Some (if m then fdiv x y else o).
Proof.
  revert a b out mask.
  induction i as [| i IH]; intros [| a0 a] [| b0 b] [| o0 out] [| m0 mask]; simpl;
    try discriminate.
  - now intros [= ->] [= ->] [= ->] [= ->].
  - apply IH.
Qed.

Lemma np_where_nth cond v arr i c x :
  nth_error cond i = Some c -> nth_error arr i = Some x ->
  nth_error (AutoMonthlyRate.np_where cond v arr) i = Some (if c then v else x).
Proof.
  revert cond arr. induction i as [| i IH]; intros [| c0 cond] [| x0 arr]; simpl;
    try discriminate.
  - now intros [= ->] [= ->].
  - apply IH.
Qed.

(** [growth_rate] is the entry [growth_column] computes at each
    position. *)
Lemma growth_column_nth current previous i c p :
  nth_error current i = Some c -> nth_error previous i = Some p ->
  nth_error (AutoMonthlyRate.growth_column current previous) i
  = Some (AutoMonthlyRate.growth_rate c p).
Proof.
  intros Hc Hp. unfold AutoMonthlyRate.growth_column, AutoMonthlyRate.growth_rate.
  erewrite np_where_nth.
  - reflexivity.
  - erewrite zip_with_nth by eassumption. reflexivity.
  - erewrite np_where_nth.
    + reflexivity.
    + erewrite zip_with_nth by eassumption. reflexivity.
    + erewrite np_divide_nth.
      * reflexivity.
      * apply zip_with_nth; eassumption.
      * eassumption.
      * rewrite nth_error_map, Hc. reflexivity.
      * rewrite nth_error_map, Hp. reflexivity.
Qed.

Lemma fsub_zero (c : Qc) : fsub (Fin c) (Fin 0%Qc) = Fin c.
Proof.
  unfold fsub. simpl. f_equal. ring.
Qed.

Lemma fgtb_zero (c : Qc) : fgtb (Fin c) (Fin 0%Qc) = true <-> (0 < c)%Qc.
Proof.
  unfold fgtb. simpl. apply Qc_ltb_lt.
Qed.

(* ================================================================== *)
(** * The growth-rate calculators *)

(** C1, as the code has it. With a prior total of zero and a positive
    current total, the automatic script yields positive infinity, while
    both interactive analyzers yield the finite value 100.0; the change
    they report next to it is the current total. *)
Theorem zero_prior_positive_current (c : Qc) :
  (0 < c)%Qc ->
  AutoMonthlyRate.growth_rate (Fin c) (Fin 0%Qc) = PInf
  /\ DataAnalyzerRate.growth_rate (Fin c) (Fin 0%Qc) = Fin (qz 100)
  /\ DataAnalyzerRate.change (Fin c) (Fin 0%Qc) = Fin c
  /\ DataAnalyzerV2Rate.growth_rate (Fin c) (Fin 0%Qc) = Fin (qz 100)
  /\ DataAnalyzerV2Rate.change (Fin c) (Fin 0%Qc) = Fin c.
Proof.
  intros Hc.
  assert (Hgt : fgtb (Fin c) (Fin 0%Qc) = true) by now apply fgtb_zero.
  unfold AutoMonthlyRate.growth_rate, DataAnalyzerRate.growth_rate,
    DataAnalyzerV2Rate.growth_rate, DataAnalyzerRate.change,
    DataAnalyzerV2Rate.change.
  assert (Hne : Qc_eq_bool c 0%Qc = false).
  { apply Qc_eq_bool_neq. intros ->. now apply (Qclt_not_eq 0%Qc 0%Qc). }
  rewrite Hgt, fsub_zero. unfold fneb. simpl.
  rewrite Hne. repeat split; reflexivity.
Qed.

Lemma zero_prior_positive_current_witness :
  (0 < qz 40)%Qc
  /\ AutoMonthlyRate.growth_rate (Fin (qz 40)) (Fin 0%Qc) = PInf
  /\ DataAnalyzerRate.growth_rate (Fin (qz 40)) (Fin 0%Qc) = Fin (qz 100)
  /\ DataAnalyzerRate.change (Fin (qz 40)) (Fin 0%Qc) = Fin (qz 40)
  /\ DataAnalyzerV2Rate.growth_rate (Fin (qz 40)) (Fin 0%Qc) = Fin (qz 100)
  /\ DataAnalyzerV2Rate.change (Fin (qz 40)) (Fin 0%Qc) = Fin (qz 40).
Proof.
  split; [reflexivity | apply (zero_prior_positive_current (qz 40)); reflexivity].
Defined.

(** C1 fails on [data_analyzer.py]: prior 0 and current 40 give the
    finite rate 100.0, not the infinity marker. *)
Lemma data_analyzer_zero_prior_is_finite :
  DataAnalyzerRate.growth_rate (Fin (qz 40)) (Fin 0%Qc) = Fin (qz 100)
  /\ DataAnalyzerRate.growth_rate (Fin (qz 40)) (Fin 0%Qc) <> PInf.
Proof.
  assert (E : DataAnalyzerRate.growth_rate (Fin (qz 40)) (Fin 0%Qc) = Fin (qz 100))
    by reflexivity.
  split; [exact E | rewrite E; discriminate].
Qed.




(** The automatic script at the same input: the prefilled [np.inf]
    stays, so a fall from 0 to -5 reads as positive infinity. *)
Example auto_monthly_negative_current :
  AutoMonthlyRate.growth_column [Fin (qz (-5))] [Fin 0%Qc] = [PInf].
Proof. reflexivity. Qed.

(** Equality of canonical rationals, decided on their fractions. *)
Lemma Qc_eq_by_value (a b : Qc) : (this a == this b)%Q -> a = b.
Proof. apply Qc_is_canon. Qed.

(** Rounding moves a value by at most one half. *)
Lemma round_half_even_close (q : Q) :
  (Qabs (inject_Z (round_half_even q) - q) <= 1 # 2)%Q.
Proof.
  unfold round_half_even.
  pose proof (Qfloor_le q) as Hlo.
  pose proof (Qlt_floor q) as Hhi.
  rewrite inject_Z_plus in Hhi. change (inject_Z 1) with 1%Q in Hhi.
  apply Qabs_Qle_condition.
  destruct (Qcompare_spec (q - inject_Z (Qfloor q)) (1 # 2)) as [E | L | G].
  - destruct (Z.even (Qfloor q)).
    + split; lra.
    + rewrite inject_Z_plus. change (inject_Z 1) with 1%Q. split; lra.
  - split; lra.
  - rewrite inject_Z_plus. change (inject_Z 1) with 1%Q. split; lra.
Qed.

(** Ties go to the even neighbour: 0.125 rounds to 0.12, 0.375 to 0.38. *)
Example round_ties_to_even :
  Qc_round (Q2Qc (1 # 8)) 2 = Q2Qc (12 # 100)
  /\ Qc_round (Q2Qc (3 # 8)) 2 = Q2Qc (38 # 100).
Proof. split; apply Qc_eq_by_value; reflexivity. Qed.

Lemma fneb_nonzero (p : Qc) : p <> 0%Qc -> fneb (Fin p) (Fin 0%Qc) = true.
Proof.
  intros H. unfold fneb. simpl. now rewrite Qc_eq_bool_neq.
Qed.



(** End-to-end scenario 1 of the specification, on the rate alone: from
    80 to 100 the interactive analyzers report 25.0. *)
Example growth_80_to_100 :
  DataAnalyzerRate.growth_rate (Fin (qz 100)) (Fin (qz 80)) = Fin (qz 25).
Proof.
  unfold DataAnalyzerRate.growth_rate. simpl. f_equal.
  apply Qc_eq_by_value. reflexivity.
Qed.


(** C10. In the report generator, a prior-period value that is missing
    or zero makes the month-over-month growth a missing value, whatever
    the current value. *)
Theorem report_growth_without_prior (current_value last_month_value last_year_value : fnum) :
  last_month_value = NaN \/ last_month_value = Fin 0%Qc ->
  fst (ReportRate.calculate_growth_rates current_value last_month_value
                                         last_year_value) = NaN.
Proof.
  intros [-> | ->]; reflexivity.
Qed.

Lemma report_growth_without_prior_witness :
  (Fin 0%Qc = NaN \/ Fin 0%Qc = Fin 0%Qc)
  /\ fst (ReportRate.calculate_growth_rates (Fin (qz 40)) (Fin 0%Qc) (Fin (qz 30)))
     = NaN.
Proof.
  split.
  - right. reflexivity.
  - apply (report_growth_without_prior (Fin (qz 40)) (Fin 0%Qc) (Fin (qz 30))).
    right. reflexivity.
Defined.

(** The three policies side by side, for a rise from 0 to 40. *)
Example three_zero_denominator_policies :
  fst (ReportRate.calculate_growth_rates (Fin (qz 40)) (Fin 0%Qc) NaN) = NaN
  /\ AutoMonthlyRate.growth_column [Fin (qz 40)] [Fin 0%Qc] = [PInf]
  /\ DataAnalyzerRate.growth_rate (Fin (qz 40)) (Fin 0%Qc) = Fin (qz 100).
Proof. repeat split. Qed.

(** With a usable prior value the report generator returns the
    unrounded percentage. *)
Example report_growth_80_to_100 :
  fst (ReportRate.calculate_growth_rates (Fin (qz 100)) (Fin (qz 80)) NaN)
  = Fin (qz 25).
Proof.
  unfold ReportRate.calculate_growth_rates. simpl. f_equal.
  apply Qc_eq_by_value. reflexivity.
Qed.

(* ================================================================== *)
(** * Facts on rows and keys *)

Lemma mem_In (c : string) (l : list string) : mem c l = true <-> In c l.
Proof.
  unfold mem. rewrite existsb_exists. split.
  - intros [x [Hx E]]. apply String.eqb_eq in E. now subst.
  - intros H. exists c. split; [exact H | apply String.eqb_refl].
Qed.

Lemma mem_not_In (c : string) (l : list string) : mem c l = false <-> ~ In c l.
Proof.
  rewrite <- mem_In. destruct (mem c l); split; congruence.
Qed.

Lemma cell_eqb_eq (a b : cell) : cell_eqb a b = true <-> a = b.
Proof.
  destruct a as [[p | | |] | s], b as [[q | | |] | t]; simpl;
    try (split; [discriminate | intros [=]]); try (split; reflexivity).
  - rewrite Qc_eq_bool_iff. split; [now intros -> | now intros [= ->]].
  - rewrite String.eqb_eq. split; [now intros -> | now intros [= ->]].
Qed.

Lemma key_eqb_eq (k k' : list cell) : key_eqb k k' = true <-> k = k'.
Proof.
  revert k'. induction k as [| a k IH]; intros [| b k']; simpl;
    try (split; [discriminate | intros [=]]); try (split; reflexivity).
  rewrite andb_true_iff, cell_eqb_eq, IH.
  split; [now intros [-> ->] | now intros [= -> ->]].
Qed.

Lemma key_eqb_refl (k : list cell) : key_eqb k k = true.
Proof. now apply key_eqb_eq. Qed.

Lemma key_eqb_neq (k k' : list cell) : key_eqb k k' = false <-> k <> k'.
Proof.
  rewrite <- key_eqb_eq. destruct (key_eqb k k'); split; congruence.
Qed.

Lemma get_set_cell (r : row) (c k : string) (v : cell) :
  get (set_cell r c v) k = if String.eqb c k then v else get r k.
Proof.
  induction r as [| [n w] r IH]; simpl.
  - reflexivity.
  - destruct (String.eqb n c) eqn:E; simpl.
    + apply String.eqb_eq in E. subst n. destruct (String.eqb c k); reflexivity.
    + rewrite IH. destruct (String.eqb n k) eqn:E'; [| reflexivity].
      apply String.eqb_eq in E'. subst n. now rewrite String.eqb_sym, E.
Qed.

Lemma get_app (r r' : row) (c : string) :
  get (r ++ r') c = if mem c (map fst r) then get r c else get r' c.
Proof.
  induction r as [| [n w] r IH]; simpl.
  - reflexivity.
  - rewrite (String.eqb_sym c n). destruct (String.eqb n c); simpl; [reflexivity | exact IH].
Qed.

(** A row written as one pair per name. *)
Lemma get_tabulate (f : string -> cell) (l : list string) (c : string) :
  get (map (fun k => (k, f k)) l) c = if mem c l then f c else NA.
Proof.
  induction l as [| a l IH]; simpl.
  - reflexivity.
  - rewrite (String.eqb_sym c a). destruct (String.eqb a c) eqn:E; simpl.
    + apply String.eqb_eq in E. now subst.
    + exact IH.
Qed.

Lemma map_fst_tabulate {A B} (name : A -> string) (f : A -> B) (l : list A) :
  map fst (map (fun x => (name x, f x)) l) = map name l.
Proof. rewrite map_map. reflexivity. Qed.

Lemma get_combine_key (keys : list string) (r0 : row) (rest : row) (k : string) :
  In k keys -> get (combine keys (key_of keys r0) ++ rest) k = get r0 k.
Proof.
  unfold key_of. induction keys as [| a keys IH]; simpl; intros H.
  - contradiction.
  - destruct (String.eqb a k) eqn:E.
    + apply String.eqb_eq in E. now subst.
    + apply IH. destruct H as [-> | H]; [| exact H].
      now rewrite String.eqb_refl in E.
Qed.

Lemma key_of_ext (keys : list string) (r r' : row) :
  (forall k, In k keys -> get r k = get r' k) -> key_of keys r = key_of keys r'.
Proof.
  intros H. unfold key_of. apply map_ext_in. exact H.
Qed.


Lemma has_na_key_false (keys : list string) (r : row) :
  has_na_key keys r = false <-> forall k, In k keys -> isna (get r k) = false.
Proof.
  unfold has_na_key, key_of. split.
  - intros H k Hk. destruct (isna (get r k)) eqn:E; [| reflexivity].
    rewrite <- H. symmetry. apply existsb_exists. exists (get r k).
    split; [now apply in_map | exact E].
  - intros H. destruct (existsb isna (map (get r) keys)) eqn:E; [| reflexivity].
    apply existsb_exists in E. destruct E as [c [Hc E]].
    apply in_map_iff in Hc. destruct Hc as [k [<- Hk]].
    now rewrite (H k Hk) in E.
Qed.

Lemma In_dedup (k : list cell) (l : list (list cell)) : In k (dedup l) <-> In k l.
Proof.
  induction l as [| a l IH]; simpl.
  - reflexivity.
  - rewrite filter_In, IH, negb_true_iff, key_eqb_neq.
    split.
    + intros [H | [H _]]; [now left | now right].
    + intros [H | H]; [now left |].
      destruct (key_eqb a k) eqn:E.
      * left. now apply key_eqb_eq.
      * right. split; [exact H | now apply key_eqb_neq].
Qed.

Lemma NoDup_filter {A} (f : A -> bool) (l : list A) : NoDup l -> NoDup (filter f l).
Proof.
  induction 1 as [| x l Hx _ IH]; simpl.
  - constructor.
  - destruct (f x); [| exact IH].
    constructor; [| exact IH].
    intros H. apply Hx. now apply filter_In in H.
Qed.

Lemma NoDup_dedup (l : list (list cell)) : NoDup (dedup l).
Proof.
  induction l as [| a l IH]; simpl.
  - constructor.
  - constructor.
    + intros H. apply filter_In in H. destruct H as [_ H].
      now rewrite key_eqb_refl in H.
    + now apply NoDup_filter.
Qed.

(* ================================================================== *)
(** * Facts on coercion and grouping *)



Lemma mem_set_dtype (cols : list (string * dtype)) (c : string) (d : dtype) :
  mem c (map fst cols) = true -> map fst (set_dtype cols c d) = map fst cols.
Proof.
  induction cols as [| [n e] cols IH]; simpl.
  - discriminate.
  - rewrite (String.eqb_sym c n). destruct (String.eqb n c); simpl.
    + reflexivity.
    + intros H. now rewrite IH.
Qed.

Lemma column_dtype_set_dtype_other (cols : list (string * dtype)) (c k : string)
      (d : dtype) :
  c <> k -> column_dtype (set_dtype cols c d) k = column_dtype cols k.
Proof.
  intros Hck. induction cols as [| [n e] cols IH]; simpl.
  - apply String.eqb_neq in Hck. now rewrite Hck.
  - destruct (String.eqb n c) eqn:E; simpl.
    + apply String.eqb_eq in E. subst n.
      apply String.eqb_neq in Hck. now rewrite Hck.
    + destruct (String.eqb n k); [reflexivity | exact IH].
Qed.








Lemma coerce_present_gen stf (present : string -> bool) cols df :
  (forall c, has_column df c = present c) ->
  column_names (DataAnalyzerV2.coerce_columns stf df cols) = column_names df
  /\ rows (DataAnalyzerV2.coerce_columns stf df cols)
     = map (coerce_row stf present cols) (rows df)
  /\ forall k, ~ In k cols ->
               column_dtype (columns (DataAnalyzerV2.coerce_columns stf df cols)) k
               = column_dtype (columns df) k.
Proof.
  unfold DataAnalyzerV2.coerce_columns, coerce_row.
  revert df. induction cols as [| c cols IH]; simpl; intros df Hp.
  - repeat split. now rewrite map_id.
  - rewrite (Hp c). destruct (present c) eqn:Hc.
    + assert (Hnames : column_names (assign df c (Dtype "float64")
                         (fun r => Pandas.to_numeric_coerce stf (get r c)))
                       = column_names df).
      { unfold column_names. simpl. apply mem_set_dtype.
        rewrite <- Hc, <- Hp. reflexivity. }
      destruct (IH (assign df c (Dtype "float64")
                           (fun r => Pandas.to_numeric_coerce stf (get r c))))
        as [Hn [Hr Hd]].
      { intros c'. unfold has_column. rewrite Hnames. apply Hp. }
      repeat split.
      * now rewrite Hn.
      * rewrite Hr. simpl. now rewrite map_map.
      * intros k Hk. rewrite Hd by tauto. simpl.
        apply column_dtype_set_dtype_other. tauto.
    + destruct (IH df Hp) as [Hn [Hr Hd]]. repeat split.
      * exact Hn.
      * exact Hr.
      * intros k Hk. apply Hd. tauto.
Qed.

Lemma coerce_present_spec stf df cols :
  column_names (DataAnalyzerV2.coerce_columns stf df cols) = column_names df
  /\ rows (DataAnalyzerV2.coerce_columns stf df cols)
     = map (coerce_row stf (has_column df) cols) (rows df)
  /\ forall k, ~ In k cols ->
               column_dtype (columns (DataAnalyzerV2.coerce_columns stf df cols)) k
               = column_dtype (columns df) k.
Proof. now apply coerce_present_gen. Qed.


Lemma key_of_group_row_plain keys metrics valid r0 :
  key_of keys (Pandas.group_row keys metrics valid (key_of keys r0)) = key_of keys r0.
Proof.
  unfold key_of at 1 3. apply map_ext_in. intros k Hk.
  unfold Pandas.group_row. now apply get_combine_key.
Qed.

Lemma key_of_group_row_single kn metrics valid c :
  key_of [kn] (Pandas.group_row [kn] metrics valid [c]) = [c].
Proof.
  unfold Pandas.group_row. simpl. now rewrite String.eqb_refl.
Qed.

(** Where a group key comes from: a row of the data, or, when
    unobserved categories are kept, the categories of the single key. *)
Lemma group_keys_cases observed cols keys valid k :
  In k (Pandas.group_keys observed cols keys valid) ->
  (exists r0, In r0 valid /\ key_of keys r0 = k)
  \/ (observed = false
      /\ exists kn cats c, keys = [kn]
                           /\ column_dtype cols kn = Some (Categorical cats)
                           /\ In c cats /\ k = [Str c]).
Proof.
  assert (Plain : In k (dedup (map (key_of keys) valid)) ->
                  exists r0, In r0 valid /\ key_of keys r0 = k).
  { intros H. apply (proj1 (In_dedup _ _)) in H. apply in_map_iff in H.
    destruct H as [r0 [E H]]. now exists r0. }
  unfold Pandas.group_keys.
  destruct keys as [| kn [| k2 ks]]; try (intros H; left; now apply Plain).
  destruct (column_dtype cols kn) as [[n | cats] |] eqn:Hd;
    try (intros H; left; now apply Plain).
  intros H. apply in_map_iff in H. destruct H as [c [<- Hc]].
  destruct observed.
  - left. apply filter_In in Hc. destruct Hc as [_ Hc].
    apply existsb_exists in Hc. destruct Hc as [r0 [Hr0 E]].
    apply cell_eqb_eq in E. exists r0. split; [exact Hr0 |].
    simpl. now rewrite E.
  - right. split; [reflexivity |]. now exists kn, cats, c.
Qed.

Lemma key_of_grouped observed cols keys metrics valid k :
  In k (Pandas.group_keys observed cols keys valid) ->
  key_of keys (Pandas.group_row keys metrics valid k) = k.
Proof.
  intros H. apply group_keys_cases in H.
  destruct H as [[r0 [_ <-]] | [_ [kn [cats [c [-> [_ [_ ->]]]]]]]].
  - apply key_of_group_row_plain.
  - apply key_of_group_row_single.
Qed.

Lemma groupby_sum_rows observed df keys metrics g :
  Pandas.groupby_sum observed df keys metrics = Some g ->
  rows g = map (Pandas.group_row keys metrics
                  (filter (fun r => negb (has_na_key keys r)) (rows df)))
               (Pandas.group_keys observed (columns df) keys
                  (filter (fun r => negb (has_na_key keys r)) (rows df))).
Proof.
  unfold Pandas.groupby_sum. destruct keys as [| k0 keys]; [discriminate |].
  destruct (forallb (has_column df) (k0 :: keys) && forallb (has_column df) metrics);
    [| discriminate].
  now intros [= <-].
Qed.


Lemma filter_idem {A} (f : A -> bool) (l : list A) : filter f (filter f l) = filter f l.
Proof.
  induction l as [| x l IH]; simpl; [reflexivity |].
  destruct (f x) eqn:E; simpl; [now rewrite E, IH | exact IH].
Qed.


(** No key of a grouped frame has a missing value. *)
Lemma groupby_sum_keys_present observed df keys metrics g r :
  Pandas.groupby_sum observed df keys metrics = Some g ->
  In r (rows g) -> has_na_key keys r = false.
Proof.
  intros Hg Hr. rewrite (groupby_sum_rows _ _ _ _ _ Hg) in Hr.
  apply in_map_iff in Hr. destruct Hr as [k [<- Hk]].
  unfold has_na_key. rewrite (key_of_grouped _ _ _ _ _ _ Hk).
  apply group_keys_cases in Hk.
  destruct Hk as [[r0 [Hr0 <-]] | [_ [kn [cats [c [_ [_ [_ ->]]]]]]]].
  - apply filter_In in Hr0. destruct Hr0 as [_ Hr0].
    now apply negb_true_iff in Hr0.
  - reflexivity.
Qed.










Lemma column_dtype_set_dtype_same (cols : list (string * dtype)) (c : string)
      (d : dtype) :
  column_dtype (set_dtype cols c d) c = Some d.
Proof.
  induction cols as [| [n e] cols IH]; simpl.
  - now rewrite String.eqb_refl.
  - destruct (String.eqb n c) eqn:E; simpl; rewrite E; [reflexivity | exact IH].
Qed.

(** What binning does to one row: the metric cell is converted, then the
    interval label is written. *)
Lemma apply_interval_binning_rows stf df metric_name cutpoints labels binned :
  DataAnalyzerV2.apply_interval_binning stf df metric_name cutpoints labels
  = Some binned ->
  rows binned
  = map (fun r =>
           let r' := set_cell r metric_name
                              (Pandas.to_numeric_coerce stf (get r metric_name)) in
           set_cell r' DataAnalyzerV2.interval_col
                    (DataAnalyzerV2.cut_value
                       ([NInf] ++ map Fin cutpoints ++ [PInf]) labels
                       (get r' metric_name)))
        (rows df)
  /\ column_dtype (columns binned) DataAnalyzerV2.interval_col
     = Some (Categorical labels).
Proof.
  unfold DataAnalyzerV2.apply_interval_binning.
  destruct (has_column df metric_name); [| discriminate].
  destruct (DataAnalyzerV2.pd_cut_ok _ labels); [| discriminate].
  intros [= <-]. split.
  - simpl. now rewrite map_map.
  - simpl. apply column_dtype_set_dtype_same.
Qed.



Lemma filter_none {A} (f : A -> bool) (l : list A) :
  (forall x, In x l -> f x = false) -> filter f l = [].
Proof.
  induction l as [| x l IH]; simpl; intros H; [reflexivity |].
  rewrite (H x) by now left. apply IH. intros y Hy. apply H. now right.
Qed.




(* ================================================================== *)
(** * Cut points, labels and bins *)






(** Bin edges that pass the monotonicity check of [pd.cut] come from cut
    points in increasing order. *)
Lemma monotonic_edges_Sorted (cutpoints : list Qc) :
  DataAnalyzerV2.monotonic (map Fin cutpoints ++ [PInf]) = true ->
  Sorted Qcle cutpoints.
Proof.
  induction cutpoints as [| a t IH]; simpl.
  - constructor.
  - destruct t as [| b t'].
    + repeat constructor.
    + simpl in *. intros H. apply andb_true_iff in H. destruct H as [Hab H].
      constructor; [now apply IH |]. constructor.
      apply negb_true_iff in Hab. apply Qcnot_lt_le. intros Hlt.
      apply Qc_ltb_lt in Hlt. congruence.
Qed.



(** The bin of a value that equals a cut point, for any way of printing
    numbers: the interval that starts there. *)
Lemma cut_value_at_cutpoints (float_str : Qc -> string) :
  let labels := DataAnalyzerV2.create_interval_labels float_str
                  [qz 100; qz 500] NaN NaN in
  let bins := [NInf] ++ map Fin [qz 100; qz 500] ++ [PInf] in
  labels = [("<=" ++ float_str (qz 100))%string;
            (float_str (qz 100) ++ "-" ++ float_str (qz 500))%string;
            (">" ++ float_str (qz 500))%string]
  /\ DataAnalyzerV2.cut_value bins labels (Num (Fin (qz 100)))
     = Str (float_str (qz 100) ++ "-" ++ float_str (qz 500))%string
  /\ DataAnalyzerV2.cut_value bins labels (Num (Fin (qz 500)))
     = Str (">" ++ float_str (qz 500))%string.
Proof.
  repeat split.
Qed.

(* ================================================================== *)
(** * Column classification *)

(** C9. The dimension and metric lists of a run are those of the
    current-period frame: two runs that differ only in the prior-period
    frame end with the same lists. *)
Theorem classification_ignores_prior_period
        (stf : string -> option fnum)
        (is_string_dtype is_numeric_dtype : dtype -> bool)
        (observed : bool) (format_pct : Qc -> string)
        (current previous previous' : DataFrame) :
  (forall self,
      DataAnalyzer.dimension_columns
        (DataAnalyzer.run_load_and_classify stf self (Some current) (Some previous))
      = DataAnalyzer.dimension_columns
          (DataAnalyzer.run_load_and_classify stf self (Some current) (Some previous'))
      /\ DataAnalyzer.metric_columns
           (DataAnalyzer.run_load_and_classify stf self (Some current) (Some previous))
         = DataAnalyzer.metric_columns
             (DataAnalyzer.run_load_and_classify stf self (Some current)
                                                 (Some previous'))
      /\ (DataAnalyzer.dimension_columns
            (DataAnalyzer.run_load_and_classify stf self (Some current) (Some previous)),
          DataAnalyzer.metric_columns
            (DataAnalyzer.run_load_and_classify stf self (Some current) (Some previous)))
         = DataAnalyzer.analyze_columns stf current)
  /\ (forall self,
         AutoMonthly.dimension_columns
           (fst (AutoMonthly.run_analysis is_string_dtype is_numeric_dtype observed
                                          format_pct self current previous))
         = AutoMonthly.dimension_columns
             (fst (AutoMonthly.run_analysis is_string_dtype is_numeric_dtype observed
                                            format_pct self current previous'))
         /\ AutoMonthly.metric_columns
              (fst (AutoMonthly.run_analysis is_string_dtype is_numeric_dtype observed
                                             format_pct self current previous))
            = AutoMonthly.metric_columns
                (fst (AutoMonthly.run_analysis is_string_dtype is_numeric_dtype observed
                                               format_pct self current previous'))
         /\ (AutoMonthly.dimension_columns
               (fst (AutoMonthly.run_analysis is_string_dtype is_numeric_dtype observed
                                              format_pct self current previous)),
             AutoMonthly.metric_columns
               (fst (AutoMonthly.run_analysis is_string_dtype is_numeric_dtype observed
                                              format_pct self current previous)))
            = AutoMonthly.classify is_string_dtype is_numeric_dtype
                                   (AutoMonthly.exclude_set self) current).
Proof.
  split; intros self.
  - unfold DataAnalyzer.run_load_and_classify. simpl.
    destruct (DataAnalyzer.analyze_columns stf current) as [dims metrics].
    repeat split.
  - unfold AutoMonthly.run_analysis, AutoMonthly.identify_column_types.
    destruct (AutoMonthly.classify is_string_dtype is_numeric_dtype
                                   (AutoMonthly.exclude_set self) current)
      as [dims metrics].
    destruct metrics; repeat split.
Qed.

(* ================================================================== *)
(** * The outer join and the zero fill *)

Lemma fillna0_idem (c : cell) : fillna0 (fillna0 c) = fillna0 c.
Proof.
  unfold fillna0. destruct (isna c) eqn:E; [reflexivity | now rewrite E].
Qed.

Lemma fillna0_present (c : cell) : isna c = false -> fillna0 c = c.
Proof. unfold fillna0. now intros ->. Qed.

Lemma string_length_append (a s : string) :
  String.length (a ++ s) = (String.length a + String.length s)%nat.
Proof.
  induction a as [| c a IH]; simpl; [reflexivity | now rewrite IH].
Qed.

(** Two names with different suffixes of one length are different. *)
Lemma append_suffix_neq (a b s t : string) :
  String.length s = String.length t -> s <> t -> (a ++ s)%string <> (b ++ t)%string.
Proof.
  intros Hlen Hst. revert b. induction a as [| c a IH]; intros [| d b] H; simpl in H.
  - contradiction.
  - apply (f_equal String.length) in H. simpl in H.
    rewrite string_length_append in H. lia.
  - apply (f_equal String.length) in H. simpl in H.
    rewrite string_length_append in H. lia.
  - injection H as _ H. now apply (IH b).
Qed.

Lemma get_fill_row cur prev metrics r c :
  get (fill_row cur prev metrics r) c
  = if mem c (flat_map (fun m => [cur m; prev m]) metrics)
    then fillna0 (get r c) else get r c.
Proof.
  unfold fill_row. revert r. induction metrics as [| m ms IH]; intros r.
  - reflexivity.
  - cbn [fold_left flat_map app]. rewrite IH. clear IH.
    rewrite !get_set_cell.
    assert (E : (if String.eqb (prev m) c
                 then fillna0 (if String.eqb (cur m) (prev m)
                               then fillna0 (get r (cur m)) else get r (prev m))
                 else if String.eqb (cur m) c
                      then fillna0 (get r (cur m)) else get r c)
                = if String.eqb c (cur m) || String.eqb c (prev m)
                  then fillna0 (get r c) else get r c).
    { rewrite (String.eqb_sym c (cur m)), (String.eqb_sym c (prev m)).
      destruct (String.eqb (prev m) c) eqn:Ep.
      - apply String.eqb_eq in Ep. subst c. rewrite orb_true_r.
        destruct (String.eqb (cur m) (prev m)) eqn:Ec.
        + apply String.eqb_eq in Ec. rewrite Ec. apply fillna0_idem.
        + reflexivity.
      - rewrite orb_false_r. destruct (String.eqb (cur m) c) eqn:Ec; [| reflexivity].
        apply String.eqb_eq in Ec. now subst c. }
    rewrite E. unfold mem. cbn [existsb]. rewrite orb_assoc.
    destruct (String.eqb c (cur m) || String.eqb c (prev m)); simpl.
    + rewrite fillna0_idem. now destruct (existsb _ _).
    + reflexivity.
Qed.

Lemma fill_metrics_spec merged metrics :
  (forall m, In m metrics ->
             has_column merged (DataAnalyzer.current_col m) = true
             /\ has_column merged (DataAnalyzer.previous_col m) = true) ->
  DataAnalyzer.fill_metrics merged metrics
  = Some (mkDataFrame (columns merged)
                      (map (fill_row DataAnalyzer.current_col
                                     DataAnalyzer.previous_col metrics)
                           (rows merged))).
Proof.
  unfold DataAnalyzer.fill_metrics, fill_row.
  revert merged. induction metrics as [| m ms IH]; intros merged H.
  - simpl. rewrite map_id. now destruct merged.
  - cbn [foldM]. unfold fillna_column.
    destruct (H m (or_introl eq_refl)) as [Hc Hp]. rewrite Hc.
    change (has_column (mkDataFrame (columns merged)
                          (map (fun r => set_cell r (DataAnalyzer.current_col m)
                                           (fillna0 (get r (DataAnalyzer.current_col m))))
                               (rows merged)))
                       (DataAnalyzer.previous_col m))
      with (has_column merged (DataAnalyzer.previous_col m)).
    rewrite Hp. rewrite IH.
    + cbn [columns rows fold_left]. rewrite !map_map. reflexivity.
    + intros m' Hm'. apply H. now right.
Qed.

(** The missing values of a whole row, filled. *)
Lemma get_fillna_row (r : row) (c : string) :
  get (map (fun p : string * cell => (fst p, fillna0 (snd p))) r) c
  = if mem c (map fst r) then fillna0 (get r c) else NA.
Proof.
  induction r as [| [n v] r IH]; simpl.
  - reflexivity.
  - rewrite (String.eqb_sym c n). destruct (String.eqb n c); simpl; [reflexivity | exact IH].
Qed.

(** At most one row of a frame with distinct keys matches a given key. *)
Lemma matches_at_most_one on x (ys : list row) :
  NoDup (map (key_of on) ys) ->
  Pandas.matches on x ys = []
  \/ exists y, Pandas.matches on x ys = [y] /\ In y ys /\ key_of on y = key_of on x.
Proof.
  unfold Pandas.matches. induction ys as [| y ys IH]; simpl; intros Hnd.
  - now left.
  - inversion Hnd as [| k ks Hnotin Hnd']; subst.
    destruct (key_eqb (key_of on x) (key_of on y)) eqn:E.
    + right. apply key_eqb_eq in E. exists y. repeat split; [| now left | now symmetry].
      f_equal. apply filter_none. intros z Hz. apply key_eqb_neq.
      intros Ez. apply Hnotin. rewrite <- E, Ez. now apply in_map.
    + destruct (IH Hnd') as [-> | [y' [-> [Hin Hk]]]].
      * now left.
      * right. exists y'. repeat split; [now right | exact Hk].
Qed.

Lemma matches_none on x (ys : list row) :
  Pandas.matches on x ys = [] <-> ~ In (key_of on x) (map (key_of on) ys).
Proof.
  unfold Pandas.matches. split.
  - intros H Hin. apply in_map_iff in Hin. destruct Hin as [y [E Hy]].
    assert (Hf : In y (filter (fun y => key_eqb (key_of on x) (key_of on y)) ys)).
    { apply filter_In. split; [exact Hy |]. apply key_eqb_eq. now symmetry. }
    rewrite H in Hf. destruct Hf.
  - intros H. apply filter_none. intros y Hy. apply key_eqb_neq.
    intros E. apply H. rewrite E. now apply in_map.
Qed.

Lemma key_of_join_row on lcols rcols (l r : option row) :
  key_of on (Pandas.join_row on lcols rcols l r)
  = match l, r with
    | Some x, _ => key_of on x
    | None, Some y => key_of on y
    | None, None => map (fun _ => NA) on
    end.
Proof.
  unfold key_of at 1. unfold Pandas.join_row.
  assert (E : forall k, In k on ->
                        get (map (fun k => (k, match l, r with
                                               | Some x, _ => get x k
                                               | None, Some y => get y k
                                               | None, None => NA
                                               end)) on
                             ++ map (fun c => (snd c, match l with
                                                      | Some x => get x (fst c)
                                                      | None => NA
                                                      end)) lcols
                             ++ map (fun c => (snd c, match r with
                                                      | Some y => get y (fst c)
                                                      | None => NA
                                                      end)) rcols) k
                        = match l, r with
                          | Some x, _ => get x k
                          | None, Some y => get y k
                          | None, None => NA
                          end).
  { intros k Hk. rewrite get_app, map_fst_tabulate, map_id.
    apply mem_In in Hk as Hm. rewrite Hm.
    rewrite (get_tabulate (fun k => match l, r with
                                    | Some x, _ => get x k
                                    | None, Some y => get y k
                                    | None, None => NA
                                    end)).
    now rewrite Hm. }
  rewrite (map_ext_in _ _ _ E).
  destruct l as [x |]; [reflexivity |]. destruct r as [y |]; reflexivity.
Qed.

Lemma filter_all {A} (f : A -> bool) (l : list A) :
  (forall x, In x l -> f x = true) -> filter f l = l.
Proof.
  induction l as [| x l IH]; simpl; intros H; [reflexivity |].
  rewrite (H x) by now left. f_equal. apply IH. intros y Hy. apply H. now right.
Qed.

Lemma names_filter {B} (P : string -> bool) (l : list (string * B)) :
  map fst (filter (fun c => P (fst c)) l) = filter P (map fst l).
Proof.
  induction l as [| [n b] l IH]; simpl; [reflexivity |].
  destruct (P n); simpl; now rewrite IH.
Qed.

Lemma other_names (df : DataFrame) (keys metrics : list string) :
  column_names df = keys ++ metrics ->
  (forall k, In k keys -> ~ In k metrics) ->
  map fst (filter (fun c => negb (mem (fst c) keys)) (columns df)) = metrics.
Proof.
  intros Hn Hdisj.
  rewrite (names_filter (fun n => negb (mem n keys))).
  unfold column_names in Hn. rewrite Hn, filter_app.
  rewrite filter_none, filter_all; [reflexivity | |].
  - intros m Hm. apply negb_true_iff. apply mem_not_In. intros Hk.
    now apply (Hdisj m).
  - intros k Hk. apply negb_false_iff. now apply mem_In.
Qed.

Lemma has_columns_of_names (df : DataFrame) (l names : list string) :
  column_names df = names -> (forall c, In c l -> In c names) ->
  forallb (has_column df) l = true.
Proof.
  intros Hn H. apply forallb_forall. intros c Hc.
  unfold has_column. rewrite Hn. apply mem_In. now apply H.
Qed.

Lemma merge_outer_aggregates (L R : DataFrame) (keys metrics : list string)
      (sl sr : string) :
  keys <> [] ->
  column_names L = keys ++ metrics -> column_names R = keys ++ metrics ->
  (forall k, In k keys -> ~ In k metrics) ->
  exists cols,
    Pandas.merge_outer L R keys sl sr
    = Some (mkDataFrame cols (joined_rows keys metrics sl sr (rows L) (rows R)))
    /\ map fst cols
       = keys ++ map (fun m => (m ++ sl)%string) metrics
              ++ map (fun m => (m ++ sr)%string) metrics.
Proof.
  intros Hne HL HR Hdisj.
  pose proof (other_names L keys metrics HL Hdisj) as HLo.
  pose proof (other_names R keys metrics HR Hdisj) as HRo.
  unfold Pandas.merge_outer, joined_rows.
  destruct keys as [| k0 ks]; [contradiction |].
  rewrite (has_columns_of_names L (k0 :: ks) _ HL),
          (has_columns_of_names R (k0 :: ks) _ HR);
    try (intros c Hc; apply in_or_app; now left).
  cbv beta zeta. cbn [andb].
  set (keys := k0 :: ks) in *.
  set (lothers := filter (fun c => negb (mem (fst c) keys)) (columns L)) in *.
  set (rothers := filter (fun c => negb (mem (fst c) keys)) (columns R)) in *.
  assert (El : map (fun c : string * dtype =>
                      (fst c, if mem (fst c) (map fst rothers)
                              then (fst c ++ sl)%string else fst c)) lothers
               = map (fun m => (m, (m ++ sl)%string)) metrics).
  { rewrite <- HLo at 1. rewrite map_map. apply map_ext_in. intros c Hc.
    rewrite HRo. replace (mem (fst c) metrics) with true; [reflexivity |].
    symmetry. apply mem_In. rewrite <- HLo. now apply in_map. }
  assert (Er : map (fun c : string * dtype =>
                      (fst c, if mem (fst c) (map fst lothers)
                              then (fst c ++ sr)%string else fst c)) rothers
               = map (fun m => (m, (m ++ sr)%string)) metrics).
  { rewrite <- HRo at 1. rewrite map_map. apply map_ext_in. intros c Hc.
    rewrite HLo. replace (mem (fst c) metrics) with true; [reflexivity |].
    symmetry. apply mem_In. rewrite <- HRo. now apply in_map. }
  rewrite El, Er. eexists. split; [reflexivity |].
  rewrite !map_app, !map_map. cbn [fst]. rewrite map_id. f_equal. f_equal.
  - rewrite <- HLo at 1. rewrite map_map. apply map_ext_in. intros c Hc.
    rewrite HRo. replace (mem (fst c) metrics) with true; [reflexivity |].
    symmetry. apply mem_In. rewrite <- HLo. now apply in_map.
  - rewrite <- HRo at 1. rewrite map_map. apply map_ext_in. intros c Hc.
    rewrite HLo. replace (mem (fst c) metrics) with true; [reflexivity |].
    symmetry. apply mem_In. rewrite <- HRo. now apply in_map.
Qed.

Lemma joined_rows_cases keys metrics sl sr ls rs r :
  In r (joined_rows keys metrics sl sr ls rs) ->
  let lcols := map (fun m => (m, (m ++ sl)%string)) metrics in
  let rcols := map (fun m => (m, (m ++ sr)%string)) metrics in
  (exists x, In x ls /\ Pandas.matches keys x rs = []
             /\ r = Pandas.join_row keys lcols rcols (Some x) None)
  \/ (exists x y, In x ls /\ In y rs /\ key_of keys y = key_of keys x
                  /\ r = Pandas.join_row keys lcols rcols (Some x) (Some y))
  \/ (exists y, In y rs /\ Pandas.matches keys y ls = []
                /\ r = Pandas.join_row keys lcols rcols None (Some y)).
Proof.
  unfold joined_rows. cbv zeta. intros H. apply in_app_or in H. destruct H as [H | H].
  - apply in_flat_map in H. destruct H as [x [Hx H]].
    destruct (Pandas.matches keys x rs) as [| y ys] eqn:E.
    + left. destruct H as [<- | []]. now exists x.
    + right. left. apply in_map_iff in H. destruct H as [y' [<- Hy']].
      rewrite <- E in Hy'. unfold Pandas.matches in Hy'.
      apply filter_In in Hy'. destruct Hy' as [Hin Hk]. apply key_eqb_eq in Hk.
      now exists x, y'.
  - right. right. apply in_map_iff in H. destruct H as [y [<- Hy]].
    apply filter_In in Hy. destruct Hy as [Hin Hm].
    exists y. repeat split; [exact Hin |].
    now destruct (Pandas.matches keys y ls).
Qed.

Lemma flat_map_keys (keys : list string) (f : row -> list row) (ls : list row) :
  (forall x, map (key_of keys) (f x) = [key_of keys x]) ->
  map (key_of keys) (flat_map f ls) = map (key_of keys) ls.
Proof.
  intros H. induction ls as [| x ls IH]; simpl; [reflexivity |].
  now rewrite map_app, IH, H.
Qed.

Lemma joined_rows_keys keys metrics sl sr ls rs :
  NoDup (map (key_of keys) rs) ->
  map (key_of keys) (joined_rows keys metrics sl sr ls rs)
  = map (key_of keys) ls
    ++ map (key_of keys)
           (filter (fun y => match Pandas.matches keys y ls with
                             | [] => true
                             | _ => false
                             end) rs).
Proof.
  intros Hnd. unfold joined_rows. cbv zeta. rewrite map_app. f_equal.
  - apply flat_map_keys. intros x.
    destruct (matches_at_most_one keys x rs Hnd) as [-> | [y [-> _]]]; simpl;
      now rewrite key_of_join_row.
  - rewrite map_map. apply map_ext. intros y. now rewrite key_of_join_row.
Qed.

(** Keeping some rows of a frame with distinct keys keeps the keys
    distinct. *)
Lemma distinct_keys_filter (keys : list string) (keep : row -> bool) (rs : list row) :
  NoDup (frame_keys (mkDataFrame [] rs) keys) ->
  NoDup (frame_keys (mkDataFrame [] (filter keep rs)) keys).
Proof.
  unfold frame_keys. cbn [rows].
  induction rs as [| x rs IH]; intros Hnd; cbn [filter map] in *.
  - constructor.
  - apply NoDup_cons_iff in Hnd. destruct Hnd as [Hx Hnd].
    destruct (keep x); cbn [map]; [| now apply IH].
    apply NoDup_cons_iff. split; [| now apply IH].
    intros Hin. apply Hx. apply in_map_iff in Hin. destruct Hin as [z [E Hz]].
    apply filter_In in Hz. rewrite <- E. apply in_map. tauto.
Qed.

Lemma joined_rows_NoDup keys metrics sl sr ls rs :
  NoDup (map (key_of keys) ls) -> NoDup (map (key_of keys) rs) ->
  NoDup (map (key_of keys) (joined_rows keys metrics sl sr ls rs)).
Proof.
  intros Hl Hr. rewrite joined_rows_keys by exact Hr.
  apply NoDup_app.
  - exact Hl.
  - now apply (distinct_keys_filter keys).
  - intros k Hk Hin. apply in_map_iff in Hin. destruct Hin as [y [<- Hy]].
    apply filter_In in Hy. destruct Hy as [_ Hm].
    destruct (Pandas.matches keys y ls) eqn:E; [| discriminate].
    now apply matches_none in E.
Qed.

Lemma joined_rows_union keys metrics sl sr ls rs k :
  NoDup (map (key_of keys) rs) ->
  In k (map (key_of keys) (joined_rows keys metrics sl sr ls rs))
  <-> In k (map (key_of keys) ls) \/ In k (map (key_of keys) rs).
Proof.
  intros Hr. rewrite joined_rows_keys by exact Hr. rewrite in_app_iff. split.
  - intros [H | H]; [now left | right].
    apply in_map_iff in H. destruct H as [y [<- Hy]].
    apply filter_In in Hy. apply in_map. tauto.
  - intros [H | H]; [now left |].
    apply in_map_iff in H. destruct H as [y [<- Hy]].
    destruct (Pandas.matches keys y ls) eqn:E.
    + right. apply in_map. apply filter_In. split; [exact Hy | now rewrite E].
    + left. assert (Hr0 : In r (Pandas.matches keys y ls)) by (rewrite E; now left).
      unfold Pandas.matches in Hr0. apply filter_In in Hr0.
      destruct Hr0 as [Hin Hk]. apply key_eqb_eq in Hk. rewrite Hk.
      now apply in_map.
Qed.

Lemma get_all_missing (name : string -> string) (l : list string) (c : string) :
  get (map (fun x => (name x, NA)) l) c = NA.
Proof.
  induction l as [| a l IH]; simpl; [reflexivity |].
  now destruct (String.eqb (name a) c).
Qed.

Lemma get_all_missing_app (name : string -> string) (l : list string) (rest : row)
      (c : string) :
  In c (map name l) -> get (map (fun x => (name x, NA)) l ++ rest) c = NA.
Proof.
  intros H. rewrite get_app, map_fst_tabulate.
  apply mem_In in H. rewrite H. apply get_all_missing.
Qed.

(** A row of the left side without a partner holds no value of the
    right side, and conversely. *)
Lemma join_row_left_only keys metrics sl sr x m :
  ~ In (m ++ sr)%string keys ->
  (forall m', (m ++ sr)%string <> (m' ++ sl)%string) ->
  get (Pandas.join_row keys (map (fun m => (m, (m ++ sl)%string)) metrics)
                       (map (fun m => (m, (m ++ sr)%string)) metrics) (Some x) None)
      (m ++ sr)%string = NA.
Proof.
  intros Hfresh Hneq. unfold Pandas.join_row.
  rewrite get_app, map_fst_tabulate, map_id.
  replace (mem (m ++ sr)%string keys) with false
    by (symmetry; now apply mem_not_In).
  rewrite get_app, !map_map. cbn [snd fst].
  replace (mem (m ++ sr)%string (map (fun m => (m ++ sl)%string) metrics)) with false.
  - exact (get_all_missing (fun m0 => (m0 ++ sr)%string) metrics (m ++ sr)%string).
  - symmetry. apply mem_not_In. intros H. apply in_map_iff in H.
    destruct H as [m' [E _]]. now apply (Hneq m').
Qed.

Lemma join_row_right_only keys metrics sl sr y m :
  In m metrics -> ~ In (m ++ sl)%string keys ->
  get (Pandas.join_row keys (map (fun m => (m, (m ++ sl)%string)) metrics)
                       (map (fun m => (m, (m ++ sr)%string)) metrics) None (Some y))
      (m ++ sl)%string = NA.
Proof.
  intros Hm Hfresh. unfold Pandas.join_row.
  rewrite get_app, map_fst_tabulate, map_id.
  replace (mem (m ++ sl)%string keys) with false
    by (symmetry; now apply mem_not_In).
  rewrite !map_map. cbn [snd fst].
  apply (get_all_missing_app (fun m0 => (m0 ++ sl)%string) metrics).
  exact (in_map (fun m0 => (m0 ++ sl)%string) metrics m Hm).
Qed.

Lemma previous_not_current (m m' : string) :
  (m ++ "_上月")%string <> (m' ++ "_本月")%string.
Proof.
  apply append_suffix_neq; [reflexivity | discriminate].
Qed.

(** Whatever is done to the joined rows afterwards, if it keeps the keys
    and fills the missing totals with zero, the result is the union
    merge. *)
Lemma union_merge_of_rows (current previous : DataFrame) (keys metrics : list string)
      (cols : list (string * dtype)) (F : row -> row) :
  fresh_names keys metrics ->
  NoDup (frame_keys current keys) -> NoDup (frame_keys previous keys) ->
  (forall r, In r (joined_rows keys metrics "_本月" "_上月"
                               (rows current) (rows previous)) ->
             key_of keys (F r) = key_of keys r
             /\ forall m, In m metrics ->
                          get (F r) (m ++ "_上月")%string
                          = fillna0 (get r (m ++ "_上月")%string)
                          /\ get (F r) (m ++ "_本月")%string
                             = fillna0 (get r (m ++ "_本月")%string)) ->
  union_merge current previous
              (mkDataFrame cols
                           (map F (joined_rows keys metrics "_本月" "_上月"
                                               (rows current) (rows previous))))
              keys metrics.
Proof.
  intros Hfresh Hc Hp HF. unfold frame_keys in Hc, Hp.
  set (joined := joined_rows keys metrics "_本月" "_上月"
                             (rows current) (rows previous)) in *.
  assert (Hkeys : frame_keys (mkDataFrame cols (map F joined)) keys
                  = map (key_of keys) joined).
  { unfold frame_keys. cbn [rows]. rewrite map_map. apply map_ext_in.
    intros r Hr. now apply HF. }
  unfold union_merge. rewrite Hkeys. split; [| split].
  - now apply joined_rows_NoDup.
  - intros k. now apply joined_rows_union.
  - cbn [rows]. intros r' m Hr' Hm. apply in_map_iff in Hr'.
    destruct Hr' as [r [<- Hr]]. destruct (HF r Hr) as [Hk Hv].
    destruct (Hv m Hm) as [Hprev Hcur]. rewrite Hk, Hprev, Hcur.
    destruct (Hfresh m Hm) as [Hfc Hfp].
    unfold frame_keys.
    apply joined_rows_cases in Hr. cbv zeta in Hr.
    destruct Hr as [[x [Hx [_ ->]]] | [[x [y [Hx [Hy [E ->]]]]] | [y [Hy [_ ->]]]]];
      rewrite key_of_join_row; split; intros Hnot.
    + rewrite join_row_left_only; [reflexivity | exact Hfp |].
      intros m'. apply previous_not_current.
    + exfalso. apply Hnot. now apply in_map.
    + exfalso. apply Hnot. rewrite <- E. now apply in_map.
    + exfalso. apply Hnot. now apply in_map.
    + exfalso. apply Hnot. now apply in_map.
    + rewrite join_row_right_only; [reflexivity | exact Hm | exact Hfc].
Qed.

Lemma names_join_row keys lcols rcols l r :
  map fst (Pandas.join_row keys lcols rcols l r)
  = keys ++ map snd lcols ++ map snd rcols.
Proof.
  unfold Pandas.join_row. rewrite !map_app, !map_map. cbn [fst]. now rewrite map_id.
Qed.

Lemma joined_rows_keys_present keys metrics sl sr ls rs r :
  (forall x, In x ls -> has_na_key keys x = false) ->
  (forall y, In y rs -> has_na_key keys y = false) ->
  In r (joined_rows keys metrics sl sr ls rs) ->
  has_na_key keys r = false
  /\ map fst r = keys ++ map (fun m => (m ++ sl)%string) metrics
                      ++ map (fun m => (m ++ sr)%string) metrics.
Proof.
  intros Hl Hr H. apply joined_rows_cases in H. cbv zeta in H.
  destruct H as [[x [Hx [_ ->]]] | [[x [y [Hx [Hy [E ->]]]]] | [y [Hy [_ ->]]]]];
    unfold has_na_key; rewrite key_of_join_row, names_join_row, !map_map;
    (split; [| reflexivity]).
  - now apply Hl.
  - now apply Hl.
  - now apply Hr.
Qed.


(* ================================================================== *)
(** * What the aggregators return is an aggregate *)

Lemma NoDup_labels (cats : list string) :
  NoDup cats -> NoDup (map (fun c => [Str c]) cats).
Proof.
  induction 1 as [| c cats Hc _ IH]; simpl; constructor; [| exact IH].
  intros Hin. apply in_map_iff in Hin. destruct Hin as [c' [[= ->] Hc']].
  contradiction.
Qed.

Lemma group_keys_NoDup observed cols keys valid :
  (forall kn cats, keys = [kn] -> column_dtype cols kn = Some (Categorical cats) ->
                   NoDup cats) ->
  NoDup (Pandas.group_keys observed cols keys valid).
Proof.
  intros Hcats. unfold Pandas.group_keys.
  destruct keys as [| kn [| k2 ks]]; try apply NoDup_dedup.
  destruct (column_dtype cols kn) as [[n | cats] |] eqn:Hd; try apply NoDup_dedup.
  apply NoDup_labels. pose proof (Hcats kn cats eq_refl Hd) as Hnd.
  destruct observed; [now apply NoDup_filter | exact Hnd].
Qed.

Lemma groupby_sum_is_aggregate observed df keys metrics g :
  Pandas.groupby_sum observed df keys metrics = Some g ->
  (forall k, In k keys -> ~ In k metrics) ->
  (forall cats, categorical_key df keys cats -> NoDup cats) ->
  is_aggregate g keys metrics.
Proof.
  intros Hg Hdisj Hcats.
  pose proof (groupby_sum_rows _ _ _ _ _ Hg) as Hrows.
  set (valid := filter (fun r => negb (has_na_key keys r)) (rows df)) in *.
  constructor.
  - unfold Pandas.groupby_sum in Hg. destruct keys as [| k0 ks]; [discriminate |].
    destruct (forallb (has_column df) (k0 :: ks) && forallb (has_column df) metrics);
      [| discriminate].
    injection Hg as <-. unfold column_names. cbn [columns map app fst].
    f_equal. rewrite map_app, !map_map. cbn [fst]. now rewrite !map_id.
  - unfold frame_keys. rewrite Hrows, map_map.
    rewrite (map_ext_in _ (fun k => k)).
    + rewrite map_id. apply group_keys_NoDup.
      intros kn cats Hk Hd. apply (Hcats cats). now exists kn.
    + intros k Hk. now apply (key_of_grouped observed (columns df)).
  - intros r. apply (groupby_sum_keys_present _ _ _ _ _ _ Hg).
  - intros r m Hr Hm. rewrite Hrows in Hr. apply in_map_iff in Hr.
    destruct Hr as [k [<- _]]. unfold Pandas.group_row. rewrite get_app.
    replace (mem m (map fst (combine keys k))) with false.
    + rewrite (get_tabulate
                 (fun m => Num (series_sum
                                  (map (fun r => get r m)
                                       (filter (fun r => key_eqb (key_of keys r) k)
                                               valid))))).
      apply mem_In in Hm. rewrite Hm. eexists. reflexivity.
    + symmetry. apply mem_not_In. intros Hin. apply in_map_iff in Hin.
      destruct Hin as [[n v] [E Hin]]. simpl in E. subst n.
      apply in_combine_l in Hin. now apply (Hdisj m).
Qed.


(* ================================================================== *)
(** * Worked examples *)


Lemma dtype_eqb_eq (d e : dtype) : dtype_eqb d e = true -> d = e.
Proof.
  destruct d as [a | a], e as [b | b]; simpl; try discriminate.
  - intros H. apply String.eqb_eq in H. now subst.
  - revert b. induction a as [| x a IH]; intros [| y b]; try discriminate.
    + reflexivity.
    + intros H. apply andb_true_iff in H. destruct H as [Hxy H].
      apply String.eqb_eq in Hxy. subst y.
      specialize (IH b H). now injection IH as ->.
Qed.

Lemma row_eqb_eq (r r' : row) : row_eqb r r' = true -> r = r'.
Proof.
  revert r'. induction r as [| [n v] r IH]; intros [| [n' v'] r']; simpl;
    try discriminate; [reflexivity |].
  intros H. apply andb_true_iff in H. destruct H as [H Hr].
  apply andb_true_iff in H. destruct H as [Hn Hv].
  apply String.eqb_eq in Hn. apply cell_eqb_eq in Hv. subst.
  now rewrite (IH r' Hr).
Qed.

Lemma rows_eqb_eq (l l' : list row) : rows_eqb l l' = true -> l = l'.
Proof.
  revert l'. induction l as [| r l IH]; intros [| r' l']; simpl;
    try discriminate; [reflexivity |].
  intros H. apply andb_true_iff in H. destruct H as [Hr Hl].
  apply row_eqb_eq in Hr. subst. now rewrite (IH l' Hl).
Qed.

Lemma columns_eqb_eq (l l' : list (string * dtype)) : columns_eqb l l' = true -> l = l'.
Proof.
  revert l'. induction l as [| [n d] l IH]; intros [| [n' d'] l']; simpl;
    try discriminate; [reflexivity |].
  intros H. apply andb_true_iff in H. destruct H as [H Hl].
  apply andb_true_iff in H. destruct H as [Hn Hd].
  apply String.eqb_eq in Hn. apply dtype_eqb_eq in Hd. subst.
  now rewrite (IH l' Hl).
Qed.

(** Frames that the boolean comparison accepts are equal. *)
Lemma frame_eqb_eq (a b : DataFrame) : frame_eqb a b = true -> a = b.
Proof.
  destruct a as [ca ra], b as [cb rb]. unfold frame_eqb. simpl.
  intros H. apply andb_true_iff in H. destruct H as [Hc Hr].
  apply columns_eqb_eq in Hc. apply rows_eqb_eq in Hr. now subst.
Qed.

(** End-to-end scenario 1 of the specification on [data_analyzer.py]:
    East goes from 80 to 100, West from 50 to nothing; the prior row
    without a region is not counted anywhere. *)
Example scenario_east_west :
  DataAnalyzer.calculate_comparison
    (DataAnalyzer.group_and_summarize no_text_number false sales_current
                                      ["region"] ["sales"])
    (DataAnalyzer.group_and_summarize no_text_number false sales_previous
                                      ["region"] ["sales"])
    ["region"] ["sales"]
  = mkDataFrame
      [("region", Dtype "object"); ("sales_上月", Dtype "float64");
       ("sales_本月", Dtype "float64"); ("sales_变化", Dtype "float64");
       ("sales_环比(%)", Dtype "float64")]
      [[("region", Str "East"); ("sales_上月", int_cell 80);
        ("sales_本月", int_cell 100); ("sales_变化", int_cell 20);
        ("sales_环比(%)", int_cell 25)];
       [("region", Str "West"); ("sales_上月", int_cell 50);
        ("sales_本月", int_cell 0); ("sales_变化", int_cell (-50));
        ("sales_环比(%)", int_cell (-100))]].
Proof. apply frame_eqb_eq. vm_compute. reflexivity. Qed.

(** The same data through [auto_monthly_analysis.py]: the growth is the
    fraction, 1/4 and -1. *)
Example scenario_east_west_auto :
  match AutoMonthly.aggregate_data false sales_current ["region"] ["sales"],
        AutoMonthly.aggregate_data false sales_previous ["region"] ["sales"] with
  | Some current_agg, Some previous_agg =>
      match AutoMonthly.merge_monthly_data current_agg previous_agg ["region"] with
      | Some merged =>
          option_map (fun d => series d "sales_环比增幅")
                     (AutoMonthly.calculate_growth_rate merged ["sales"])
      | None => None
      end
  | _, _ => None
  end
  = Some [Num (Fin (Q2Qc (1 # 4))); Num (Fin (qz (-1)))].
Proof.
  vm_compute. do 2 f_equal; [| f_equal]; do 2 f_equal; apply Qc_eq_by_value; reflexivity.
Qed.

(** End-to-end scenario 2 on both scripts: North is new, with a total of
    40. [data_analyzer.py] reports the change 40 and the rate 100.0;
    [auto_monthly_analysis.py] reports positive infinity, printed as
    the infinity token (the text of a finite rate is not modelled and
    stands as [finite]). *)
Example scenario_new_group :
  DataAnalyzer.calculate_comparison
    (DataAnalyzer.group_and_summarize no_text_number false north_current
                                      ["region"] ["sales"])
    (DataAnalyzer.group_and_summarize no_text_number false sales_previous
                                      ["region"] ["sales"])
    ["region"] ["sales"]
  = mkDataFrame
      [("region", Dtype "object"); ("sales_上月", Dtype "float64");
       ("sales_本月", Dtype "float64"); ("sales_变化", Dtype "float64");
       ("sales_环比(%)", Dtype "float64")]
      [[("region", Str "North"); ("sales_上月", int_cell 0);
        ("sales_本月", int_cell 40); ("sales_变化", int_cell 40);
        ("sales_环比(%)", int_cell 100)];
       [("region", Str "East"); ("sales_上月", int_cell 80);
        ("sales_本月", int_cell 0); ("sales_变化", int_cell (-80));
        ("sales_环比(%)", int_cell (-100))];
       [("region", Str "West"); ("sales_上月", int_cell 50);
        ("sales_本月", int_cell 0); ("sales_变化", int_cell (-50));
        ("sales_环比(%)", int_cell (-100))]]
  /\ match AutoMonthly.aggregate_data false north_current ["region"] ["sales"],
           AutoMonthly.aggregate_data false sales_previous ["region"] ["sales"] with
     | Some current_agg, Some previous_agg =>
         match AutoMonthly.merge_monthly_data current_agg previous_agg ["region"] with
         | Some merged =>
             match AutoMonthly.calculate_growth_rate merged ["sales"] with
             | Some result =>
                 option_map (fun d => series d "sales_环比增幅_百分比")
                            (AutoMonthly.format_results (fun _ => "finite")
                                                        result ["sales"])
             | None => None
             end
         | None => None
         end
     | _, _ => None
     end
     = Some [Str "∞"; Str "finite"; Str "finite"].
Proof.
  split; [| reflexivity].
  apply frame_eqb_eq. vm_compute. reflexivity.
Qed.

(** C5 on the code: with cut points 100 and 500 there are three labels,
    but a loan of exactly 100 is put under [100.0-500.0], not under
    [<=100.0], and a loan of exactly 500 under [>500.0]; the row whose
    amount is a text gets no label. *)
Theorem value_at_cutpoint_takes_upper_interval :
  loan_labels = ["<=100.0"; "100.0-500.0"; ">500.0"]
  /\ option_map (fun b => series b "区间")
                (DataAnalyzerV2.apply_interval_binning no_text_number loans
                   "loan_amount" loan_cutpoints loan_labels)
     = Some [Str "100.0-500.0"; Str ">500.0"; Str "<=100.0"; NA].
Proof. split; reflexivity. Qed.


(** With [observed] true the same aggregate has no such row. *)
Example empty_interval_dropped_when_observed :
  frame_keys (DataAnalyzerV2.group_and_summarize no_text_number true
                (binned loans_previous) ["区间"] ["count"]) ["区间"]
  = [[Str "<=100.0"]; [Str "100.0-500.0"]].
Proof. reflexivity. Qed.





(** The row with the text amount and the prior row without a region
    leave no trace in the aggregates. *)
Example missing_keys_leave_no_trace :
  frame_keys (DataAnalyzerV2.group_and_summarize no_text_number true (binned loans)
                                                 ["区间"] ["count"]) ["区间"]
  = [[Str "<=100.0"]; [Str "100.0-500.0"]; [Str ">500.0"]]
  /\ frame_keys (DataAnalyzer.group_and_summarize no_text_number false sales_previous
                                                  ["region"] ["sales"]) ["region"]
     = [[Str "East"]; [Str "West"]].
Proof. split; reflexivity. Qed.

(** The interval pipeline on the two loan frames, with the cut points
    typed as [500, 100] and the amounts read as decimal literals: the
    labels come out in increasing order, and, unobserved categories
    being kept, every label has a row. *)
Example interval_pipeline_orders_the_labels :
  option_map (fun result => frame_keys result ["区间"])
             (DataAnalyzerV2.run_metric_interval_summary
                decimal_number decimal_literal float_repr false
                (DataAnalyzerV2.mkAnalyzer (Some loans) (Some loans_previous)
                                           [] ["loan_amount"; "count"])
                "loan_amount" ["500, 100"])
  = Some [[Str "<=100.0"]; [Str "100.0-500.0"]; [Str ">500.0"]].
Proof. reflexivity. Qed.

(* ================================================================== *)
(** * Further properties of the growth-rate calculators *)

Lemma Qc_round_zero (n : nat) : Qc_round 0%Qc n = 0%Qc.
Proof.
  unfold Qc_round.
  replace (0 * qz (pow10 n))%Qc with 0%Qc by ring.
  change (round_half_even 0%Qc) with 0%Z.
  change (Q2Qc (inject_Z 0)) with 0%Qc.
  unfold Qcdiv. ring.
Qed.

(** X1. A total that did not move between the periods has change 0 and
    growth 0 in every script, whether the total is zero or not. *)
Theorem unchanged_total_has_zero_growth (p : Qc) :
  DataAnalyzerRate.growth_rate (Fin p) (Fin p) = Fin 0%Qc
  /\ DataAnalyzerRate.change (Fin p) (Fin p) = Fin 0%Qc
  /\ DataAnalyzerV2Rate.growth_rate (Fin p) (Fin p) = Fin 0%Qc
  /\ DataAnalyzerV2Rate.change (Fin p) (Fin p) = Fin 0%Qc
  /\ AutoMonthlyRate.growth_rate (Fin p) (Fin p) = Fin 0%Qc.
Proof.
  assert (Hsub : fsub (Fin p) (Fin p) = Fin 0%Qc).
  { unfold fsub. simpl. f_equal. ring. }
  unfold DataAnalyzerRate.growth_rate, DataAnalyzerV2Rate.growth_rate,
    AutoMonthlyRate.growth_rate, DataAnalyzerRate.change, DataAnalyzerV2Rate.change.
  rewrite Hsub.
  destruct (Qc_eq_dec p 0%Qc) as [-> | Hp].
  - repeat split; reflexivity.
  - rewrite (fneb_nonzero p Hp). simpl. rewrite (Qc_eq_bool_neq p 0%Qc Hp). simpl.
    assert (E0 : (0 / p)%Qc = 0%Qc) by (unfold Qcdiv; ring).
    rewrite E0.
    replace (0 * qz 100)%Qc with 0%Qc by ring.
    rewrite Qc_round_zero. repeat split; reflexivity.
Qed.

(** The growth column of the automatic script, entry by entry. *)
Lemma growth_column_pointwise (current previous : list fnum) :
  AutoMonthlyRate.growth_column current previous
  = AutoMonthlyRate.zip_with AutoMonthlyRate.growth_rate current previous.
Proof.
  unfold AutoMonthlyRate.growth_column.
  revert previous. induction current as [| c current IH]; intros [| p previous];
    try reflexivity.
  simpl. f_equal. apply IH.
Qed.



(* ================================================================== *)
(** * Further properties of cut points, labels and bins *)

Lemma middle_labels_length (fs : Qc -> string) (cutpoints : list Qc) :
  List.length (DataAnalyzerV2.middle_labels fs cutpoints)
  = (List.length cutpoints - 1)%nat.
Proof.
  induction cutpoints as [| a t IH]; [reflexivity |].
  destruct t as [| b t']; [reflexivity |].
  change (DataAnalyzerV2.middle_labels fs (a :: b :: t'))
    with ((fs a ++ "-" ++ fs b)%string :: DataAnalyzerV2.middle_labels fs (b :: t')).
  simpl List.length in *. rewrite IH. lia.
Qed.

(** X3. [create_interval_labels] returns one label more than there are
    cut points, and none for an empty list; binning with no cut point
    and these labels raises instead of putting every row in one bin. *)
Theorem labels_one_more_than_cutpoints
        (fs : Qc -> string) (stf : string -> option fnum) (cutpoints : list Qc)
        (min_val max_val : fnum) (df : DataFrame) (metric_name : string) :
  List.length (DataAnalyzerV2.create_interval_labels fs cutpoints min_val max_val)
  = match cutpoints with
    | [] => 0%nat
    | _ :: _ => S (List.length cutpoints)
    end
  /\ DataAnalyzerV2.apply_interval_binning stf df metric_name []
       (DataAnalyzerV2.create_interval_labels fs [] min_val max_val)
     = None.
Proof.
  split.
  - unfold DataAnalyzerV2.create_interval_labels.
    destruct cutpoints as [| c0 t]; [reflexivity |].
    rewrite length_app. cbn [List.length]. rewrite middle_labels_length.
    simpl. lia.
  - unfold DataAnalyzerV2.apply_interval_binning.
    destruct (has_column df metric_name); reflexivity.
Qed.

Lemma Qc_leb_not_ltb (c x : Qc) : negb (Qc_ltb x c) = Qc_leb c x.
Proof.
  destruct (Qc_leb c x) eqn:E.
  - apply Qc_leb_le in E. apply negb_true_iff.
    destruct (Qc_ltb x c) eqn:E'; [| reflexivity].
    apply Qc_ltb_lt in E'. exfalso. now apply (Qcle_not_lt c x).
  - apply negb_false_iff. apply Qc_ltb_lt. apply Qcnot_le_lt.
    intros H. apply Qc_leb_le in H. congruence.
Qed.

(** In an increasing list the values up to [x] form a prefix. *)
Lemma sorted_prefix_below (x : Qc) (l : list Qc) :
  Sorted Qcle l ->
  let k := List.length (filter (fun c => Qc_leb c x) l) in
  (forall c, In c (firstn k l) -> (c <= x)%Qc)
  /\ (forall c, In c (skipn k l) -> (x < c)%Qc).
Proof.
  intros Hs. apply Sorted_StronglySorted in Hs;
    [| intros a b c; apply Qcle_trans].
  induction Hs as [| a t Hst IH Hall]; simpl.
  - split; intros c [].
  - destruct (Qc_leb a x) eqn:E; simpl.
    + destruct IH as [IH1 IH2]. split.
      * intros c [<- | Hc]; [now apply Qc_leb_le | now apply IH1].
      * exact IH2.
    + assert (Hax : (x < a)%Qc).
      { apply Qcnot_le_lt. intros H. apply Qc_leb_le in H. congruence. }
      replace (filter (fun c => Qc_leb c x) t) with (@nil Qc).
      * simpl. split; [intros c [] |].
        intros c [<- | Hc]; [exact Hax |].
        apply Qclt_le_trans with a; [exact Hax |].
        rewrite Forall_forall in Hall. now apply Hall.
      * symmetry. apply filter_none. intros c Hc.
        destruct (Qc_leb c x) eqn:E'; [| reflexivity].
        apply Qc_leb_le in E'. exfalso.
        rewrite Forall_forall in Hall. specialize (Hall c Hc).
        apply (Qcle_not_lt a x); [| exact Hax].
        now apply Qcle_trans with c.
Qed.

Lemma filter_length_le {A} (f : A -> bool) (l : list A) :
  (List.length (filter f l) <= List.length l)%nat.
Proof.
  induction l as [| a l IH]; simpl; [lia |]. destruct (f a); simpl; lia.
Qed.

Lemma edges_reached (x : Qc) (cutpoints : list Qc) :
  List.length (filter (fun b => fleb b (Fin x)) (map Fin cutpoints))
  = List.length (filter (fun c => Qc_leb c x) cutpoints).
Proof.
  induction cutpoints as [| c t IH]; [reflexivity |].
  cbn [map filter].
  assert (E : fleb (Fin c) (Fin x) = Qc_leb c x)
    by (unfold fleb; simpl; apply Qc_leb_not_ltb).
  rewrite E. destruct (Qc_leb c x); cbn [List.length]; now rewrite IH.
Qed.

(** X4. Whenever binning does not raise, every finite value gets exactly
    the label whose position is the number of cut points it has
    reached: the cut points before that position are at most the value
    and the later ones are above it, so the intervals are closed on the
    left and no value is left without a label. *)
Theorem every_value_falls_in_one_interval
        (cutpoints : list Qc) (labels : list string) (x : Qc) :
  DataAnalyzerV2.pd_cut_ok ([NInf] ++ map Fin cutpoints ++ [PInf]) labels = true ->
  exists label,
    nth_error labels (List.length (filter (fun c => Qc_leb c x) cutpoints))
    = Some label
    /\ DataAnalyzerV2.cut_value ([NInf] ++ map Fin cutpoints ++ [PInf]) labels
                                (Num (Fin x))
       = Str label
    /\ (forall c, In c (firstn (List.length (filter (fun c => Qc_leb c x) cutpoints))
                               cutpoints) -> (c <= x)%Qc)
    /\ (forall c, In c (skipn (List.length (filter (fun c => Qc_leb c x) cutpoints))
                              cutpoints) -> (x < c)%Qc).
Proof.
  intros Hok. unfold DataAnalyzerV2.pd_cut_ok in Hok.
  apply andb_true_iff in Hok. destruct Hok as [Hok _].
  apply andb_true_iff in Hok. destruct Hok as [Hok Hlen].
  apply andb_true_iff in Hok. destruct Hok as [Hmono _].
  apply Nat.eqb_eq in Hlen.
  assert (Hsorted : Sorted Qcle cutpoints).
  { apply monotonic_edges_Sorted. simpl in Hmono.
    destruct (map Fin cutpoints ++ [PInf]) eqn:E.
    - destruct cutpoints; discriminate.
    - apply andb_true_iff in Hmono. tauto. }
  set (k := List.length (filter (fun c => Qc_leb c x) cutpoints)).
  assert (Hk : (k <= List.length cutpoints)%nat) by apply filter_length_le.
  assert (Hbins : List.length ([NInf] ++ map Fin cutpoints ++ [PInf])
                  = S (S (List.length cutpoints))).
  { simpl. rewrite length_app, length_map. simpl. lia. }
  assert (Hids : DataAnalyzerV2.searchsorted_right
                   ([NInf] ++ map Fin cutpoints ++ [PInf]) (Fin x) = S k).
  { unfold DataAnalyzerV2.searchsorted_right. simpl. f_equal.
    rewrite filter_app. simpl. rewrite app_nil_r. apply edges_reached. }
  assert (Hlabel : exists label, nth_error labels k = Some label).
  { destruct (nth_error labels k) as [label |] eqn:E; [now exists label |].
    apply nth_error_None in E. rewrite Hlen, Hbins in E. lia. }
  destruct Hlabel as [label Hlabel]. exists label.
  split; [exact Hlabel |]. split.
  - unfold DataAnalyzerV2.cut_value. rewrite Hids, Hbins.
    assert (Hne : (k =? S (List.length cutpoints))%nat = false)
      by (apply Nat.eqb_neq; lia).
    simpl. rewrite Hne, Nat.sub_0_r, Hlabel. reflexivity.
  - now apply sorted_prefix_below.
Qed.

Lemma every_value_falls_in_one_interval_witness :
  DataAnalyzerV2.pd_cut_ok ([NInf] ++ map Fin loan_cutpoints ++ [PInf]) loan_labels
  = true
  /\ exists label,
      nth_error loan_labels
                (List.length (filter (fun c => Qc_leb c (qz 250)) loan_cutpoints))
      = Some label
      /\ DataAnalyzerV2.cut_value ([NInf] ++ map Fin loan_cutpoints ++ [PInf])
                                  loan_labels (Num (Fin (qz 250)))
         = Str label
      /\ (forall c, In c (firstn (List.length (filter (fun c => Qc_leb c (qz 250))
                                                      loan_cutpoints))
                                 loan_cutpoints) -> (c <= qz 250)%Qc)
      /\ (forall c, In c (skipn (List.length (filter (fun c => Qc_leb c (qz 250))
                                                     loan_cutpoints))
                                loan_cutpoints) -> (qz 250 < c)%Qc).
Proof.
  assert (H : DataAnalyzerV2.pd_cut_ok ([NInf] ++ map Fin loan_cutpoints ++ [PInf])
                                       loan_labels = true) by reflexivity.
  split; [exact H |].
  exact (every_value_falls_in_one_interval loan_cutpoints loan_labels (qz 250) H).
Defined.





(* ================================================================== *)
(** * Further properties of the aggregators *)

Lemma has_column_coerce_v2 stf df cols c :
  has_column (DataAnalyzerV2.coerce_columns stf df cols) c = has_column df c.
Proof.
  unfold has_column. destruct (coerce_present_spec stf df cols) as [-> _]. reflexivity.
Qed.

Lemma forallb_coerce_v2 stf df cols names :
  forallb (has_column (DataAnalyzerV2.coerce_columns stf df cols)) names
  = forallb (has_column df) names.
Proof.
  induction names as [| c names IH]; simpl; [reflexivity |].
  now rewrite has_column_coerce_v2, IH.
Qed.

Lemma groupby_sum_succeeds observed df keys metrics :
  keys <> [] ->
  forallb (has_column df) keys = true -> forallb (has_column df) metrics = true ->
  exists g, Pandas.groupby_sum observed df keys metrics = Some g.
Proof.
  intros Hne Hk Hm. unfold Pandas.groupby_sum.
  destruct keys as [| k0 ks]; [contradiction |].
  rewrite Hk, Hm. eexists. reflexivity.
Qed.



(* ================================================================== *)
(** * When the aggregators fail, and what they keep *)


Lemma groupby_sum_columns observed df keys metrics g :
  Pandas.groupby_sum observed df keys metrics = Some g ->
  column_names g = keys ++ metrics.
Proof.
  unfold Pandas.groupby_sum. destruct keys as [| k0 ks]; [discriminate |].
  destruct (_ && _); [| discriminate]. intros [= <-].
  unfold column_names. cbn [columns map fst]. f_equal. rewrite map_app.
  now rewrite !map_fst_tabulate, !map_id.
Qed.

Lemma groupby_sum_fails observed df keys metrics :
  Pandas.groupby_sum observed df keys metrics = None
  <-> keys = [] \/ forallb (has_column df) keys = false
      \/ forallb (has_column df) metrics = false.
Proof.
  unfold Pandas.groupby_sum. destruct keys as [| k0 ks].
  - split; [now left | reflexivity].
  - destruct (forallb (has_column df) (k0 :: ks)) eqn:Hk;
      destruct (forallb (has_column df) metrics) eqn:Hm; cbn [andb]; split;
      try discriminate; try (intros _; now auto).
    intros [H | [H | H]]; discriminate.
Qed.


Lemma summary_v2_is_empty_iff stf observed df keys metrics :
  DataAnalyzerV2.group_and_summarize stf observed df keys metrics = empty_frame
  <-> keys = [] \/ forallb (has_column df) keys = false.
Proof.
  unfold DataAnalyzerV2.group_and_summarize.
  set (dc := DataAnalyzerV2.coerce_columns stf df metrics).
  destruct (Pandas.groupby_sum observed dc keys (filter (has_column dc) metrics))
    as [g |] eqn:Hg.
  - split.
    + intros ->. apply groupby_sum_columns in Hg. cbn in Hg.
      symmetry in Hg. apply app_eq_nil in Hg. now left.
    + intros H. assert (Hnone : Pandas.groupby_sum observed dc keys
                                  (filter (has_column dc) metrics) = None).
      { apply groupby_sum_fails. destruct H as [H | H]; [now left |].
        right; left. unfold dc. now rewrite forallb_coerce_v2. }
      congruence.
  - split; [| reflexivity]. intros _.
    apply groupby_sum_fails in Hg. destruct Hg as [H | [H | H]].
    + now left.
    + right. unfold dc in H. now rewrite forallb_coerce_v2 in H.
    + exfalso. assert (Ht : forallb (has_column dc) (filter (has_column dc) metrics)
                            = true).
      { apply forallb_forall. intros x Hx. apply filter_In in Hx. tauto. }
      congruence.
Qed.


Lemma has_column_assign_present df c d f x :
  has_column df c = true -> has_column (assign df c d f) x = has_column df x.
Proof.
  intros H. unfold has_column, column_names, assign. simpl columns.
  now rewrite mem_set_dtype.
Qed.

Lemma coerce_v2_skips_absent stf cols : forall df,
  DataAnalyzerV2.coerce_columns stf df cols
  = DataAnalyzerV2.coerce_columns stf df (filter (has_column df) cols).
Proof.
  unfold DataAnalyzerV2.coerce_columns.
  induction cols as [| c cols IH]; intros df; [reflexivity |].
  cbn [filter fold_left]. destruct (has_column df c) eqn:Hc.
  - cbn [fold_left]. rewrite Hc. rewrite IH. f_equal.
    apply filter_ext. intros x. now apply has_column_assign_present.
  - apply IH.
Qed.

(** X8. The second analyzer ignores the metric columns that the data
    does not have: the summary is the one of the metric columns
    present. *)
Theorem summary_v2_ignores_absent_metrics
        (stf : string -> option fnum) (observed : bool)
        (df : DataFrame) (keys metrics : list string) :
  DataAnalyzerV2.group_and_summarize stf observed df keys metrics
  = DataAnalyzerV2.group_and_summarize stf observed df keys
                                       (filter (has_column df) metrics).
Proof.
  unfold DataAnalyzerV2.group_and_summarize.
  rewrite <- coerce_v2_skips_absent.
  assert (E : filter (has_column (DataAnalyzerV2.coerce_columns stf df metrics))
                     (filter (has_column df) metrics)
              = filter (has_column (DataAnalyzerV2.coerce_columns stf df metrics))
                       metrics).
  { rewrite (filter_ext _ (has_column df)) by (intros x; apply has_column_coerce_v2).
    rewrite (filter_ext (has_column (DataAnalyzerV2.coerce_columns stf df metrics))
                        (has_column df)) by (intros x; apply has_column_coerce_v2).
    apply filter_idem. }
  now rewrite E.
Qed.

(* ================================================================== *)
(** * Totals are conserved by grouping *)

















(* ================================================================== *)
(** * No total is missing after the merge *)

Lemma isna_fillna0 (c : cell) : isna (fillna0 c) = false.
Proof.
  unfold fillna0. destruct (isna c) eqn:E; [reflexivity | exact E].
Qed.

Lemma fill_metrics_rows metrics : forall merged filled,
  DataAnalyzer.fill_metrics merged metrics = Some filled ->
  columns filled = columns merged
  /\ rows filled = map (fill_row DataAnalyzer.current_col DataAnalyzer.previous_col
                                 metrics) (rows merged).
Proof.
  unfold DataAnalyzer.fill_metrics, fill_row.
  induction metrics as [| a metrics IH]; intros merged filled H.
  - cbn in H. injection H as <-. split; [reflexivity |]. cbn [fold_left]. symmetry. apply map_id.
  - cbn [foldM] in H.
    destruct (fillna_column merged (DataAnalyzer.current_col a)) as [m1 |] eqn:E1;
      [| discriminate].
    destruct (fillna_column m1 (DataAnalyzer.previous_col a)) as [m2 |] eqn:E2;
      [| discriminate].
    unfold fillna_column in E1, E2.
    destruct (has_column merged _); [| discriminate]. injection E1 as <-.
    destruct (has_column _ _); [| discriminate]. injection E2 as <-.
    apply IH in H. cbn [columns rows] in H. destruct H as [Hc Hr].
    split; [exact Hc |]. rewrite Hr, !map_map. reflexivity.
Qed.

(** X10. After the merge no total is missing: the merged frame of the
    automatic script has no missing cell at all, and the filled merge
    of the first analyzer has a value in the current and the prior
    column of every metric. *)
Theorem merged_totals_are_not_missing
        (current previous : DataFrame) (keys metrics : list string) :
  (forall merged r p,
      AutoMonthly.merge_monthly_data current previous keys = Some merged ->
      In r (rows merged) -> In p r -> isna (snd p) = false)
  /\ (forall merged r m,
         DataAnalyzer.merge_and_fill current previous keys metrics = Some merged ->
         In r (rows merged) -> In m metrics ->
         isna (get r (DataAnalyzer.current_col m)) = false
         /\ isna (get r (DataAnalyzer.previous_col m)) = false).
Proof.
  split.
  - intros merged r p H Hr Hp.
    assert (Hf : exists df, merged = AutoMonthly.fillna_frame df).
    { unfold AutoMonthly.merge_monthly_data in H. destruct keys as [| k0 ks].
      - injection H as <-. eexists. reflexivity.
      - destruct (Pandas.merge_outer _ _ _ _ _) as [mg |]; [| discriminate].
        injection H as <-. eexists. reflexivity. }
    destruct Hf as [df ->]. cbn [AutoMonthly.fillna_frame rows] in Hr.
    apply in_map_iff in Hr. destruct Hr as [r0 [<- _]].
    apply in_map_iff in Hp. destruct Hp as [p0 [<- _]]. apply isna_fillna0.
  - intros merged r m H Hr Hm.
    unfold DataAnalyzer.merge_and_fill in H.
    destruct (Pandas.merge_outer _ _ _ _ _) as [mg |]; [| discriminate].
    apply fill_metrics_rows in H. destruct H as [_ Hrows].
    rewrite Hrows in Hr. apply in_map_iff in Hr. destruct Hr as [r0 [<- _]].
    assert (Hin : forall c, In c [DataAnalyzer.current_col m; DataAnalyzer.previous_col m] ->
                            mem c (flat_map (fun m => [DataAnalyzer.current_col m;
                                                       DataAnalyzer.previous_col m])
                                            metrics) = true).
    { intros c Hc. apply mem_In. apply in_flat_map. now exists m. }
    rewrite !get_fill_row, !Hin by (simpl; tauto).
    split; apply isna_fillna0.
Qed.

(* ================================================================== *)
(** * The comparison of two aggregates *)

Lemma list_ascii_of_append (a b : string) :
  list_ascii_of_string (a ++ b) = list_ascii_of_string a ++ list_ascii_of_string b.
Proof.
  induction a as [| x a IH]; [reflexivity |]. cbn. now rewrite IH.
Qed.

Lemma string_of_ascii_list_inj (a b : string) :
  list_ascii_of_string a = list_ascii_of_string b -> a = b.
Proof.
  intros H. rewrite <- (string_of_list_ascii_of_string a),
                    <- (string_of_list_ascii_of_string b). now rewrite H.
Qed.

(** A suffix can be taken off both sides. *)
Lemma append_same_suffix (a b s : string) : (a ++ s)%string = (b ++ s)%string -> a = b.
Proof.
  intros H. apply string_of_ascii_list_inj.
  apply (f_equal list_ascii_of_string) in H. rewrite !list_ascii_of_append in H.
  now apply app_inv_tail in H.
Qed.

Lemma last_of_append (l l' : list ascii) (d : ascii) :
  l' <> [] -> last (l ++ l') d = last l' d.
Proof.
  intros H. induction l as [| x l IH]; [reflexivity |].
  cbn [app last]. destruct (l ++ l') eqn:E; [| exact IH].
  apply app_eq_nil in E. now destruct E.
Qed.

(** Names that end in different characters differ. *)
Lemma append_last_neq (a b s t : string) :
  s <> "" -> t <> "" ->
  last (list_ascii_of_string s) zero <> last (list_ascii_of_string t) zero ->
  (a ++ s)%string <> (b ++ t)%string.
Proof.
  intros Hs Ht Hxy H. apply Hxy. apply (f_equal list_ascii_of_string) in H.
  rewrite !list_ascii_of_append in H.
  rewrite <- (last_of_append (list_ascii_of_string a) (list_ascii_of_string s)),
          <- (last_of_append (list_ascii_of_string b) (list_ascii_of_string t)).
  - now rewrite H.
  - destruct t; [now elim Ht | discriminate].
  - destruct s; [now elim Hs | discriminate].
Qed.

Lemma change_not_total (a b : string) :
  (a ++ "_变化")%string <> (b ++ "_本月")%string
  /\ (a ++ "_变化")%string <> (b ++ "_上月")%string.
Proof.
  split; apply append_suffix_neq; (reflexivity || discriminate).
Qed.

Lemma growth_not_total (a b : string) :
  (a ++ "_环比(%)")%string <> (b ++ "_本月")%string
  /\ (a ++ "_环比(%)")%string <> (b ++ "_上月")%string
  /\ (a ++ "_环比(%)")%string <> (b ++ "_变化")%string.
Proof.
  repeat split; apply append_last_neq; try discriminate; vm_compute; discriminate.
Qed.

Lemma mapM_all {A B} (f : A -> option B) (g : A -> B) (l : list A) :
  (forall x, In x l -> f x = Some (g x)) -> mapM f l = Some (map g l).
Proof.
  induction l as [| x l IH]; intros H; [reflexivity |].
  cbn [mapM map]. rewrite (H x (or_introl eq_refl)), IH; [reflexivity |].
  intros; apply H; now right.
Qed.

Lemma assign_opt_all df c d (f : row -> option cell) (g : row -> cell) :
  (forall r, In r (rows df) -> f r = Some (g r)) ->
  assign_opt df c d f = Some (assign df c d g).
Proof.
  intros H. unfold assign_opt, assign.
  rewrite (mapM_all _ (fun r => set_cell r c (g r))); [reflexivity |].
  intros r Hr. now rewrite (H r Hr).
Qed.

Lemma get_growth_step_other chg gr r m k :
  k <> (m ++ "_变化")%string -> k <> (m ++ "_环比(%)")%string ->
  get (growth_step chg gr r m) k = get r k.
Proof.
  intros H1 H2. unfold growth_step. rewrite !get_set_cell.
  destruct (String.eqb_spec (m ++ "_环比(%)") k) as [E | _]; [now elim H2 |].
  destruct (String.eqb_spec (m ++ "_变化") k) as [E | _]; [now elim H1 |].
  reflexivity.
Qed.

Lemma get_growth_step_total chg gr r m m' :
  get (growth_step chg gr r m) (m' ++ "_本月")%string = get r (m' ++ "_本月")%string
  /\ get (growth_step chg gr r m) (m' ++ "_上月")%string = get r (m' ++ "_上月")%string.
Proof.
  destruct (change_not_total m m') as [C1 C2].
  destruct (growth_not_total m m') as [G1 [G2 _]].
  split; apply get_growth_step_other; congruence.
Qed.

Lemma numeric_totals_step chg gr metrics r m :
  numeric_totals metrics r -> numeric_totals metrics (growth_step chg gr r m).
Proof.
  intros H m' Hm'. destruct (get_growth_step_total chg gr r m m') as [-> ->].
  now apply H.
Qed.

Lemma get_growth_step_new chg gr r m c p :
  get r (m ++ "_本月")%string = Num c -> get r (m ++ "_上月")%string = Num p ->
  get (growth_step chg gr r m) (m ++ "_变化")%string = Num (chg c p)
  /\ get (growth_step chg gr r m) (m ++ "_环比(%)")%string = Num (gr c p).
Proof.
  intros Hc Hp. unfold growth_step.
  destruct (change_not_total m m) as [C1 C2].
  destruct (growth_not_total m m) as [_ [_ G3]].
  rewrite !get_set_cell.
  rewrite !String.eqb_refl.
  destruct (String.eqb_spec (m ++ "_环比(%)") (m ++ "_变化")) as [E | _]; [now elim G3 |].
  destruct (String.eqb_spec (m ++ "_变化") (m ++ "_本月")) as [E | _]; [now elim C1 |].
  destruct (String.eqb_spec (m ++ "_变化") (m ++ "_上月")) as [E | _]; [now elim C2 |].
  rewrite Hc, Hp. cbn [num_of_cell]. now split.
Qed.

Lemma get_growth_row_other chg gr metrics k : forall r,
  (forall m, In m metrics -> k <> (m ++ "_变化")%string /\ k <> (m ++ "_环比(%)")%string) ->
  get (growth_row chg gr metrics r) k = get r k.
Proof.
  unfold growth_row. induction metrics as [| a metrics IH]; intros r H; [reflexivity |].
  cbn [fold_left]. rewrite IH by (intros; apply H; now right).
  destruct (H a (or_introl eq_refl)). now apply get_growth_step_other.
Qed.

Lemma get_growth_row_total chg gr metrics r m :
  get (growth_row chg gr metrics r) (m ++ "_本月")%string = get r (m ++ "_本月")%string
  /\ get (growth_row chg gr metrics r) (m ++ "_上月")%string = get r (m ++ "_上月")%string.
Proof.
  split; apply get_growth_row_other; intros m' _.
  - destruct (change_not_total m' m), (growth_not_total m' m) as [? [? ?]].
    split; congruence.
  - destruct (change_not_total m' m), (growth_not_total m' m) as [? [? ?]].
    split; congruence.
Qed.

(** After the loop the change and the growth of a metric are the
    formulas' values at the row's two totals. *)
Lemma get_growth_row_new chg gr metrics m c p : forall r,
  In m metrics ->
  get r (m ++ "_本月")%string = Num c -> get r (m ++ "_上月")%string = Num p ->
  get (growth_row chg gr metrics r) (m ++ "_变化")%string = Num (chg c p)
  /\ get (growth_row chg gr metrics r) (m ++ "_环比(%)")%string = Num (gr c p).
Proof.
  induction metrics as [| a metrics IH]; intros r Hin Hc Hp; [contradiction |].
  change (growth_row chg gr (a :: metrics) r)
    with (growth_row chg gr metrics (growth_step chg gr r a)).
  destruct (get_growth_step_total chg gr r a m) as [Ec Ep].
  destruct (in_dec string_dec m metrics) as [Hlater | Hlast].
  - apply IH; [exact Hlater | now rewrite Ec | now rewrite Ep].
  - destruct Hin as [-> | Hin]; [| contradiction].
    assert (Hother : forall k, k = (m ++ "_变化")%string \/ k = (m ++ "_环比(%)")%string ->
                               forall m', In m' metrics ->
                                          k <> (m' ++ "_变化")%string
                                          /\ k <> (m' ++ "_环比(%)")%string).
    { intros k Hk m' Hm'.
      assert (Hne : m <> m') by (intros ->; contradiction).
      destruct (growth_not_total m m') as [_ [_ G1]].
      destruct (growth_not_total m' m) as [_ [_ G2]].
      destruct Hk as [-> | ->]; split; try congruence.
      - intros E. apply append_same_suffix in E. contradiction.
      - intros E. apply append_same_suffix in E. contradiction. }
    rewrite !get_growth_row_other by (apply Hother; tauto).
    now apply get_growth_step_new.
Qed.


Lemma mem_after_set_dtype (cols : list (string * dtype)) (c k : string) (d : dtype) :
  mem k (map fst (set_dtype cols c d)) = mem k (map fst cols) || String.eqb k c.
Proof.
  unfold mem. induction cols as [| [n e] cols IH]; cbn.
  - now rewrite orb_false_r.
  - destruct (String.eqb_spec n c) as [-> | Hne]; cbn.
    + destruct (String.eqb k c) eqn:E; cbn; [reflexivity |]. now rewrite orb_false_r.
    + rewrite IH. now rewrite orb_assoc.
Qed.

Lemma mem_growth_columns metrics k : forall cols,
  mem k (map fst (growth_columns metrics cols))
  = mem k (map fst cols)
    || mem k (flat_map (fun m => [(m ++ "_变化")%string; (m ++ "_环比(%)")%string])
                       metrics).
Proof.
  unfold growth_columns. induction metrics as [| a metrics IH]; intros cols.
  - cbn. now rewrite orb_false_r.
  - cbn [fold_left flat_map]. rewrite IH, !mem_after_set_dtype.
    unfold mem at 4. cbn [app existsb]. fold (mem k).
    now rewrite !orb_assoc.
Qed.

Lemma side_cells_are_numbers (side : option row) (s k : string) (ms : list string) :
  (forall x m, side = Some x -> In m ms -> exists v, get x m = Num v) ->
  exists v,
    get (map (fun c : string * string =>
                (snd c, match side with
                        | Some x => get x (fst c)
                        | None => NA
                        end))
             (map (fun m => (m, (m ++ s)%string)) ms)) k = Num v.
Proof.
  intros H. rewrite map_map. cbn [fst snd].
  induction ms as [| a ms IH]; cbn [map get].
  - now exists NaN.
  - destruct (String.eqb (a ++ s) k).
    + destruct side as [x |]; [| now exists NaN].
      apply (H x a); [reflexivity | now left].
    + apply IH. intros x m Hx Hm. apply (H x m Hx). now right.
Qed.

(** A cell of a joined row outside the keys is a number; a total the
    side lacks is the missing number. *)
Lemma joined_cells_are_numbers keys metrics sl sr ls rs r k :
  (forall x m, In x ls -> In m metrics -> exists v, get x m = Num v) ->
  (forall y m, In y rs -> In m metrics -> exists v, get y m = Num v) ->
  In r (joined_rows keys metrics sl sr ls rs) -> ~ In k keys ->
  exists v, get r k = Num v.
Proof.
  intros Hl Hr Hin Hk.
  assert (Hrow : forall l r',
             (forall x, l = Some x -> In x ls) -> (forall y, r' = Some y -> In y rs) ->
             exists v,
               get (Pandas.join_row keys (map (fun m => (m, (m ++ sl)%string)) metrics)
                                    (map (fun m => (m, (m ++ sr)%string)) metrics) l r') k
               = Num v).
  { intros l r' Hlx Hry. unfold Pandas.join_row. rewrite get_app.
    rewrite (map_fst_tabulate (fun k : string => k)), map_id.
    replace (mem k keys) with false by (symmetry; now apply mem_not_In).
    rewrite get_app. destruct (mem k _).
    - apply side_cells_are_numbers. intros x m Hx Hm. apply Hl; auto.
    - apply side_cells_are_numbers. intros y m Hy Hm. apply Hr; auto. }
  apply joined_rows_cases in Hin. cbv zeta in Hin.
  destruct Hin as [[x [Hx [_ ->]]] | [[x [y [Hx [Hy [_ ->]]]]] | [y [Hy [_ ->]]]]].
  - apply (Hrow (Some x) None); [now intros z [= <-] | discriminate].
  - apply (Hrow (Some x) (Some y)); now intros z [= <-].
  - apply (Hrow None (Some y)); [discriminate | now intros z [= <-]].
Qed.

Lemma fillna0_number (v : fnum) : exists w, fillna0 (Num v) = Num w.
Proof.
  unfold fillna0. destruct (isna (Num v)); eexists; reflexivity.
Qed.

Lemma In_result_columns keys metrics k :
  In k (DataAnalyzer.result_columns keys metrics)
  <-> In k keys
      \/ exists m, In m metrics
                   /\ (k = (m ++ "_上月")%string \/ k = (m ++ "_本月")%string
                       \/ k = (m ++ "_变化")%string \/ k = (m ++ "_环比(%)")%string).
Proof.
  unfold DataAnalyzer.result_columns. rewrite in_app_iff, in_flat_map.
  unfold DataAnalyzer.previous_col, DataAnalyzer.current_col, DataAnalyzer.change_col,
    DataAnalyzer.growth_col.
  split; (intros [H | [m [Hm H]]]; [now left | right; exists m; split; [exact Hm |]]);
    cbn in *; intuition congruence.
Qed.


(** What holds of the rows [calculate_comparison] returns on two
    aggregates, whatever the formulas [chg] and [gr] of the
    analyzer. *)
Lemma compared_rows_spec (chg gr : fnum -> fnum -> fnum)
      (current previous : DataFrame) (keys metrics : list string)
      (cols : list (string * dtype)) :
  derived_names_fresh keys metrics ->
  is_aggregate current keys metrics -> is_aggregate previous keys metrics ->
  union_merge
    current previous
    (mkDataFrame
       cols
       (map (fun r =>
               map (fun c =>
                      (c, get (growth_row chg gr metrics
                                          (fill_row DataAnalyzer.current_col
                                                    DataAnalyzer.previous_col metrics r))
                              c))
                   (DataAnalyzer.result_columns keys metrics))
            (joined_rows keys metrics "_本月" "_上月" (rows current) (rows previous))))
    keys metrics
  /\ forall r m,
       In r (map (fun r =>
                    map (fun c =>
                           (c, get (growth_row chg gr metrics
                                               (fill_row DataAnalyzer.current_col
                                                         DataAnalyzer.previous_col
                                                         metrics r))
                                   c))
                        (DataAnalyzer.result_columns keys metrics))
                 (joined_rows keys metrics "_本月" "_上月"
                              (rows current) (rows previous))) ->
       In m metrics ->
       exists c p,
         get r (m ++ "_本月")%string = Num c
         /\ get r (m ++ "_上月")%string = Num p
         /\ get r (m ++ "_变化")%string = Num (chg c p)
         /\ get r (m ++ "_环比(%)")%string = Num (gr c p).
Proof.
  intros Hfresh Hcur Hprev.
  destruct Hcur as [Hcn Hcu Hcp Hct]. destruct Hprev as [Hpn Hpu Hpp Hpt].
  set (F1 := fill_row DataAnalyzer.current_col DataAnalyzer.previous_col metrics) in *.
  set (F2 := growth_row chg gr metrics) in *.
  set (rc := DataAnalyzer.result_columns keys metrics) in *.
  set (F := fun r : row => map (fun c => (c, get (F2 (F1 r)) c)) rc) in *.
  assert (Hget : forall r0 k, In k rc -> get (F r0) k = get (F2 (F1 r0)) k).
  { intros r0 k Hk. unfold F. rewrite get_tabulate.
    now replace (mem k rc) with true by (symmetry; now apply mem_In). }
  assert (Hin : forall m c, In m metrics ->
                            In c [DataAnalyzer.current_col m; DataAnalyzer.previous_col m] ->
                            mem c (flat_map (fun m => [DataAnalyzer.current_col m;
                                                       DataAnalyzer.previous_col m])
                                            metrics) = true).
  { intros m c Hm Hc. apply mem_In. apply in_flat_map. now exists m. }
  assert (Htotal : forall r0 m,
             In m metrics ->
             get (F r0) (m ++ "_上月")%string = fillna0 (get r0 (m ++ "_上月")%string)
             /\ get (F r0) (m ++ "_本月")%string
                = fillna0 (get r0 (m ++ "_本月")%string)).
  { intros r0 m Hm.
    rewrite !Hget by (apply In_result_columns; right; exists m; tauto).
    destruct (get_growth_row_total chg gr metrics (F1 r0) m) as [E1 E2].
    fold F2 in E1, E2. rewrite E1, E2. unfold F1. rewrite !get_fill_row.
    change (m ++ "_上月")%string with (DataAnalyzer.previous_col m).
    change (m ++ "_本月")%string with (DataAnalyzer.current_col m).
    rewrite !(Hin m) by (simpl; tauto). now split. }
  assert (Hkey : forall r0 k, In k keys -> get (F r0) k = get r0 k).
  { intros r0 k Hk. rewrite Hget by (apply In_result_columns; now left).
    unfold F2. rewrite get_growth_row_other.
    - unfold F1. rewrite get_fill_row.
      replace (mem k _) with false; [reflexivity |].
      symmetry. apply mem_not_In. intros H. apply in_flat_map in H.
      destruct H as [m [Hm [<- | [<- | []]]]];
        destruct (Hfresh m Hm) as [? [? _]]; contradiction.
    - intros m Hm. destruct (Hfresh m Hm) as [_ [_ [? ?]]].
      split; intros ->; contradiction. }
  split.
  - apply union_merge_of_rows; try assumption.
    + intros m Hm. destruct (Hfresh m Hm) as [? [? _]]. now split.
    + intros r0 Hr0. split.
      * apply key_of_ext. intros k Hk. now apply Hkey.
      * intros m Hm. now apply Htotal.
  - intros r m Hr Hm. apply in_map_iff in Hr. destruct Hr as [r0 [<- Hr0]].
    destruct (Hfresh m Hm) as [Hc [Hp _]].
    destruct (joined_cells_are_numbers keys metrics _ _ _ _ r0 _ Hct Hpt Hr0 Hc)
      as [c0 Ec].
    destruct (joined_cells_are_numbers keys metrics _ _ _ _ r0 _ Hct Hpt Hr0 Hp)
      as [p0 Ep].
    destruct (fillna0_number c0) as [c Hcv]. destruct (fillna0_number p0) as [p Hpv].
    destruct (Htotal r0 m Hm) as [Tp Tc]. rewrite Ep, Hpv in Tp. rewrite Ec, Hcv in Tc.
    exists c, p. split; [exact Tc |]. split; [exact Tp |].
    rewrite !Hget by (apply In_result_columns; right; exists m; tauto).
    apply get_growth_row_new; [exact Hm | |].
    + unfold F1. rewrite get_fill_row.
      change (m ++ "_本月")%string with (DataAnalyzer.current_col m).
      rewrite (Hin m) by (simpl; tauto).
      unfold DataAnalyzer.current_col. now rewrite Ec.
    + unfold F1. rewrite get_fill_row.
      change (m ++ "_上月")%string with (DataAnalyzer.previous_col m).
      rewrite (Hin m) by (simpl; tauto).
      unfold DataAnalyzer.previous_col. now rewrite Ep.
Qed.


Lemma merged_totals_are_not_missing_witness :
  isna (get (nth 1 (rows sales_merged) []) (DataAnalyzer.current_col "sales")) = false
  /\ isna (get (nth 1 (rows sales_merged) []) (DataAnalyzer.previous_col "sales")) = false.
Proof.
  apply (proj2 (merged_totals_are_not_missing (sales_summary sales_current)
                                              (sales_summary sales_previous)
                                              ["region"] ["sales"])
               sales_merged (nth 1 (rows sales_merged) []) "sales").
  - vm_compute. reflexivity.
  - vm_compute. right. left. reflexivity.
  - now left.
Defined.


(* ================================================================== *)
(** * Further properties of the column classification *)

Lemma In_columns_of_kind kind b cols name :
  In name (columns_of_kind kind b cols)
  <-> exists d, In (name, d) cols /\ kind (name, d) = Some b.
Proof.
  unfold columns_of_kind. rewrite in_map_iff. split.
  - intros [[n d] [<- H]]. apply filter_In in H. destruct H as [Hin Hk].
    exists d. split; [exact Hin |]. cbn [fst].
    destruct (kind (n, d)) as [b' |]; [| discriminate].
    apply Bool.eqb_prop in Hk. now subst.
  - intros [d [Hin Hk]]. exists (name, d). split; [reflexivity |].
    apply filter_In. split; [exact Hin |]. rewrite Hk. apply Bool.eqb_reflx.
Qed.

Lemma one_dtype_per_name (cols : list (string * dtype)) (name : string) (d d' : dtype) :
  NoDup (map fst cols) -> In (name, d) cols -> In (name, d') cols -> d = d'.
Proof.
  induction cols as [| [n e] cols IH]; intros Hnd H1 H2; [contradiction |].
  cbn [map fst] in Hnd. inversion Hnd as [| ? ? Hnin Hnd']; subst.
  destruct H1 as [H1 | H1], H2 as [H2 | H2].
  - congruence.
  - injection H1 as -> ->. elim Hnin. exact (in_map fst _ _ H2).
  - injection H2 as -> ->. elim Hnin. exact (in_map fst _ _ H1).
  - now apply IH.
Qed.

Lemma columns_of_kind_distinct kind cols :
  NoDup (map fst cols) ->
  NoDup (columns_of_kind kind true cols ++ columns_of_kind kind false cols).
Proof.
  intros Hnd.
  assert (Hsub : forall b, NoDup (columns_of_kind kind b cols)).
  { intros b. unfold columns_of_kind. clear - Hnd.
    induction cols as [| [n e] cols IH]; [constructor |].
    cbn [map fst] in Hnd. inversion Hnd as [| ? ? Hnin Hnd']; subst.
    cbn [filter]. destruct (match kind (n, e) with Some b' => Bool.eqb b' b | None => false end).
    - cbn [map fst]. constructor; [| now apply IH].
      intros H. apply in_map_iff in H. destruct H as [[n' e'] [E H]].
      cbn in E. subst n'. apply filter_In in H. destruct H as [H _].
      apply Hnin. exact (in_map fst _ _ H).
    - now apply IH. }
  apply NoDup_app; try apply Hsub.
  intros name H1 H2. apply In_columns_of_kind in H1, H2.
  destruct H1 as [d [Hd Hk]], H2 as [d' [Hd' Hk']].
  rewrite (one_dtype_per_name cols name d d' Hnd Hd Hd') in Hk. congruence.
Qed.

Lemma analyze_columns_by_kind stf df :
  DataAnalyzer.analyze_columns stf df
  = (columns_of_kind (column_kind stf df) true (columns df),
     columns_of_kind (column_kind stf df) false (columns df)).
Proof.
  unfold DataAnalyzer.analyze_columns.
  match goal with |- fold_left ?f _ _ = _ => set (step := f) end.
  assert (Hstep : forall dims metrics col,
             step (dims, metrics) col
             = match column_kind stf df col with
               | Some true => (dims ++ [fst col], metrics)
               | Some false => (dims, metrics ++ [fst col])
               | None => (dims, metrics)
               end).
  { intros dims metrics col. unfold step, column_kind. cbv zeta.
    destruct (List.length _ =? 0)%nat; [reflexivity |].
    destruct (DataAnalyzer.is_text_dtype _); [reflexivity |].
    destruct (DataAnalyzer.is_number_dtype _); [reflexivity |].
    destruct (Pandas.to_numeric_raise _ _); reflexivity. }
  assert (H : forall cols dims metrics,
             fold_left step cols (dims, metrics)
             = (dims ++ columns_of_kind (column_kind stf df) true cols,
                metrics ++ columns_of_kind (column_kind stf df) false cols)).
  { induction cols as [| col cols IH]; intros dims metrics.
    - cbn. now rewrite !app_nil_r.
    - cbn [fold_left]. rewrite Hstep. unfold columns_of_kind. cbn [filter].
      destruct (column_kind stf df col) as [[|] |]; rewrite IH; unfold columns_of_kind;
        cbn [Bool.eqb map]; now rewrite <- ?app_assoc. }
  apply (H (columns df) [] []).
Qed.

Lemma analyze_columns_v2_same stf df :
  DataAnalyzerV2.analyze_columns stf df = DataAnalyzer.analyze_columns stf df.
Proof. reflexivity. Qed.

Lemma column_kind_has_value stf df col :
  column_kind stf df col <> None
  <-> exists c, In c (series df (fst col)) /\ isna c = false.
Proof.
  unfold column_kind. cbv zeta.
  set (l := filter (fun c => negb (isna c)) (series df (fst col))).
  assert (Hl : (exists c, In c (series df (fst col)) /\ isna c = false) <-> l <> []).
  { unfold l. split.
    - intros [c [Hin Hc]] E.
      assert (Hc' : In c (filter (fun c => negb (isna c)) (series df (fst col)))).
      { apply filter_In. split; [exact Hin | now rewrite Hc]. }
      rewrite E in Hc'. contradiction.
    - intros Hne. destruct (filter _ _) as [| c t] eqn:E; [contradiction |].
      assert (Hc : In c (filter (fun c => negb (isna c)) (series df (fst col)))).
      { rewrite E. now left. }
      apply filter_In in Hc. destruct Hc as [Hin Hc]. exists c. split; [exact Hin |].
      now apply negb_true_iff. }
  rewrite Hl. destruct l as [| c t]; cbn [List.length Nat.eqb].
  - split; intros H; now elim H.
  - split; [discriminate |]. intros _.
    destruct (DataAnalyzer.is_text_dtype _); [discriminate |].
    destruct (DataAnalyzer.is_number_dtype _); [discriminate |].
    destruct (Pandas.to_numeric_raise _ _); discriminate.
Qed.

(** X12. [analyze_columns], in both analyzers, classifies exactly the
    columns that hold a value: a name is in one of the two lists
    exactly when it is a column with a value that is not missing. When
    the column names are distinct, no name is listed twice, so no
    column is both a dimension and a metric. *)
Theorem classified_columns_are_the_columns_with_values
        (stf : string -> option fnum) (df : DataFrame) :
  NoDup (column_names df) ->
  DataAnalyzerV2.analyze_columns stf df = DataAnalyzer.analyze_columns stf df
  /\ NoDup (fst (DataAnalyzer.analyze_columns stf df)
            ++ snd (DataAnalyzer.analyze_columns stf df))
  /\ forall name,
       In name (fst (DataAnalyzer.analyze_columns stf df)
                ++ snd (DataAnalyzer.analyze_columns stf df))
       <-> In name (column_names df)
           /\ exists c, In c (series df name) /\ isna c = false.
Proof.
  intros Hnd. split; [reflexivity |]. rewrite analyze_columns_by_kind. cbn [fst snd].
  split; [now apply columns_of_kind_distinct |].
  intros name. rewrite in_app_iff, !In_columns_of_kind. split.
  - intros [[d [Hin Hk]] | [d [Hin Hk]]]; (split; [exact (in_map fst _ _ Hin) |]);
      apply (column_kind_has_value stf df (name, d)); congruence.
  - intros [Hin Hv]. unfold column_names in Hin. apply in_map_iff in Hin.
    destruct Hin as [[n d] [E Hin]]. cbn in E. subst n.
    apply (column_kind_has_value stf df (name, d)) in Hv.
    destruct (column_kind stf df (name, d)) as [[|] |] eqn:Hk.
    + left. now exists d.
    + right. now exists d.
    + now elim Hv.
Qed.

Lemma classified_columns_are_the_columns_with_values_witness :
  DataAnalyzerV2.analyze_columns no_text_number sales_previous
  = DataAnalyzer.analyze_columns no_text_number sales_previous
  /\ NoDup (fst (DataAnalyzer.analyze_columns no_text_number sales_previous)
            ++ snd (DataAnalyzer.analyze_columns no_text_number sales_previous))
  /\ forall name,
       In name (fst (DataAnalyzer.analyze_columns no_text_number sales_previous)
                ++ snd (DataAnalyzer.analyze_columns no_text_number sales_previous))
       <-> In name (column_names sales_previous)
           /\ exists c, In c (series sales_previous name) /\ isna c = false.
Proof.
  apply (classified_columns_are_the_columns_with_values no_text_number sales_previous).
  repeat constructor; cbn; intuition discriminate.
Defined.

Lemma classify_by_kind is_str is_num exclude df :
  AutoMonthly.classify is_str is_num exclude df
  = (columns_of_kind (auto_column_kind is_str is_num exclude) true (columns df),
     columns_of_kind (auto_column_kind is_str is_num exclude) false (columns df)).
Proof.
  unfold AutoMonthly.classify.
  match goal with |- fold_left ?f _ _ = _ => set (step := f) end.
  assert (Hstep : forall dims metrics col,
             step (dims, metrics) col
             = match auto_column_kind is_str is_num exclude col with
               | Some true => (dims ++ [fst col], metrics)
               | Some false => (dims, metrics ++ [fst col])
               | None => (dims, metrics)
               end).
  { intros dims metrics col. unfold step, auto_column_kind. cbv zeta.
    destruct (mem (lower (fst col)) exclude); [reflexivity |].
    destruct (_ || _); [reflexivity |].
    destruct (is_num _); reflexivity. }
  assert (H : forall cols dims metrics,
             fold_left step cols (dims, metrics)
             = (dims ++ columns_of_kind (auto_column_kind is_str is_num exclude) true cols,
                metrics
                ++ columns_of_kind (auto_column_kind is_str is_num exclude) false cols)).
  { induction cols as [| col cols IH]; intros dims metrics.
    - cbn. now rewrite !app_nil_r.
    - cbn [fold_left]. rewrite Hstep. unfold columns_of_kind. cbn [filter].
      destruct (auto_column_kind is_str is_num exclude col) as [[|] |]; rewrite IH;
        unfold columns_of_kind; cbn [Bool.eqb map]; now rewrite <- ?app_assoc. }
  apply (H (columns df) [] []).
Qed.

(** X13. The automatic script never classifies a column whose name
    matches, letter case aside, a default or a user-supplied exclusion;
    what it classifies are columns of the frame, none twice when the
    column names are distinct; and the two lists it returns are the
    ones it stores. *)
Theorem excluded_columns_are_not_classified
        (is_str is_num : dtype -> bool) (user_exclude : list string)
        (df : DataFrame) (name e : string) :
  In e (AutoMonthly.default_exclude ++ user_exclude) -> lower e = lower name ->
  NoDup (column_names df) ->
  let result :=
    AutoMonthly.identify_column_types is_str is_num (AutoMonthly.init user_exclude) df in
  ~ In name (fst (snd result) ++ snd (snd result))
  /\ NoDup (fst (snd result) ++ snd (snd result))
  /\ (forall c, In c (fst (snd result) ++ snd (snd result)) -> In c (column_names df))
  /\ AutoMonthly.dimension_columns (fst result) = fst (snd result)
  /\ AutoMonthly.metric_columns (fst result) = snd (snd result).
Proof.
  intros He Hlow Hnd result. unfold result, AutoMonthly.identify_column_types.
  rewrite classify_by_kind. cbn [fst snd AutoMonthly.dimension_columns
                                 AutoMonthly.metric_columns AutoMonthly.init
                                 AutoMonthly.exclude_set].
  split; [| split; [now apply columns_of_kind_distinct | split; [| now split]]].
  - intros H. apply in_app_iff in H.
    assert (Hex : mem (lower name) (map lower (AutoMonthly.default_exclude ++ user_exclude))
                  = true).
    { apply mem_In. rewrite <- Hlow. now apply in_map. }
    destruct H as [H | H]; apply In_columns_of_kind in H; destruct H as [d [_ Hk]];
      unfold auto_column_kind in Hk; cbn [fst] in Hk; rewrite Hex in Hk; discriminate.
  - intros c H. apply in_app_iff in H.
    destruct H as [H | H]; apply In_columns_of_kind in H; destruct H as [d [Hin _]];
      exact (in_map fst _ _ Hin).
Qed.

Lemma excluded_columns_are_not_classified_witness :
  let df := mkDataFrame [("Customer_ID", Dtype "int64"); ("region", Dtype "object");
                         ("Batch", Dtype "int64"); ("sales", Dtype "float64")] [] in
  let result :=
    AutoMonthly.identify_column_types (fun _ => false) (fun _ => true)
                                      (AutoMonthly.init ["batch"]) df in
  ~ In "Customer_ID" (fst (snd result) ++ snd (snd result))
  /\ NoDup (fst (snd result) ++ snd (snd result))
  /\ (forall c, In c (fst (snd result) ++ snd (snd result)) -> In c (column_names df))
  /\ AutoMonthly.dimension_columns (fst result) = fst (snd result)
  /\ AutoMonthly.metric_columns (fst result) = snd (snd result).
Proof.
  intros df.
  apply (excluded_columns_are_not_classified (fun _ => false) (fun _ => true) ["batch"]
           df "Customer_ID" "customer_id").
  - cbn. tauto.
  - reflexivity.
  - repeat constructor; cbn; intuition discriminate.
Defined.

(* ================================================================== *)
(** * The prompts return what was offered *)

Lemma nth_offered (l : list string) (idx : Z) :
  (1 <=? idx)%Z && (idx <=? Z.of_nat (List.length l))%Z = true ->
  In (nth (Z.to_nat (idx - 1)) l "") l.
Proof.
  intros H. apply andb_true_iff in H. destruct H as [H1 H2].
  apply Z.leb_le in H1, H2. apply nth_In. lia.
Qed.

Lemma select_indices_offered dimensions indices : forall selected,
  Prompts.select_indices dimensions indices = Some selected ->
  List.length selected = List.length indices
  /\ forall d, In d selected -> In d dimensions.
Proof.
  induction indices as [| idx rest IH]; intros selected H; cbn [Prompts.select_indices] in H.
  - injection H as <-. split; [reflexivity | contradiction].
  - destruct (_ && _) eqn:Hr; [| discriminate].
    destruct (Prompts.select_indices dimensions rest) as [t |]; [| discriminate].
    injection H as <-. destruct (IH t eq_refl) as [Hlen Hin]. split.
    + cbn. now rewrite Hlen.
    + intros d [<- | Hd]; [now apply nth_offered | now apply Hin].
Qed.

Lemma dimension_selection_offered py_int answers offered : forall selected,
  Prompts.get_user_dimension_selection py_int answers offered = Some selected ->
  (forall d, In d selected -> In d offered) /\ (selected = [] -> offered = []).
Proof.
  induction answers as [| answer rest IH]; intros selected H;
    cbn [Prompts.get_user_dimension_selection] in H; [discriminate |].
  cbv zeta in H. destruct (String.eqb _ "all").
  - injection H as <-. split; [tauto | tauto].
  - destruct (Prompts.parse_indices py_int (strip answer)) as [indices |];
      [| now apply IH].
    destruct (Prompts.select_indices offered indices) as [[| d ds] |] eqn:Hs;
      try now apply IH.
    injection H as <-. split; [| discriminate].
    now apply (select_indices_offered offered indices).
Qed.

(** X14. Whatever is typed, the prompts return only what was offered:
    the selected dimensions are among the listed ones, in any number
    and order, and at least one unless the answer was [all] on an empty
    list; that answer, in any letter case and with spaces around it,
    returns the whole list; the selected metric is one of the listed
    metrics; and the analysis mode is 1 or 2. *)
Theorem prompts_return_what_was_offered
        (py_int : string -> option Z) (answers offered : list string) :
  (forall selected,
      Prompts.get_user_dimension_selection py_int answers offered = Some selected ->
      (forall d, In d selected -> In d offered)
      /\ (selected = [] -> offered = []))
  /\ (forall answer, lower (strip answer) = "all" ->
                     Prompts.get_user_dimension_selection py_int (answer :: answers)
                                                          offered
                     = Some offered)
  /\ (forall metric, Prompts.get_user_metric_selection py_int answers offered
                     = Some metric -> In metric offered)
  /\ (forall mode, Prompts.get_analysis_mode_choice answers = Some mode ->
                   mode = 1%Z \/ mode = 2%Z).
Proof.
  split; [| split; [| split]].
  - apply dimension_selection_offered.
  - intros answer Hall. cbn [Prompts.get_user_dimension_selection]. cbv zeta.
    now rewrite Hall.
  - induction answers as [| answer rest IH]; intros metric H;
      cbn [Prompts.get_user_metric_selection] in H; [discriminate |].
    cbv zeta in H. destruct (py_int (strip answer)) as [idx |]; [| now apply IH].
    destruct (_ && _) eqn:Hr; [| now apply IH].
    injection H as <-. now apply nth_offered.
  - induction answers as [| answer rest IH]; intros mode H;
      cbn [Prompts.get_analysis_mode_choice] in H; [discriminate |].
    cbv zeta in H. destruct (String.eqb _ "1"); [injection H as <-; now left |].
    destruct (String.eqb _ "2"); [injection H as <-; now right |]. now apply IH.
Qed.



Lemma prompts_return_what_was_offered_witness :
  (forall d, In d ["product"; "region"] -> In d ["region"; "product"])
  /\ (["product"; "region"] = [] -> ["region"; "product"] = []).
Proof.
  apply (proj1 (prompts_return_what_was_offered int_literal ["9"; "x"; " 2, 1 "]
                                                ["region"; "product"])
               ["product"; "region"]).
  vm_compute. reflexivity.
Defined.

(* ================================================================== *)
(** * The automatic script on two aggregates *)

Lemma get_derive_row_other name value metrics k : forall r,
  (forall m, In m metrics -> k <> name m) ->
  get (derive_row name value metrics r) k = get r k.
Proof.
  unfold derive_row. induction metrics as [| a metrics IH]; intros r H; [reflexivity |].
  cbn [fold_left]. rewrite IH by (intros; apply H; now right).
  rewrite get_set_cell. destruct (String.eqb_spec (name a) k) as [E | _]; [| reflexivity].
  symmetry in E. now elim (H a (or_introl eq_refl)).
Qed.

(** When the derived names are distinct and no value depends on a
    derived column, each derived column holds its value on the row the
    loop started from. *)
Lemma get_derive_row_new name value metrics m : forall r,
  (forall a b, name a = name b -> a = b) ->
  (forall a b r v, value a (set_cell r (name b) v) = value a r) ->
  In m metrics ->
  get (derive_row name value metrics r) (name m) = value m r.
Proof.
  induction metrics as [| a metrics IH]; intros r Hinj Hstable Hin; [contradiction |].
  change (derive_row name value (a :: metrics) r)
    with (derive_row name value metrics (set_cell r (name a) (value a r))).
  destruct (in_dec string_dec m metrics) as [Hlater | Hlast].
  - rewrite IH by assumption. apply Hstable.
  - destruct Hin as [-> | Hin]; [| contradiction].
    rewrite get_derive_row_other.
    + rewrite get_set_cell. now rewrite String.eqb_refl.
    + intros m' Hm' E. apply Hinj in E. subst m'. contradiction.
Qed.

Lemma auto_names_differ (a b : string) :
  AutoMonthly.growth_col a <> AutoMonthly.current_col b
  /\ AutoMonthly.growth_col a <> AutoMonthly.previous_col b
  /\ AutoMonthly.formatted_col a <> AutoMonthly.current_col b
  /\ AutoMonthly.formatted_col a <> AutoMonthly.previous_col b
  /\ AutoMonthly.formatted_col a <> AutoMonthly.growth_col b.
Proof.
  unfold AutoMonthly.growth_col, AutoMonthly.current_col, AutoMonthly.previous_col,
    AutoMonthly.formatted_col.
  repeat split; apply append_last_neq; try discriminate; vm_compute; discriminate.
Qed.

Lemma auto_growth_value_stable a b r v :
  auto_growth_value a (set_cell r (AutoMonthly.growth_col b) v) = auto_growth_value a r.
Proof.
  unfold auto_growth_value. rewrite !get_set_cell.
  destruct (auto_names_differ b a) as [H1 [H2 _]].
  destruct (String.eqb_spec (AutoMonthly.growth_col b) (AutoMonthly.current_col a));
    [contradiction |].
  destruct (String.eqb_spec (AutoMonthly.growth_col b) (AutoMonthly.previous_col a));
    [contradiction |].
  reflexivity.
Qed.

Lemma auto_format_value_stable fp a b r v :
  auto_format_value fp a (set_cell r (AutoMonthly.formatted_col b) v)
  = auto_format_value fp a r.
Proof.
  unfold auto_format_value. rewrite get_set_cell.
  destruct (auto_names_differ b a) as [_ [_ [_ [_ H]]]].
  destruct (String.eqb_spec (AutoMonthly.formatted_col b) (AutoMonthly.growth_col a));
    [contradiction | reflexivity].
Qed.

(** The growth column, computed on whole columns, is the growth of
    each row's two totals. *)
Lemma growth_values_by_row (rows : list row) (cur prev gc : string) :
  (forall r, In r rows -> exists c p, get r cur = Num c /\ get r prev = Num p) ->
  exists cs ps,
    mapM num_of_cell (map (fun r => get r cur) rows) = Some cs
    /\ mapM num_of_cell (map (fun r => get r prev) rows) = Some ps
    /\ AutoMonthly.set_values rows gc (map Num (AutoMonthlyRate.growth_column cs ps))
       = map (fun r => set_cell r gc
                                (match num_of_cell (get r cur),
                                       num_of_cell (get r prev) with
                                 | Some c, Some p => Num (AutoMonthlyRate.growth_rate c p)
                                 | _, _ => NA
                                 end)) rows.
Proof.
  induction rows as [| r rows IH]; intros H.
  - exists [], []. repeat split; reflexivity.
  - destruct (H r (or_introl eq_refl)) as [c [p [Hc Hp]]].
    destruct IH as [cs [ps [Hcs [Hps Hset]]]]; [intros; apply H; now right |].
    exists (c :: cs), (p :: ps). cbn [map mapM]. rewrite Hc, Hp, Hcs, Hps.
    cbn [num_of_cell]. repeat split.
    rewrite growth_column_pointwise in *. cbn [AutoMonthlyRate.zip_with map].
    cbn [AutoMonthly.set_values]. now rewrite Hset.
Qed.

Lemma calculate_growth_rate_rows metrics : forall merged,
  (forall m, In m metrics ->
             has_column merged (AutoMonthly.current_col m) = true
             /\ has_column merged (AutoMonthly.previous_col m) = true) ->
  (forall r, In r (rows merged) -> numeric_totals metrics r) ->
  exists cols,
    AutoMonthly.calculate_growth_rate merged metrics
    = Some (mkDataFrame cols
                        (map (derive_row AutoMonthly.growth_col auto_growth_value metrics)
                             (rows merged)))
    /\ forall k, mem k (map fst cols)
                 = mem k (column_names merged)
                   || mem k (map AutoMonthly.growth_col metrics).
Proof.
  unfold AutoMonthly.calculate_growth_rate, derive_row.
  induction metrics as [| a metrics IH]; intros merged Hcols Hnum.
  - exists (columns merged). cbn [foldM fold_left map]. split.
    + rewrite map_id. now destruct merged.
    + intros k. unfold column_names, mem at 3. cbn. now rewrite orb_false_r.
  - cbn [foldM].
    destruct (Hcols a (or_introl eq_refl)) as [Hc Hp]. rewrite Hc, Hp. cbn [andb].
    destruct (growth_values_by_row (rows merged) (AutoMonthly.current_col a)
                                   (AutoMonthly.previous_col a) (AutoMonthly.growth_col a))
      as [cs [ps [Hcs [Hps Hset]]]].
    { intros r Hr. destruct (Hnum r Hr a (or_introl eq_refl)) as [[c Ec] [p Ep]].
      exists c, p. now split. }
    unfold series. rewrite Hcs, Hps, Hset.
    match goal with |- context [foldM ?f metrics ?fr] => destruct (IH fr) as [cols [E Hmem]] end.
    + intros m Hm. destruct (Hcols m (or_intror Hm)) as [H1 H2].
      unfold has_column, column_names in *. cbn [columns].
      rewrite !mem_after_set_dtype, H1, H2. now split.
    + cbn [rows]. intros r Hr. apply in_map_iff in Hr. destruct Hr as [r0 [<- Hr0]].
      intros m Hm. rewrite !get_set_cell.
      destruct (auto_names_differ a m) as [N1 [N2 _]].
      unfold AutoMonthly.growth_col, AutoMonthly.current_col,
        AutoMonthly.previous_col in N1, N2.
      unfold AutoMonthly.growth_col.
      destruct (String.eqb_spec (a ++ "_环比增幅") (m ++ "_本月")); [contradiction |].
      destruct (String.eqb_spec (a ++ "_环比增幅") (m ++ "_上月")); [contradiction |].
      apply (Hnum r0 Hr0). now right.
    + exists cols. split.
      * refine (eq_trans E _). cbn [rows fold_left]. rewrite map_map. reflexivity.
      * intros k. rewrite Hmem. unfold column_names. cbn [columns map].
        rewrite mem_after_set_dtype. unfold mem at 4. cbn [existsb]. fold (mem k).
        now rewrite <- orb_assoc.
Qed.

Lemma format_results_rows fp metrics : forall result,
  (forall m, In m metrics -> has_column result (AutoMonthly.growth_col m) = true) ->
  (forall r m, In r (rows result) -> In m metrics ->
               exists x, get r (AutoMonthly.growth_col m) = Num x) ->
  exists cols,
    AutoMonthly.format_results fp result metrics
    = Some (mkDataFrame cols
                        (map (derive_row AutoMonthly.formatted_col (auto_format_value fp)
                                         metrics)
                             (rows result))).
Proof.
  unfold AutoMonthly.format_results, derive_row.
  induction metrics as [| a metrics IH]; intros result Hcols Hnum.
  - exists (columns result). cbn [foldM fold_left]. rewrite map_id. now destruct result.
  - cbn [foldM]. rewrite (Hcols a (or_introl eq_refl)).
    rewrite (assign_opt_all result _ _ _ (auto_format_value fp a)).
    2:{ intros r Hr. destruct (Hnum r a Hr (or_introl eq_refl)) as [x Hx].
        unfold auto_format_value. rewrite Hx. now destruct x. }
    match goal with |- context [foldM ?f metrics ?fr] => destruct (IH fr) as [cols E] end.
    + intros m Hm. unfold has_column, column_names, assign. cbn [columns].
      rewrite mem_after_set_dtype.
      pose proof (Hcols m (or_intror Hm)) as H. unfold has_column, column_names in H.
      now rewrite H.
    + cbn [assign rows]. intros r m Hr Hm. apply in_map_iff in Hr.
      destruct Hr as [r0 [<- Hr0]]. rewrite get_set_cell.
      destruct (auto_names_differ a m) as [_ [_ [_ [_ N]]]].
      destruct (String.eqb_spec (AutoMonthly.formatted_col a) (AutoMonthly.growth_col m));
        [contradiction |].
      apply Hnum; [exact Hr0 | now right].
    + exists cols. rewrite E. cbn [assign rows fold_left]. rewrite map_map. reflexivity.
Qed.

Lemma auto_growth_value_number m r c p :
  get r (AutoMonthly.current_col m) = Num c -> get r (AutoMonthly.previous_col m) = Num p ->
  auto_growth_value m r = Num (AutoMonthlyRate.growth_rate c p).
Proof.
  intros Hc Hp. unfold auto_growth_value. now rewrite Hc, Hp.
Qed.

Lemma format_percentage_of_number fp (x : fnum) :
  exists text, AutoMonthly.format_percentage fp (Num x) = Some (Str text).
Proof.
  destruct x; eexists; reflexivity.
Qed.

(** The three steps of the automatic script after the aggregation, on
    two aggregates: the rows of the report are the joined rows after
    the zero fill, the growth loop and the formatting loop. *)
Lemma automatic_report_rows fp current previous keys metrics :
  keys <> [] ->
  (forall k, In k keys -> ~ In k metrics) ->
  auto_names_fresh keys metrics ->
  is_aggregate current keys metrics -> is_aggregate previous keys metrics ->
  exists c1 c2 c3,
    let filled :=
      map (map (fun c : string * cell => (fst c, fillna0 (snd c))))
          (joined_rows keys metrics "_本月" "_上月" (rows current) (rows previous)) in
    let grown :=
      map (derive_row AutoMonthly.growth_col auto_growth_value metrics) filled in
    AutoMonthly.merge_monthly_data current previous keys = Some (mkDataFrame c1 filled)
    /\ AutoMonthly.calculate_growth_rate (mkDataFrame c1 filled) metrics
       = Some (mkDataFrame c2 grown)
    /\ AutoMonthly.format_results fp (mkDataFrame c2 grown) metrics
       = Some (mkDataFrame c3
                 (map (derive_row AutoMonthly.formatted_col (auto_format_value fp) metrics)
                      grown))
    /\ forall r, In r filled -> numeric_totals metrics r.
Proof.
  intros Hne Hdisj Hfresh [Hcn Hcu Hcp Hct] [Hpn Hpu Hpp Hpt].
  destruct (merge_outer_aggregates current previous keys metrics "_本月" "_上月"
                                   Hne Hcn Hpn Hdisj) as [cols [Hmerge Hnames]].
  set (J := joined_rows keys metrics "_本月" "_上月" (rows current) (rows previous)) in *.
  set (filled := map (map (fun c : string * cell => (fst c, fillna0 (snd c)))) J).
  assert (Hnum : forall r, In r filled -> numeric_totals metrics r).
  { intros r Hr. unfold filled in Hr. apply in_map_iff in Hr.
    destruct Hr as [r0 [<- Hr0]]. intros m Hm. rewrite !get_fillna_row.
    assert (Hcell : forall k, ~ In k keys ->
                              exists v, (if mem k (map fst r0) then fillna0 (get r0 k)
                                         else NA) = Num v).
    { intros k Hk. destruct (mem k (map fst r0)); [| now exists NaN].
      destruct (joined_cells_are_numbers keys metrics _ _ _ _ r0 k Hct Hpt Hr0 Hk)
        as [v ->]. apply fillna0_number. }
    destruct (Hfresh m Hm) as [H1 [H2 _]]. split; now apply Hcell. }
  assert (Htot : forall m, In m metrics ->
                           In (AutoMonthly.current_col m) (map fst cols)
                           /\ In (AutoMonthly.previous_col m) (map fst cols)).
  { intros m Hm. rewrite Hnames. split; apply in_or_app; right; apply in_or_app.
    - left. exact (in_map (fun m => (m ++ "_本月")%string) metrics m Hm).
    - right. exact (in_map (fun m => (m ++ "_上月")%string) metrics m Hm). }
  destruct (calculate_growth_rate_rows metrics (mkDataFrame cols filled))
    as [c2 [Hgrow Hmem]].
  { intros m Hm. destruct (Htot m Hm). unfold has_column, column_names. cbn [columns].
    split; now apply mem_In. }
  { exact Hnum. }
  cbn [rows] in Hgrow.
  destruct (format_results_rows fp metrics
              (mkDataFrame c2 (map (derive_row AutoMonthly.growth_col auto_growth_value
                                               metrics) filled))) as [c3 Hfmt].
  { intros m Hm. unfold has_column, column_names. cbn [columns]. rewrite Hmem.
    apply orb_true_iff. right. apply mem_In. now apply in_map. }
  { cbn [rows]. intros r m Hr Hm. apply in_map_iff in Hr. destruct Hr as [r1 [<- Hr1]].
    rewrite get_derive_row_new.
    - destruct (Hnum r1 Hr1 m Hm) as [[c Hc] [p Hp]].
      rewrite (auto_growth_value_number m r1 c p Hc Hp). eexists. reflexivity.
    - intros a b E. now apply append_same_suffix in E.
    - intros a b r v. apply auto_growth_value_stable.
    - exact Hm. }
  cbn [rows] in Hfmt.
  exists cols, c2, c3. cbv zeta. fold J. fold filled.
  split; [| split; [exact Hgrow | split; [exact Hfmt | exact Hnum]]].
  unfold AutoMonthly.merge_monthly_data. destruct keys as [| k0 ks]; [contradiction |].
  now rewrite Hmerge.
Qed.

(** What holds of the rows of the automatic script's report on two
    aggregates. *)
Lemma automatic_rows_spec
      (fp : Qc -> string) (current previous : DataFrame)
      (keys metrics : list string) (cols : list (string * dtype)) :
  auto_names_fresh keys metrics ->
  is_aggregate current keys metrics -> is_aggregate previous keys metrics ->
  (forall r,
      In r (map (map (fun c : string * cell => (fst c, fillna0 (snd c))))
                (joined_rows keys metrics "_本月" "_上月" (rows current) (rows previous))) ->
      numeric_totals metrics r) ->
  union_merge
    current previous
    (mkDataFrame
       cols
       (map (derive_row AutoMonthly.formatted_col (auto_format_value fp) metrics)
            (map (derive_row AutoMonthly.growth_col auto_growth_value metrics)
                 (map (map (fun c : string * cell => (fst c, fillna0 (snd c))))
                      (joined_rows keys metrics "_本月" "_上月"
                                   (rows current) (rows previous))))))
    keys metrics
  /\ forall r m,
       In r (map (derive_row AutoMonthly.formatted_col (auto_format_value fp) metrics)
                 (map (derive_row AutoMonthly.growth_col auto_growth_value metrics)
                      (map (map (fun c : string * cell => (fst c, fillna0 (snd c))))
                           (joined_rows keys metrics "_本月" "_上月"
                                        (rows current) (rows previous))))) ->
       In m metrics ->
       exists c p,
         get r (AutoMonthly.current_col m) = Num c
         /\ get r (AutoMonthly.previous_col m) = Num p
         /\ get r (AutoMonthly.growth_col m) = Num (AutoMonthlyRate.growth_rate c p)
         /\ AutoMonthly.format_percentage fp (Num (AutoMonthlyRate.growth_rate c p))
            = Some (get r (AutoMonthly.formatted_col m)).
Proof.
  intros Hfresh Hcur Hprev Hnum.
  destruct Hcur as [Hcn Hcu Hcp Hct]. destruct Hprev as [Hpn Hpu Hpp Hpt].
  set (J := joined_rows keys metrics "_本月" "_上月" (rows current) (rows previous)) in *.
  set (F0 := map (fun c : string * cell => (fst c, fillna0 (snd c)))) in *.
  set (G := derive_row AutoMonthly.growth_col auto_growth_value metrics) in *.
  set (H := derive_row AutoMonthly.formatted_col (auto_format_value fp) metrics) in *.
  assert (Hkeep : forall r k,
             (forall m, In m metrics ->
                        k <> AutoMonthly.growth_col m /\ k <> AutoMonthly.formatted_col m) ->
             get (H (G r)) k = get r k).
  { intros r k Hk. unfold H, G. rewrite !get_derive_row_other; [reflexivity | |];
      intros m Hm; now destruct (Hk m Hm). }
  assert (Htotal_names : forall m m',
             (AutoMonthly.current_col m <> AutoMonthly.growth_col m'
              /\ AutoMonthly.current_col m <> AutoMonthly.formatted_col m')
             /\ (AutoMonthly.previous_col m <> AutoMonthly.growth_col m'
                 /\ AutoMonthly.previous_col m <> AutoMonthly.formatted_col m')).
  { intros m m'. destruct (auto_names_differ m' m) as [N1 [N2 [N3 [N4 _]]]].
    repeat split; congruence. }
  assert (Hgrowth : forall r m c p,
             In m metrics ->
             get r (AutoMonthly.current_col m) = Num c ->
             get r (AutoMonthly.previous_col m) = Num p ->
             get (H (G r)) (AutoMonthly.growth_col m)
             = Num (AutoMonthlyRate.growth_rate c p)).
  { intros r m c p Hm Hc Hp. unfold H. rewrite get_derive_row_other.
    - unfold G. rewrite get_derive_row_new.
      + now apply auto_growth_value_number.
      + intros a b E. now apply append_same_suffix in E.
      + intros a b r' v. apply auto_growth_value_stable.
      + exact Hm.
    - intros m' _ E. destruct (auto_names_differ m' m) as [_ [_ [_ [_ N]]]].
      now apply N. }
  assert (Hfilled : forall r0, In r0 J ->
             forall k, In k (map fst r0) -> get (F0 r0) k = fillna0 (get r0 k)).
  { intros r0 Hr0 k Hk. unfold F0. rewrite get_fillna_row.
    now replace (mem k (map fst r0)) with true by (symmetry; now apply mem_In). }
  split.
  - rewrite !map_map. apply union_merge_of_rows; try assumption.
    + intros m Hm. destruct (Hfresh m Hm) as [? [? _]]. now split.
    + intros r0 Hr0.
      destruct (joined_rows_keys_present _ _ _ _ _ _ r0 Hcp Hpp Hr0) as [Hna Hrn].
      split.
      * apply key_of_ext. intros k Hk. rewrite Hkeep.
        -- rewrite Hfilled by (try assumption; rewrite Hrn; apply in_or_app; now left).
           apply fillna0_present. now apply (proj1 (has_na_key_false keys r0) Hna).
        -- intros m Hm. destruct (Hfresh m Hm) as [_ [_ [? ?]]].
           split; intros ->; contradiction.
      * intros m Hm. destruct (Htotal_names m m) as [_ _].
        split.
        -- change (m ++ "_上月")%string with (AutoMonthly.previous_col m).
           rewrite Hkeep by (intros m' _; apply (Htotal_names m m')).
           apply Hfilled; [exact Hr0 |]. rewrite Hrn. apply in_or_app. right.
           apply in_or_app. right.
           exact (in_map (fun m => (m ++ "_上月")%string) metrics m Hm).
        -- change (m ++ "_本月")%string with (AutoMonthly.current_col m).
           rewrite Hkeep by (intros m' _; apply (Htotal_names m m')).
           apply Hfilled; [exact Hr0 |]. rewrite Hrn. apply in_or_app. right.
           apply in_or_app. left.
           exact (in_map (fun m => (m ++ "_本月")%string) metrics m Hm).
  - intros r m Hr Hm. rewrite !map_map in Hr. apply in_map_iff in Hr.
    destruct Hr as [r0 [<- Hr0]].
    destruct (Hnum (F0 r0) (in_map F0 J r0 Hr0) m Hm) as [[c Hc] [p Hp]].
    exists c, p.
    assert (Hg := Hgrowth (F0 r0) m c p Hm Hc Hp).
    split; [| split; [| split; [exact Hg |]]].
    + rewrite Hkeep by (intros m' _; apply (Htotal_names m m')). exact Hc.
    + rewrite Hkeep by (intros m' _; apply (Htotal_names m m')). exact Hp.
    + unfold H at 1. rewrite get_derive_row_new.
      * unfold auto_format_value.
        assert (Hg' : get (G (F0 r0)) (AutoMonthly.growth_col m)
                      = Num (AutoMonthlyRate.growth_rate c p)).
        { unfold G. rewrite get_derive_row_new.
          - now apply auto_growth_value_number.
          - intros a b E. now apply append_same_suffix in E.
          - intros a b r' v. apply auto_growth_value_stable.
          - exact Hm. }
        rewrite Hg'.
        destruct (format_percentage_of_number fp (AutoMonthlyRate.growth_rate c p))
          as [text ->]. reflexivity.
      * intros a b E. now apply append_same_suffix in E.
      * intros a b r' v. apply auto_format_value_stable.
      * exact Hm.
Qed.



(* ================================================================== *)
(** * The comparison in the second analyzer *)

Lemma add_growth_rows_v2 metrics : forall merged,
  (forall r, In r (rows merged) -> numeric_totals metrics r) ->
  DataAnalyzerV2.add_growth merged metrics
  = Some (mkDataFrame (growth_columns metrics (columns merged))
                      (map (growth_row DataAnalyzerV2Rate.change
                                       DataAnalyzerV2Rate.growth_rate metrics)
                           (rows merged))).
Proof.
  unfold DataAnalyzerV2.add_growth, growth_columns, growth_row.
  induction metrics as [| a metrics IH]; intros merged H.
  - cbn. rewrite map_id. now destruct merged.
  - cbn [foldM fold_left].
    rewrite (assign_opt_all merged _ _ _
               (fun r => match num_of_cell (get r (DataAnalyzerV2.current_col a)),
                               num_of_cell (get r (DataAnalyzerV2.previous_col a)) with
                         | Some c, Some p => Num (DataAnalyzerV2Rate.change c p)
                         | _, _ => NA
                         end)).
    2:{ intros r Hr. destruct (H r Hr a (or_introl eq_refl)) as [[c Hc] [p Hp]].
        unfold DataAnalyzerV2.current_col, DataAnalyzerV2.previous_col.
        now rewrite Hc, Hp. }
    rewrite (assign_opt_all _ _ _ _
               (fun r => match num_of_cell (get r (DataAnalyzerV2.current_col a)),
                               num_of_cell (get r (DataAnalyzerV2.previous_col a)) with
                         | Some c, Some p => Num (DataAnalyzerV2Rate.growth_rate c p)
                         | _, _ => NA
                         end)).
    2:{ intros r Hr. cbn [assign rows] in Hr. apply in_map_iff in Hr.
        destruct Hr as [r0 [<- Hr0]].
        destruct (H r0 Hr0 a (or_introl eq_refl)) as [[c Hc] [p Hp]].
        destruct (change_not_total a a) as [C1 C2].
        unfold DataAnalyzerV2.current_col, DataAnalyzerV2.previous_col,
          DataAnalyzerV2.change_col.
        rewrite !get_set_cell.
        destruct (String.eqb_spec (a ++ "_变化") (a ++ "_本月")) as [E | _];
          [now elim C1 |].
        destruct (String.eqb_spec (a ++ "_变化") (a ++ "_上月")) as [E | _];
          [now elim C2 |].
        now rewrite Hc, Hp. }
    rewrite IH.
    + cbn [assign columns rows]. rewrite !map_map. reflexivity.
    + intros r Hr. cbn [assign rows] in Hr. rewrite map_map in Hr.
      apply in_map_iff in Hr. destruct Hr as [r0 [<- Hr0]].
      apply (numeric_totals_step DataAnalyzerV2Rate.change DataAnalyzerV2Rate.growth_rate
               metrics r0 a).
      intros m Hm. apply (H r0 Hr0). now right.
Qed.

(** The same for the second analyzer, whose comparison keeps the
    metrics found on both sides: all of them here. *)
Lemma comparison_body_v2_of_aggregates current previous keys metrics :
  keys <> [] ->
  (forall k, In k keys -> ~ In k metrics) ->
  derived_names_fresh keys metrics ->
  is_aggregate current keys metrics -> is_aggregate previous keys metrics ->
  exists cols,
    DataAnalyzerV2.comparison_body current previous keys metrics
    = Some (mkDataFrame
              cols
              (map (fun r =>
                      map (fun c =>
                             (c, get (growth_row DataAnalyzerV2Rate.change
                                                 DataAnalyzerV2Rate.growth_rate metrics
                                                 (fill_row DataAnalyzer.current_col
                                                           DataAnalyzer.previous_col
                                                           metrics r)) c))
                          (DataAnalyzer.result_columns keys metrics))
                   (joined_rows keys metrics "_本月" "_上月"
                                (rows current) (rows previous))))
    /\ map fst cols = DataAnalyzer.result_columns keys metrics.
Proof.
  intros Hne Hdisj Hfresh [Hcn Hcu Hcp Hct] [Hpn Hpu Hpp Hpt].
  destruct (merge_outer_aggregates current previous keys metrics "_本月" "_上月"
                                   Hne Hcn Hpn Hdisj) as [cols [Hmerge Hnames]].
  unfold DataAnalyzerV2.comparison_body. rewrite Hmerge. cbv zeta.
  assert (Htot : forall m, In m metrics ->
                           In (m ++ "_本月")%string (map fst cols)
                           /\ In (m ++ "_上月")%string (map fst cols)).
  { intros m Hm. rewrite Hnames. split; apply in_or_app; right; apply in_or_app.
    - left. exact (in_map (fun m => (m ++ "_本月")%string) metrics m Hm).
    - right. exact (in_map (fun m => (m ++ "_上月")%string) metrics m Hm). }
  assert (Hboth : forall m, In m metrics ->
                            has_column (mkDataFrame
                                          cols
                                          (joined_rows keys metrics "_本月" "_上月"
                                                       (rows current) (rows previous)))
                                       (DataAnalyzer.current_col m) = true
                            /\ has_column (mkDataFrame
                                             cols
                                             (joined_rows keys metrics "_本月" "_上月"
                                                          (rows current) (rows previous)))
                                          (DataAnalyzer.previous_col m) = true).
  { intros m Hm. unfold has_column, column_names. cbn [columns].
    destruct (Htot m Hm). split; now apply mem_In. }
  rewrite (filter_all _ metrics).
  2:{ intros m Hm. destruct (Hboth m Hm) as [H1 H2].
      change (DataAnalyzerV2.current_col m) with (DataAnalyzer.current_col m).
      change (DataAnalyzerV2.previous_col m) with (DataAnalyzer.previous_col m).
      now rewrite H1, H2. }
  change (DataAnalyzerV2.fill_metrics ?a ?b) with (DataAnalyzer.fill_metrics a b).
  rewrite fill_metrics_spec by exact Hboth.
  rewrite add_growth_rows_v2.
  2:{ cbn [rows]. intros r Hr. apply in_map_iff in Hr. destruct Hr as [r0 [<- Hr0]].
      intros m Hm.
      assert (Hin : forall c, In c [DataAnalyzer.current_col m;
                                    DataAnalyzer.previous_col m] ->
                              mem c (flat_map (fun m => [DataAnalyzer.current_col m;
                                                         DataAnalyzer.previous_col m])
                                              metrics) = true).
      { intros c Hc. apply mem_In. apply in_flat_map. now exists m. }
      change (m ++ "_上月")%string with (DataAnalyzer.previous_col m).
      change (m ++ "_本月")%string with (DataAnalyzer.current_col m).
      rewrite !get_fill_row, !Hin by (simpl; tauto).
      destruct (Hfresh m Hm) as [Hc [Hp _]].
      destruct (joined_cells_are_numbers keys metrics _ _ _ _ r0 _ Hct Hpt Hr0 Hc)
        as [c Ec].
      destruct (joined_cells_are_numbers keys metrics _ _ _ _ r0 _ Hct Hpt Hr0 Hp)
        as [p Ep].
      unfold DataAnalyzer.current_col, DataAnalyzer.previous_col. rewrite Ec, Ep.
      split; apply fillna0_number. }
  unfold select. cbn [columns rows].
  assert (Hall : forallb (has_column
                            (mkDataFrame
                               (growth_columns metrics cols)
                               (map (growth_row DataAnalyzerV2Rate.change
                                                DataAnalyzerV2Rate.growth_rate metrics)
                                    (map (fill_row DataAnalyzer.current_col
                                                   DataAnalyzer.previous_col metrics)
                                         (joined_rows keys metrics "_本月" "_上月"
                                                      (rows current) (rows previous))))))
                         (DataAnalyzer.result_columns keys metrics) = true).
  { apply forallb_forall. intros k Hk. unfold has_column, column_names. cbn [columns].
    rewrite mem_growth_columns. apply orb_true_iff.
    apply In_result_columns in Hk. destruct Hk as [Hk | [m [Hm Hk]]].
    - left. apply mem_In. rewrite Hnames. apply in_or_app. now left.
    - destruct (Htot m Hm) as [H1 H2].
      destruct Hk as [-> | [-> | Hk]]; [left; now apply mem_In | left; now apply mem_In |].
      right. apply mem_In. apply in_flat_map. exists m. split; [exact Hm |].
      destruct Hk as [-> | ->]; cbn; tauto. }
  change (keys ++ flat_map (fun col => [DataAnalyzerV2.previous_col col;
                                        DataAnalyzerV2.current_col col;
                                        DataAnalyzerV2.change_col col;
                                        DataAnalyzerV2.growth_col col]) metrics)
    with (DataAnalyzer.result_columns keys metrics).
  rewrite (filter_all _ (DataAnalyzer.result_columns keys metrics))
    by (now apply forallb_forall).
  rewrite Hall. eexists. split.
  - rewrite !map_map. reflexivity.
  - now rewrite (map_fst_tabulate (fun c : string => c)), map_id.
Qed.



(* ================================================================== *)
(** * The interactive sessions end to end *)

Lemma NoDup_app_disjoint (l l' : list string) (x : string) :
  NoDup (l ++ l') -> In x l -> ~ In x l'.
Proof.
  induction l as [| a l IH]; intros Hnd Hin; [contradiction |].
  cbn [app] in Hnd. inversion Hnd as [| ? ? Hnin Hnd']; subst.
  destruct Hin as [-> | Hin].
  - intros H. apply Hnin. apply in_or_app. now right.
  - now apply IH.
Qed.

Lemma classified_are_columns stf df name :
  In name (fst (DataAnalyzer.analyze_columns stf df)
           ++ snd (DataAnalyzer.analyze_columns stf df)) ->
  In name (column_names df).
Proof.
  rewrite analyze_columns_by_kind. cbn [fst snd]. rewrite in_app_iff, !In_columns_of_kind.
  intros [[d [Hin _]] | [d [Hin _]]]; exact (in_map fst _ _ Hin).
Qed.

Lemma classified_are_distinct stf df :
  NoDup (column_names df) ->
  NoDup (fst (DataAnalyzer.analyze_columns stf df)
         ++ snd (DataAnalyzer.analyze_columns stf df)).
Proof.
  intros H. rewrite analyze_columns_by_kind. now apply columns_of_kind_distinct.
Qed.

Lemma is_empty_empty_frame : is_empty empty_frame = true.
Proof. reflexivity. Qed.

(** What the sessions need of the selected dimensions and the metrics
    to compare the two summaries. *)
Lemma session_side_conditions stf (current : DataFrame) (selected : list string) :
  NoDup (column_names current) -> no_derived_column_names current ->
  (forall d, In d selected -> In d (fst (DataAnalyzer.analyze_columns stf current))) ->
  (forall k, In k selected -> ~ In k (snd (DataAnalyzer.analyze_columns stf current)))
  /\ derived_names_fresh selected (snd (DataAnalyzer.analyze_columns stf current)).
Proof.
  intros Hnd Hfresh Hsel. split.
  - intros k Hk. apply (NoDup_app_disjoint _ _ k (classified_are_distinct stf current Hnd)).
    now apply Hsel.
  - intros m Hm.
    assert (Hmc : In m (column_names current)).
    { apply (classified_are_columns stf). apply in_or_app. now right. }
    destruct (Hfresh m Hmc) as [H1 [H2 [H3 H4]]].
    assert (Hsub : forall c, ~ In c (column_names current) -> ~ In c selected).
    { intros c Hc Hin. apply Hc. apply (classified_are_columns stf).
      apply in_or_app. left. now apply Hsel. }
    repeat split; now apply Hsub.
Qed.

Lemma categorical_key_distinct (df : DataFrame) (keys : list string) :
  distinct_categories df -> forall cats, categorical_key df keys cats -> NoDup cats.
Proof.
  intros H cats [k [_ Hd]]. exact (H k cats Hd).
Qed.

Lemma plain_columns_distinct_categories (df : DataFrame) :
  (forall c cats, In c (columns df) -> snd c <> Categorical cats) ->
  distinct_categories df.
Proof.
  intros H k cats Hd. exfalso. destruct df as [cols rs]. cbn [columns] in *.
  induction cols as [| [n d] cols IH]; [discriminate |].
  cbn [column_dtype] in Hd. destruct (String.eqb n k).
  - injection Hd as ->. now apply (H (n, Categorical cats) cats (or_introl eq_refl)).
  - apply IH; [| exact Hd]. intros c cats' Hc. apply H. now right.
Qed.



(** X18. [run_dimension_summary] of the second analyzer, after [run]
    loaded both files and classified the columns of the current one:
    whatever is typed at the dimension prompt, a result other than the
    empty frame is the comparison over dimensions that were offered,
    with the columns and the row-wise change and growth of the second
    analyzer. The prior file is taken to have every metric column; the
    column names of the current file are distinct and none is named
    like a derived column. *)
Theorem dimension_summary_is_the_comparison
        (stf : string -> option fnum) (py_int : string -> option Z) (observed : bool)
        (self : DataAnalyzerV2.ExcelDataAnalyzer) (current previous : DataFrame)
        (answers : list string) (result : DataFrame) :
  DataAnalyzerV2.current_month_data self = Some current ->
  DataAnalyzerV2.previous_month_data self = Some previous ->
  DataAnalyzerV2.analyze_columns stf current
  = (DataAnalyzerV2.dimension_columns self, DataAnalyzerV2.metric_columns self) ->
  Sessions.run_dimension_summary stf py_int observed self answers = Some result ->
  is_empty result = false ->
  forallb (has_column previous) (DataAnalyzerV2.metric_columns self) = true ->
  NoDup (column_names current) -> no_derived_column_names current ->
  distinct_categories current -> distinct_categories previous ->
  exists selected,
    selected <> []
    /\ (forall d, In d selected -> In d (DataAnalyzerV2.dimension_columns self))
    /\ column_names result
       = selected ++ flat_map (fun col => [DataAnalyzerV2.previous_col col;
                                           DataAnalyzerV2.current_col col;
                                           DataAnalyzerV2.change_col col;
                                           DataAnalyzerV2.growth_col col])
                              (DataAnalyzerV2.metric_columns self)
    /\ forall r m,
         In r (rows result) -> In m (DataAnalyzerV2.metric_columns self) ->
         exists c p,
           get r (DataAnalyzerV2.current_col m) = Num c
           /\ get r (DataAnalyzerV2.previous_col m) = Num p
           /\ get r (DataAnalyzerV2.change_col m) = Num (DataAnalyzerV2Rate.change c p)
           /\ get r (DataAnalyzerV2.growth_col m)
              = Num (DataAnalyzerV2Rate.growth_rate c p).
Proof.
  intros Hc Hp Hclass Hrun Hres Hprevm Hnd Hfresh Hcc Hcp.
  unfold Sessions.run_dimension_summary in Hrun. rewrite Hc, Hp in Hrun.
  rewrite analyze_columns_v2_same in Hclass.
  assert (Hd : DataAnalyzerV2.dimension_columns self
               = fst (DataAnalyzer.analyze_columns stf current)) by now rewrite Hclass.
  assert (Hm : DataAnalyzerV2.metric_columns self
               = snd (DataAnalyzer.analyze_columns stf current)) by now rewrite Hclass.
  destruct (DataAnalyzerV2.dimension_columns self) as [| d0 dims'] eqn:Edims.
  { injection Hrun as <-. discriminate. }
  destruct (DataAnalyzerV2.metric_columns self) as [| m0 metrics'] eqn:Emetrics.
  { injection Hrun as <-. discriminate. }
  destruct (Prompts.get_user_dimension_selection py_int answers (d0 :: dims'))
    as [selected |] eqn:Hsel; [| discriminate].
  cbv zeta in Hrun.
  destruct (is_empty _ || is_empty _) eqn:He.
  { injection Hrun as <-. discriminate. }
  injection Hrun as <-. apply orb_false_iff in He. destruct He as [He1 He2].
  destruct (dimension_selection_offered py_int answers _ _ Hsel) as [Hoff Hnone].
  assert (Hne : selected <> []) by (intros E; now specialize (Hnone E)).
  assert (Hoff' : forall d, In d selected ->
                            In d (fst (DataAnalyzer.analyze_columns stf current))).
  { intros d Hin. rewrite <- Hd. now apply Hoff. }
  destruct (session_side_conditions stf current selected Hnd Hfresh Hoff')
    as [Hdisj Hfr]. rewrite <- Hm in Hdisj, Hfr.
  assert (Hcurm : forallb (has_column current) (m0 :: metrics') = true).
  { apply forallb_forall. intros m Hin. apply mem_In.
    apply (classified_are_columns stf). apply in_or_app. right. now rewrite <- Hm. }
  assert (Hagg : forall df,
             distinct_categories df ->
             forallb (has_column df) (m0 :: metrics') = true ->
             is_empty (DataAnalyzerV2.group_and_summarize stf observed df selected
                                                          (m0 :: metrics')) = false ->
             is_aggregate (DataAnalyzerV2.group_and_summarize stf observed df selected
                                                              (m0 :: metrics'))
                          selected (m0 :: metrics')).
  { intros df Hcat Hmm Hemp.
    assert (Hk : forallb (has_column df) selected = true).
    { destruct (forallb (has_column df) selected) eqn:E; [reflexivity |].
      rewrite (proj2 (summary_v2_is_empty_iff stf observed df selected (m0 :: metrics')))
        in Hemp by now right.
      discriminate. }
    unfold DataAnalyzerV2.group_and_summarize.
    rewrite (filter_all _ (m0 :: metrics')).
    2:{ intros m Hin. rewrite has_column_coerce_v2. rewrite forallb_forall in Hmm.
        now apply Hmm. }
    destruct (groupby_sum_succeeds observed
                (DataAnalyzerV2.coerce_columns stf df (m0 :: metrics'))
                selected (m0 :: metrics') Hne) as [g Hg].
    - now rewrite forallb_coerce_v2.
    - now rewrite forallb_coerce_v2.
    - rewrite Hg. apply (groupby_sum_is_aggregate _ _ _ _ _ Hg Hdisj).
      intros cats [kn [Hkeys Hdt]].
      destruct (coerce_present_spec stf df (m0 :: metrics')) as [_ [_ Hsame]].
      rewrite Hsame in Hdt by (apply Hdisj; rewrite Hkeys; now left).
      exact (Hcat kn cats Hdt). }
  pose proof (Hagg current Hcc Hcurm He1) as Hcur.
  pose proof (Hagg previous Hcp Hprevm He2) as Hprev.
  destruct (comparison_body_v2_of_aggregates _ _ selected (m0 :: metrics')
              Hne Hdisj Hfr Hcur Hprev) as [cols [Hbody Hnames]].
  destruct (compared_rows_spec DataAnalyzerV2Rate.change DataAnalyzerV2Rate.growth_rate
              _ _ selected (m0 :: metrics') cols Hfr Hcur Hprev) as [_ Hrows].
  exists selected. split; [exact Hne |]. split; [exact Hoff |].
  unfold DataAnalyzerV2.calculate_comparison. rewrite Hbody.
  split; [exact Hnames | exact Hrows].
Qed.

Lemma dimension_summary_is_the_comparison_witness :
  exists selected,
    selected <> []
    /\ (forall d, In d selected -> In d (DataAnalyzerV2.dimension_columns sales_analyzer))
    /\ column_names sales_dimension_summary
       = selected ++ flat_map (fun col => [DataAnalyzerV2.previous_col col;
                                           DataAnalyzerV2.current_col col;
                                           DataAnalyzerV2.change_col col;
                                           DataAnalyzerV2.growth_col col])
                              (DataAnalyzerV2.metric_columns sales_analyzer)
    /\ forall r m,
         In r (rows sales_dimension_summary) ->
         In m (DataAnalyzerV2.metric_columns sales_analyzer) ->
         exists c p,
           get r (DataAnalyzerV2.current_col m) = Num c
           /\ get r (DataAnalyzerV2.previous_col m) = Num p
           /\ get r (DataAnalyzerV2.change_col m) = Num (DataAnalyzerV2Rate.change c p)
           /\ get r (DataAnalyzerV2.growth_col m)
              = Num (DataAnalyzerV2Rate.growth_rate c p).
Proof.
  apply (dimension_summary_is_the_comparison no_text_number int_literal false
           sales_analyzer sales_current sales_previous ["all"] sales_dimension_summary).
  - reflexivity.
  - reflexivity.
  - vm_compute. reflexivity.
  - vm_compute. reflexivity.
  - vm_compute. reflexivity.
  - vm_compute. reflexivity.
  - repeat constructor; cbn; intuition discriminate.
  - intros m [<- | [<- | []]]; repeat split; intros [E | [E | []]]; discriminate E.
  - apply plain_columns_distinct_categories.
    intros c cats [<- | [<- | []]]; discriminate.
  - apply plain_columns_distinct_categories.
    intros c cats [<- | [<- | []]]; discriminate.
Defined.

(* ================================================================== *)
(** * The report: periods *)

Lemma feqb_true (x y : fnum) : feqb x y = true -> x = y /\ fisna x = false.
Proof.
  destruct x, y; cbn; try discriminate; try (now split).
  intros H. apply Qc_eq_bool_iff in H. now subst.
Qed.

Lemma feqb_same (x : fnum) : fisna x = false -> feqb x x = true.
Proof.
  destruct x; cbn; try reflexivity; [| discriminate].
  intros _. apply Qc_eq_bool_refl.
Qed.

Lemma series_max_among (x : fnum) (t : list fnum) :
  In (DataAnalyzerV2.series_max (x :: t)) (x :: t).
Proof.
  cbn [DataAnalyzerV2.series_max]. revert x.
  induction t as [| y t IH]; intros x; [now left |].
  cbn [fold_left]. destruct (fltb x y).
  - right. apply IH.
  - destruct (IH x) as [H | H]; [now left | right; now right].
Qed.

Lemma In_rows_dated df col date r :
  In r (rows (Report.rows_dated df col date))
  <-> In r (rows df) /\ exists x, get r col = Num x /\ feqb x date = true.
Proof.
  unfold Report.rows_dated. cbn [rows]. rewrite filter_In. split.
  - intros [Hin H]. split; [exact Hin |].
    destruct (get r col) as [x | s]; [| discriminate]. now exists x.
  - intros [Hin [x [Hx H]]]. split; [exact Hin |]. now rewrite Hx.
Qed.

(** X19. [prepare_data_by_periods] splits the frame by date: each
    period holds exactly the rows of the frame dated at the target
    date, a month before it and a year before it; a row is in no two
    periods whose dates differ; the target date is the one passed in,
    and, when none is passed, the latest date of the frame, so that the
    current period is not empty as soon as one row has a date. *)
Theorem periods_hold_the_rows_of_their_dates
        (month_before year_before : fnum -> fnum) (self : Report.DataAnalysisReport)
        (df : DataFrame) (date_column : string) (target_date : option fnum)
        (prepared : Report.DataAnalysisReport) :
  Report.prepare_data_by_periods month_before year_before self df date_column target_date
  = Some prepared ->
  exists target periods,
    Report.report_date prepared = Some target
    /\ Report.last_month_date prepared = Some (month_before target)
    /\ Report.last_year_date prepared = Some (year_before target)
    /\ Report.data prepared = Some periods
    /\ (forall date, target_date = Some date -> target = date)
    /\ (forall r date,
           In (date, r) [(target, rows (Report.current periods));
                         (month_before target, rows (Report.last_month periods));
                         (year_before target, rows (Report.last_year periods))] ->
           forall x, In x r <-> In x (rows df)
                                /\ exists d, get x date_column = Num d
                                             /\ feqb d date = true)
    /\ (forall x, In x (rows (Report.current periods)) ->
                  (In x (rows (Report.last_month periods)) -> month_before target = target)
                  /\ (In x (rows (Report.last_year periods)) ->
                      year_before target = target))
    /\ (target_date = None ->
        (exists x d, In x (rows df) /\ get x date_column = Num d /\ fisna d = false) ->
        rows (Report.current periods) <> []).
Proof.
  unfold Report.prepare_data_by_periods. intros H.
  destruct (has_column df date_column); [| discriminate].
  destruct (match target_date with
            | Some date => Some date
            | None => Report.latest_date df date_column
            end) as [target |] eqn:Ht; [| discriminate].
  injection H as <-. cbv zeta. eexists. eexists.
  cbn [Report.report_date Report.last_month_date Report.last_year_date Report.data
       Report.current Report.last_month Report.last_year].
  repeat (split; [reflexivity |]). split; [| split; [| split]].
  - intros date ->. now injection Ht.
  - intros r date [[= <- <-] | [[= <- <-] | [[= <- <-] | []]]] x;
      apply In_rows_dated.
  - intros x Hx. apply In_rows_dated in Hx. destruct Hx as [_ [d [Hd Hdt]]].
    apply feqb_true in Hdt. destruct Hdt as [-> _].
    split; intros Hy; apply In_rows_dated in Hy; destruct Hy as [_ [d' [Hd' Hdt']]];
      rewrite Hd in Hd'; injection Hd' as <-; apply feqb_true in Hdt'; now destruct Hdt'.
  - intros -> [x [d [Hx [Hd Hna]]]]. unfold Report.latest_date in Ht.
    destruct (mapM num_of_cell (series df date_column)) as [dates |] eqn:Hdates;
      [| discriminate].
    injection Ht as <-.
    assert (Hall : forall l ns, mapM num_of_cell l = Some ns ->
                                forall c, In c l <-> exists n, c = Num n /\ In n ns).
    { clear. induction l as [| c l IH]; intros ns H; cbn [mapM] in H.
      - injection H as <-. intros c. split; [contradiction | now intros [n [_ []]]].
      - destruct c as [n | s]; cbn [num_of_cell] in H; [| discriminate].
        destruct (mapM num_of_cell l) as [ns' |]; [| discriminate].
        injection H as <-. intros c. cbn [In]. rewrite (IH ns' eq_refl c). split.
        + intros [<- | [n' [-> Hn']]]; [exists n; split; auto | exists n'; auto].
        + intros [n' [-> [<- | Hn']]]; [now left | right; now exists n']. }
    set (present := filter (fun x => negb (fisna x)) dates).
    assert (Hd_in : In d present).
    { apply filter_In. split; [| now rewrite Hna].
      assert (Hc : In (Num d) (series df date_column)).
      { rewrite <- Hd. unfold series.
        exact (in_map (fun r => get r date_column) _ _ Hx). }
      apply (Hall _ _ Hdates) in Hc. destruct Hc as [n [[= ->] Hn]]. exact Hn. }
    destruct present as [| p0 ps] eqn:Hp; [contradiction |].
    pose proof (series_max_among p0 ps) as Hmax. rewrite <- Hp in Hmax.
    fold present in Hmax. rewrite Hp in Hmax at 1.
    apply filter_In in Hmax. destruct Hmax as [Hmax_in Hmax_na].
    assert (Hcell : In (Num (DataAnalyzerV2.series_max (p0 :: ps)))
                       (series df date_column)).
    { apply (Hall _ _ Hdates). eexists. split; [reflexivity | exact Hmax_in]. }
    unfold series in Hcell. apply in_map_iff in Hcell. destruct Hcell as [r [Hr Hin]].
    intros Hempty.
    assert (Hrow : In r (rows (Report.rows_dated df date_column
                                                 (DataAnalyzerV2.series_max (p0 :: ps))))).
    { apply In_rows_dated. split; [exact Hin |]. eexists. split; [exact Hr |].
      apply feqb_same. now apply negb_true_iff. }
    cbn [Report.current] in Hempty. rewrite Hempty in Hrow. contradiction.
Qed.

(* ================================================================== *)
(** * The report: aggregation and the left merges *)

Lemma mapM_each {A B} (f : A -> option B) (l : list A) : forall ys,
  mapM f l = Some ys -> Forall2 (fun x y => f x = Some y) l ys.
Proof.
  induction l as [| x l IH]; intros ys H; cbn [mapM] in H.
  - injection H as <-. constructor.
  - destruct (f x) as [y |] eqn:Hx; [| discriminate].
    destruct (mapM f l) as [t |]; [| discriminate].
    injection H as <-. constructor; [exact Hx | now apply IH].
Qed.

Lemma group_key_length observed cols keys valid k :
  (forall r, In r valid -> has_na_key keys r = false) ->
  In k (Pandas.group_keys observed cols keys valid) ->
  List.length k = List.length keys /\ existsb isna k = false.
Proof.
  intros Hv H. apply group_keys_cases in H.
  destruct H as [[r0 [Hr0 <-]] | [_ [kn [cats [c [-> [_ [_ ->]]]]]]]].
  - split; [apply length_map | now apply Hv].
  - split; reflexivity.
Qed.

Lemma key_of_combined observed cols keys valid k (rest : row) :
  In k (Pandas.group_keys observed cols keys valid) ->
  key_of keys (combine keys k ++ rest) = k.
Proof.
  intros H. apply group_keys_cases in H.
  destruct H as [[r0 [_ <-]] | [_ [kn [cats [c [-> [_ [_ ->]]]]]]]].
  - unfold key_of at 1 3. apply map_ext_in. intros k Hk. now apply get_combine_key.
  - cbn. now rewrite String.eqb_refl.
Qed.

Lemma names_of_combine (keys : list string) (k : list cell) :
  List.length k = List.length keys -> map fst (combine keys k) = keys.
Proof.
  revert k. induction keys as [| a keys IH]; intros [| c k] H; try discriminate H;
    [reflexivity |].
  cbn. f_equal. apply IH. now injection H.
Qed.

Lemma aggregate_is_number how values v :
  Report.aggregate how values = Some v -> exists x, v = Num x.
Proof.
  unfold Report.aggregate. destruct how;
    try (destruct (mapM num_of_cell values); [| discriminate]);
    intros [= <-]; eexists; reflexivity.
Qed.

(** What [group_and_aggregate] returns is an aggregate over the
    dimensions and the value column, each row with exactly these
    columns. *)
Lemma group_and_aggregate_is_aggregate observed how df dims v A :
  Report.group_and_aggregate observed how df dims v = Some A ->
  (forall cats, categorical_key df dims cats -> NoDup cats) ->
  is_aggregate A dims [v] /\ rows_shaped A (dims ++ [v]) /\ ~ In v dims /\ dims <> [].
Proof.
  unfold Report.group_and_aggregate. intros H Hcats.
  destruct dims as [| d0 ds]; [discriminate |]. set (dims := d0 :: ds) in *.
  destruct (forallb (has_column df) dims && has_column df v && negb (mem v dims))
    eqn:Hc; [| discriminate].
  apply andb_true_iff in Hc. destruct Hc as [_ Hv].
  apply negb_true_iff in Hv. apply mem_not_In in Hv.
  set (valid := filter (fun r => negb (has_na_key dims r)) (rows df)) in *.
  destruct (mapM _ (Pandas.group_keys observed (columns df) dims valid)) as [rs |] eqn:Hm;
    [| discriminate].
  injection H as <-. apply mapM_each in Hm.
  assert (Hvalid : forall r, In r valid -> has_na_key dims r = false).
  { intros r Hr. unfold valid in Hr. apply filter_In in Hr.
    now apply negb_true_iff. }
  assert (Hrow : forall r, In r rs ->
                           exists k x, In k (Pandas.group_keys observed (columns df) dims
                                                               valid)
                                       /\ r = combine dims k ++ [(v, Num x)]).
  { clear - Hm. induction Hm as [| k r ks rs Hk _ IH]; intros r' Hr'; [contradiction |].
    destruct Hr' as [<- | Hr'].
    - destruct (Report.aggregate how _) as [val |] eqn:Ha; [| discriminate].
      injection Hk as <-. destruct (aggregate_is_number _ _ _ Ha) as [x ->].
      exists k, x. split; [now left | reflexivity].
    - destruct (IH r' Hr') as [k' [x [Hin E]]]. exists k', x. split; [now right | exact E]. }
  assert (Hkeys : map (key_of dims) rs
                  = Pandas.group_keys observed (columns df) dims valid).
  { assert (Hgen : forall ks rs',
               (forall k, In k ks ->
                          In k (Pandas.group_keys observed (columns df) dims valid)) ->
               Forall2 (fun k r =>
                          match Report.aggregate
                                  how (map (fun r => get r v)
                                           (filter (fun r => key_eqb (key_of dims r) k)
                                                   valid)) with
                          | Some val => Some (combine dims k ++ [(v, val)])
                          | None => None
                          end = Some r) ks rs' ->
               map (key_of dims) rs' = ks).
    { intros ks rs' Hsub HF. induction HF as [| k r ks rs' Hk _ IH]; [reflexivity |].
      cbn [map]. f_equal.
      - destruct (Report.aggregate how _) as [val |]; [| discriminate].
        injection Hk as <-.
        apply (key_of_combined observed (columns df) dims valid). apply Hsub. now left.
      - apply IH. intros k' Hk'. apply Hsub. now right. }
    now apply Hgen. }
  match goal with |- is_aggregate ?fr _ _ /\ _ => set (A := fr) end.
  assert (Hnames : column_names A = dims ++ [v]).
  { unfold A, column_names, dims. cbn [columns map fst app]. f_equal.
    rewrite map_app, (map_fst_tabulate (fun k : string => k)), map_id. reflexivity. }
  split; [| split; [| split; [exact Hv | discriminate]]].
  - constructor.
    + exact Hnames.
    + unfold frame_keys, A. cbn [rows]. rewrite Hkeys. apply group_keys_NoDup.
      intros kn cats Hk Hd. apply (Hcats cats). now exists kn.
    + unfold A. cbn [rows]. intros r Hr. unfold has_na_key.
      assert (Hk : In (key_of dims r) (map (key_of dims) rs)) by now apply in_map.
      rewrite Hkeys in Hk.
      now apply (group_key_length observed (columns df) dims valid).
    + unfold A. cbn [rows]. intros r m Hr [<- | []].
      destruct (Hrow r Hr) as [k [x [Hk ->]]].
      exists x. rewrite get_app.
      replace (mem v (map fst (combine dims k))) with false.
      * cbn. now rewrite String.eqb_refl.
      * symmetry. apply mem_not_In. intros Hin. apply in_map_iff in Hin.
        destruct Hin as [[n c] [E Hin]]. cbn in E. subst n.
        apply in_combine_l in Hin. contradiction.
  - split.
    + exact Hnames.
    + unfold A. cbn [rows]. intros r Hr. destruct (Hrow r Hr) as [k [x [Hk ->]]].
      rewrite map_app. cbn [map fst]. f_equal. apply names_of_combine.
      now apply (group_key_length observed (columns df) dims valid).
Qed.

Lemma get_renamed (r : row) (old new c : string) :
  c <> old -> c <> new ->
  get (map (fun p : string * cell =>
              (if String.eqb (fst p) old then new else fst p, snd p)) r) c
  = get r c.
Proof.
  intros Ho Hn. induction r as [| [n v] r IH]; [reflexivity |].
  cbn [map get fst snd]. destruct (String.eqb_spec n old) as [-> | Hne].
  - destruct (String.eqb_spec new c) as [E | _]; [now elim Hn |].
    destruct (String.eqb_spec old c) as [E | _]; [now elim Ho |]. exact IH.
  - destruct (String.eqb n c); [reflexivity | exact IH].
Qed.

Lemma names_renamed (r : list (string * cell)) (names : list string) (old new : string) :
  map fst r = names ++ [old] -> ~ In old names ->
  map fst (map (fun p : string * cell =>
                  (if String.eqb (fst p) old then new else fst p, snd p)) r)
  = names ++ [new]
  /\ (~ In new names ->
      get (map (fun p : string * cell =>
                  (if String.eqb (fst p) old then new else fst p, snd p)) r) new
      = get r old).
Proof.
  revert r. induction names as [| a names IH]; intros r Hr Hold.
  - destruct r as [| [n v] [| q r]]; try discriminate Hr. cbn in Hr.
    injection Hr as ->. cbn [map fst snd get app]. rewrite !String.eqb_refl.
    split; [reflexivity |]. intros _. cbn [get]. now rewrite ?String.eqb_refl.
  - destruct r as [| [n v] r]; [discriminate Hr |]. cbn in Hr. injection Hr as -> Hr.
    destruct (IH r Hr) as [Hn Hg]; [intros H; apply Hold; now right |].
    cbn [map fst snd get].
    destruct (String.eqb_spec a old) as [-> | Hne]; [elim Hold; now left |].
    split; [cbn; now rewrite Hn |].
    intros Hnew.
    destruct (String.eqb_spec a new) as [-> | _]; [elim Hnew; now left |].
    destruct (String.eqb_spec a old) as [E | _]; [contradiction |].
    apply Hg. intros H. apply Hnew. now right.
Qed.

(** Renaming the value column of an aggregate gives an aggregate over
    the new name, with the same keys and the same values. *)
Lemma rename_column_of_aggregate A dims old new :
  is_aggregate A dims [old] -> rows_shaped A (dims ++ [old]) ->
  ~ In old dims -> ~ In new dims ->
  is_aggregate (Report.rename_column A old new) dims [new]
  /\ rows_shaped (Report.rename_column A old new) (dims ++ [new])
  /\ exists F, rows (Report.rename_column A old new) = map F (rows A)
               /\ forall x, In x (rows A) ->
                            key_of dims (F x) = key_of dims x
                            /\ get (F x) new = get x old.
Proof.
  intros [Hn Hu Hp Ht] [_ Hshape] Hold Hnew.
  set (F := map (fun p : string * cell =>
                   (if String.eqb (fst p) old then new else fst p, snd p))).
  assert (HF : forall x, In x (rows A) ->
                         key_of dims (F x) = key_of dims x
                         /\ get (F x) new = get x old
                         /\ map fst (F x) = dims ++ [new]).
  { intros x Hx. destruct (names_renamed x dims old new (Hshape x Hx) Hold) as [H1 H2].
    split; [| split; [now apply H2 | exact H1]].
    apply key_of_ext. intros k Hk. apply get_renamed; intros ->; contradiction. }
  assert (Hnames : column_names (Report.rename_column A old new) = dims ++ [new]).
  { unfold column_names, Report.rename_column. cbn [columns]. rewrite map_map. cbn [fst].
    unfold column_names in Hn. clear - Hn Hold.
    revert Hn. generalize (columns A). induction dims as [| a dims IH]; intros cols Hc.
    - destruct cols as [| [n d] [| q cols]]; try discriminate Hc. cbn in Hc.
      injection Hc as ->. cbn. now rewrite String.eqb_refl.
    - destruct cols as [| [n d] cols]; [discriminate Hc |]. cbn in Hc.
      injection Hc as -> Hc. cbn [map fst app].
      destruct (String.eqb_spec a old) as [-> | _]; [elim Hold; now left |].
      f_equal. apply IH; [intros H; apply Hold; now right | exact Hc]. }
  split; [| split].
  - constructor.
    + exact Hnames.
    + unfold frame_keys, Report.rename_column. cbn [rows]. fold F. rewrite map_map.
      rewrite (map_ext_in _ (key_of dims)); [exact Hu |].
      intros x Hx. now apply HF.
    + unfold Report.rename_column. cbn [rows]. fold F. intros r Hr.
      apply in_map_iff in Hr. destruct Hr as [x [<- Hx]].
      unfold has_na_key. destruct (HF x Hx) as [-> _]. now apply Hp.
    + unfold Report.rename_column. cbn [rows]. fold F. intros r m Hr [<- | []].
      apply in_map_iff in Hr. destruct Hr as [x [<- Hx]].
      destruct (HF x Hx) as [_ [-> _]]. apply (Ht x old Hx). now left.
  - split; [exact Hnames |]. unfold Report.rename_column. cbn [rows]. fold F.
    intros r Hr. apply in_map_iff in Hr. destruct Hr as [x [<- Hx]]. now apply HF.
  - exists F. split; [reflexivity |]. intros x Hx. destruct (HF x Hx) as [H1 [H2 _]].
    now split.
Qed.

Lemma flat_map_of_singletons {A B} (f : A -> list B) (g : A -> B) (l : list A) :
  (forall x, In x l -> f x = [g x]) -> flat_map f l = map g l.
Proof.
  induction l as [| x l IH]; intros H; [reflexivity |].
  cbn. rewrite (H x (or_introl eq_refl)), IH; [reflexivity |].
  intros; apply H; now right.
Qed.

(** The left merge of two frames that share only their key columns,
    the right one with distinct keys: one row per row of the left
    frame. *)
Lemma merge_left_of_aggregates (L R : DataFrame) (dims ml mr : list string) :
  dims <> [] ->
  column_names L = dims ++ ml -> column_names R = dims ++ mr ->
  (forall k, In k dims -> ~ In k ml) -> (forall k, In k dims -> ~ In k mr) ->
  (forall m, In m ml -> ~ In m mr) ->
  NoDup (frame_keys R dims) ->
  exists cols,
    Report.merge_left L R dims
    = Some (mkDataFrame
              cols
              (map (fun x => Pandas.join_row dims (map (fun m => (m, m)) ml)
                                             (map (fun m => (m, m)) mr) (Some x)
                                             (hd_error (Pandas.matches dims x (rows R))))
                   (rows L)))
    /\ map fst cols = dims ++ ml ++ mr.
Proof.
  intros Hne HL HR Hdl Hdr Hlr Hnd.
  pose proof (other_names L dims ml HL Hdl) as HLo.
  pose proof (other_names R dims mr HR Hdr) as HRo.
  unfold Report.merge_left.
  destruct dims as [| k0 ks]; [contradiction |].
  rewrite (has_columns_of_names L (k0 :: ks) _ HL),
          (has_columns_of_names R (k0 :: ks) _ HR);
    try (intros c Hc; apply in_or_app; now left).
  cbv beta zeta. cbn [andb].
  set (dims := k0 :: ks) in *.
  set (lothers := filter (fun c => negb (mem (fst c) dims)) (columns L)) in *.
  set (rothers := filter (fun c => negb (mem (fst c) dims)) (columns R)) in *.
  assert (El : map (fun c : string * dtype =>
                      (fst c, if mem (fst c) (map fst rothers)
                              then (fst c ++ "_x")%string else fst c)) lothers
               = map (fun m => (m, m)) ml).
  { rewrite <- HLo at 1. rewrite map_map. apply map_ext_in. intros c Hc.
    rewrite HRo. replace (mem (fst c) mr) with false; [reflexivity |].
    symmetry. apply mem_not_In. apply Hlr. rewrite <- HLo. now apply in_map. }
  assert (Er : map (fun c : string * dtype =>
                      (fst c, if mem (fst c) (map fst lothers)
                              then (fst c ++ "_y")%string else fst c)) rothers
               = map (fun m => (m, m)) mr).
  { rewrite <- HRo at 1. rewrite map_map. apply map_ext_in. intros c Hc.
    rewrite HLo. replace (mem (fst c) ml) with false; [reflexivity |].
    symmetry. apply mem_not_In. intros Hin. apply (Hlr _ Hin).
    rewrite <- HRo. now apply in_map. }
  rewrite El, Er. eexists. split.
  - f_equal. f_equal. apply flat_map_of_singletons. intros x _.
    destruct (matches_at_most_one dims x (rows R) Hnd) as [-> | [y [-> _]]]; reflexivity.
  - rewrite !map_app, !map_map. cbn [fst]. rewrite map_id. f_equal. f_equal.
    + rewrite <- HLo at 1. apply map_ext_in. intros c Hc.
      rewrite HRo. replace (mem (fst c) mr) with false; [reflexivity |].
      symmetry. apply mem_not_In. apply Hlr. rewrite <- HLo. now apply in_map.
    + rewrite <- HRo at 1. apply map_ext_in. intros c Hc.
      rewrite HLo. replace (mem (fst c) ml) with false; [reflexivity |].
      symmetry. apply mem_not_In. intros Hin. apply (Hlr _ Hin).
      rewrite <- HRo. now apply in_map.
Qed.

(** The cells of a row of that merge. *)
Lemma get_left_joined dims ml mr (x : row) (o : option row) (c : string) :
  get (Pandas.join_row dims (map (fun m => (m, m)) ml) (map (fun m => (m, m)) mr)
                       (Some x) o) c
  = if mem c dims || mem c ml then get x c
    else if mem c mr then match o with Some y => get y c | None => NA end
         else NA.
Proof.
  unfold Pandas.join_row. rewrite !map_map. cbn [fst snd].
  rewrite !get_app, !(map_fst_tabulate (fun k : string => k)), !map_id.
  rewrite (get_tabulate (fun k => get x k)), (get_tabulate (fun k => get x k)).
  rewrite (get_tabulate (fun k => match o with Some y => get y k | None => NA end)).
  destruct (mem c dims); [reflexivity |]. cbn [orb]. destruct (mem c ml); reflexivity.
Qed.

Lemma names_set_dtype_fresh (cols : list (string * dtype)) (c : string) (d : dtype) :
  ~ In c (map fst cols) -> map fst (set_dtype cols c d) = map fst cols ++ [c].
Proof.
  induction cols as [| [n e] cols IH]; intros H; [reflexivity |].
  cbn [set_dtype map fst app].
  destruct (String.eqb_spec n c) as [-> | _]; [elim H; now left |].
  cbn [map fst]. f_equal. apply IH. intros Hin. apply H. now right.
Qed.

Lemma names_set_cell_fresh (r : row) (c : string) (v : cell) :
  ~ In c (map fst r) -> map fst (set_cell r c v) = map fst r ++ [c].
Proof.
  induction r as [| [n w] r IH]; intros H; [reflexivity |].
  cbn [set_cell map fst app].
  destruct (String.eqb_spec n c) as [-> | _]; [elim H; now left |].
  cbn [map fst]. f_equal. apply IH. intros Hin. apply H. now right.
Qed.

Lemma names_set_cell_present (r : row) (c : string) (v : cell) :
  In c (map fst r) -> map fst (set_cell r c v) = map fst r.
Proof.
  induction r as [| [n w] r IH]; intros H; [contradiction |].
  cbn [set_cell map fst].
  destruct (String.eqb_spec n c) as [-> | Hne]; [reflexivity |].
  cbn [map fst]. f_equal. apply IH. destruct H as [H | H]; [contradiction | exact H].
Qed.

Lemma matches_of_mapped dims (x : row) (G : row -> row) (l : list row) :
  (forall y, In y l -> key_of dims (G y) = key_of dims y) ->
  Pandas.matches dims x (map G l) = map G (Pandas.matches dims x l).
Proof.
  unfold Pandas.matches. induction l as [| y l IH]; intros H; [reflexivity |].
  cbn [map filter]. rewrite (H y (or_introl eq_refl)).
  destruct (key_eqb _ _); cbn [map]; rewrite IH; try reflexivity;
    intros; apply H; now right.
Qed.

(** Lines 146-157 on a frame with the dimensions and the columns [ml]:
    one more column, holding for each row the value of its group in
    the prior period's aggregate, or a missing value. *)
Lemma add_period_spec (L agg : DataFrame) (dims ml : list string) (v new : string) :
  dims <> [] -> rows_shaped L (dims ++ ml) ->
  (forall k, In k dims -> ~ In k ml) ->
  ~ In v dims -> ~ In new dims -> ~ In new ml ->
  (rows agg <> [] -> is_aggregate agg dims [v] /\ rows_shaped agg (dims ++ [v])) ->
  exists L',
    Report.add_period L agg dims v new = Some L'
    /\ rows_shaped L' (dims ++ ml ++ [new])
    /\ exists F, rows L' = map F (rows L)
                 /\ forall x, In x (rows L) ->
                              key_of dims (F x) = key_of dims x
                              /\ (forall m, In m ml -> get (F x) m = get x m)
                              /\ get (F x) new = prior_value agg dims v x.
Proof.
  intros Hne [HLn HLs] Hdl Hv Hnd Hnm Hagg. unfold Report.add_period.
  destruct (rows agg) as [| y0 ys] eqn:Hrows.
  - eexists. split; [reflexivity |].
    assert (Hfresh : ~ In new (dims ++ ml)).
    { intros H. apply in_app_iff in H. tauto. }
    split; [split |].
    + unfold column_names, assign. cbn [columns].
      rewrite names_set_dtype_fresh; unfold column_names in HLn; rewrite HLn;
        [now rewrite app_assoc | exact Hfresh].
    + cbn [assign rows]. intros r Hr. apply in_map_iff in Hr.
      destruct Hr as [x [<- Hx]].
      rewrite names_set_cell_fresh; rewrite (HLs x Hx);
        [now rewrite app_assoc | exact Hfresh].
    + exists (fun r => set_cell r new NA). split; [reflexivity |].
      intros x Hx. split; [| split].
      * apply key_of_ext. intros k Hk. rewrite get_set_cell.
        destruct (String.eqb_spec new k) as [-> | _]; [contradiction | reflexivity].
      * intros m Hm. rewrite get_set_cell.
        destruct (String.eqb_spec new m) as [-> | _]; [contradiction | reflexivity].
      * rewrite get_set_cell, String.eqb_refl. unfold prior_value. now rewrite Hrows.
  - destruct Hagg as [Ha Hs]; [discriminate |].
    destruct (rename_column_of_aggregate agg dims v new Ha Hs Hv Hnd)
      as [[HRn HRu _ _] [_ [G [HG HGx]]]].
    destruct (merge_left_of_aggregates L (Report.rename_column agg v new) dims ml [new]
                                       Hne HLn HRn Hdl) as [cols [Hmerge Hcols]].
    { intros k Hk [<- | []]. contradiction. }
    { intros m Hm [<- | []]. contradiction. }
    { exact HRu. }
    rewrite Hmerge. eexists. split; [reflexivity |]. split; [split |].
    + exact Hcols.
    + cbn [rows]. intros r Hr. apply in_map_iff in Hr. destruct Hr as [x [<- _]].
      rewrite names_join_row, !map_map. cbn [snd]. now rewrite !map_id.
    + eexists. split; [reflexivity |]. intros x Hx. split; [| split].
      * now rewrite key_of_join_row.
      * intros m Hm. rewrite get_left_joined.
        replace (mem m ml) with true by (symmetry; now apply mem_In).
        now rewrite orb_true_r.
      * rewrite get_left_joined.
        replace (mem new dims) with false by (symmetry; now apply mem_not_In).
        replace (mem new ml) with false by (symmetry; now apply mem_not_In).
        cbn [orb mem existsb]. rewrite String.eqb_refl. cbn [orb].
        unfold prior_value. rewrite HG, matches_of_mapped.
        -- destruct (Pandas.matches dims x (rows agg)) as [| y t] eqn:Hm;
             [reflexivity |].
           cbn [map hd_error]. apply HGx.
           assert (Hy : In y (Pandas.matches dims x (rows agg))) by (rewrite Hm; now left).
           unfold Pandas.matches in Hy. apply filter_In in Hy. tauto.
        -- intros y Hy. now apply HGx.
Qed.

(* ================================================================== *)
(** * The report: growth and rounding *)

Lemma foldM_app {A S} (f : S -> A -> option S) (l1 l2 : list A) : forall s,
  foldM f (l1 ++ l2) s
  = match foldM f l1 s with
    | Some s' => foldM f l2 s'
    | None => None
    end.
Proof.
  induction l1 as [| x l1 IH]; intros s; [reflexivity |].
  cbn [app foldM]. destruct (f s x); [apply IH | reflexivity].
Qed.

Lemma round_column_skips (cols : list string) (df : DataFrame) :
  (forall c, In c cols -> contains "增长率" c = false) ->
  foldM Report.round_column cols df = Some df.
Proof.
  induction cols as [| c cols IH]; intros H; [reflexivity |].
  cbn [foldM]. unfold Report.round_column at 1.
  rewrite (H c (or_introl eq_refl)). apply IH. intros; apply H; now right.
Qed.

Lemma report_columns_not_rounded (v : string) :
  contains "增长率" (Report.current_col v) = contains "增长率" v
  /\ contains "增长率" (Report.last_month_col v) = contains "增长率" v
  /\ contains "增长率" (Report.last_year_col v) = contains "增长率" v.
Proof.
  unfold Report.current_col, Report.last_month_col, Report.last_year_col.
  repeat split; vm_compute; reflexivity.
Qed.

Lemma report_names_differ (v : string) :
  NoDup [Report.current_col v; Report.last_month_col v; Report.last_year_col v;
         Report.mom_col; Report.yoy_col].
Proof.
  unfold Report.current_col, Report.last_month_col, Report.last_year_col,
    Report.mom_col, Report.yoy_col.
  repeat constructor; cbn [In]; intuition discriminate.
Qed.

Lemma growth_names_not_dimensions dims v :
  report_names_fresh dims v ->
  ~ In Report.mom_col dims /\ ~ In Report.yoy_col dims.
Proof.
  intros [_ [_ [_ [_ [_ H]]]]]. split; intros Hin; apply H in Hin; vm_compute in Hin;
    discriminate.
Qed.

Lemma has_report_columns (df : DataFrame) (dims rest : list string) (v : string) :
  column_names df
  = dims ++ [Report.current_col v; Report.last_month_col v; Report.last_year_col v]
         ++ rest ->
  forallb (has_column df)
          [Report.current_col v; Report.last_month_col v; Report.last_year_col v] = true.
Proof.
  intros H. apply forallb_forall. intros c Hc. apply mem_In. rewrite H.
  apply in_or_app. right. apply in_or_app. now left.
Qed.

Lemma row_growth_of_numbers (df : DataFrame) (dims rest : list string) (v : string)
      (r : row) (c l y : fnum) :
  column_names df
  = dims ++ [Report.current_col v; Report.last_month_col v; Report.last_year_col v]
         ++ rest ->
  get r (Report.current_col v) = Num c -> get r (Report.last_month_col v) = Num l ->
  get r (Report.last_year_col v) = Num y ->
  Report.row_growth df v r = Some (ReportRate.calculate_growth_rates c l y).
Proof.
  intros Hn Hc Hl Hy. unfold Report.row_growth.
  rewrite (has_report_columns df dims rest v Hn), Hc, Hl, Hy. reflexivity.
Qed.

(** Closes a goal in which two names known to differ are equal. *)
Ltac names_clash :=
  exfalso;
  match goal with
  | N : ?a <> ?b, E : _ = _ |- _ => first [exact (N E) | exact (N (eq_sym E))]
  end.

(** Lines 159-179 on a frame that holds three numbers in every row:
    the two growth columns are added, each the rounded rate of the
    row's three values, and nothing else changes. *)
Lemma add_growth_rates_spec (L : DataFrame) (dims : list string) (v : string) :
  rows_shaped L (dims ++ [Report.current_col v; Report.last_month_col v;
                          Report.last_year_col v]) ->
  report_names_fresh dims v ->
  (forall x, In x (rows L) ->
             exists c l y, get x (Report.current_col v) = Num c
                           /\ get x (Report.last_month_col v) = Num l
                           /\ get x (Report.last_year_col v) = Num y) ->
  exists result,
    Report.add_growth_rates L v = Some result
    /\ column_names result
       = dims ++ [Report.current_col v; Report.last_month_col v; Report.last_year_col v;
                  Report.mom_col; Report.yoy_col]
    /\ exists F,
         rows result = map F (rows L)
         /\ forall x, In x (rows L) ->
              (forall k, k <> Report.mom_col -> k <> Report.yoy_col ->
                         get (F x) k = get x k)
              /\ forall c l y,
                   get x (Report.current_col v) = Num c ->
                   get x (Report.last_month_col v) = Num l ->
                   get x (Report.last_year_col v) = Num y ->
                   get (F x) Report.mom_col
                   = Num (fround (fst (ReportRate.calculate_growth_rates c l y)) 2)
                   /\ get (F x) Report.yoy_col
                      = Num (fround (snd (ReportRate.calculate_growth_rates c l y)) 2).
Proof.
  intros [Hn Hs] Hfresh Hnum.
  destruct (growth_names_not_dimensions dims v Hfresh) as [Hmd Hyd].
  pose proof (report_names_differ v) as Hdiff.
  set (cur := Report.current_col v) in *. set (lm := Report.last_month_col v) in *.
  set (ly := Report.last_year_col v) in *.
  set (mom := Report.mom_col) in *. set (yoy := Report.yoy_col) in *.
  assert (Hne : cur <> mom /\ lm <> mom /\ ly <> mom /\ cur <> yoy /\ lm <> yoy
                /\ ly <> yoy /\ mom <> yoy).
  { inversion Hdiff as [| ? ? H1 Hd1]; subst. inversion Hd1 as [| ? ? H2 Hd2]; subst.
    inversion Hd2 as [| ? ? H3 Hd3]; subst. inversion Hd3 as [| ? ? H4 _]; subst.
    cbn [In] in *. repeat split; intros E; rewrite E in *; tauto. }
  destruct Hne as [N1 [N2 [N3 [N4 [N5 [N6 N7]]]]]].
  unfold Report.add_growth_rates. fold mom yoy.
  (* the first growth column *)
  set (g1 := fun r : row => match Report.row_growth L v r with
                            | Some g => Num (fst g)
                            | None => NA
                            end).
  rewrite (assign_opt_all L mom _ _ g1).
  2:{ intros r Hr. destruct (Hnum r Hr) as [c [l [y [Hc [Hl Hy]]]]]. unfold g1.
      rewrite (row_growth_of_numbers L dims [] v r c l y); try assumption.
      reflexivity. }
  set (L3 := assign L mom (Dtype "float64") g1).
  assert (Hn3 : column_names L3 = dims ++ [cur; lm; ly] ++ [mom]).
  { unfold L3, column_names, assign. cbn [columns].
    rewrite names_set_dtype_fresh; unfold column_names in Hn; rewrite Hn.
    - now rewrite <- app_assoc.
    - intros H. apply in_app_iff in H. cbn [In] in H.
      destruct H as [H | [H | [H | [H | []]]]];
        try names_clash; contradiction. }
  set (g2 := fun r : row => match Report.row_growth L3 v r with
                            | Some g => Num (snd g)
                            | None => NA
                            end).
  assert (Hrow3 : forall x c l y,
             In x (rows L) ->
             get x cur = Num c -> get x lm = Num l -> get x ly = Num y ->
             Report.row_growth L3 v (set_cell x mom (g1 x))
             = Some (ReportRate.calculate_growth_rates c l y)
             /\ g1 x = Num (fst (ReportRate.calculate_growth_rates c l y))).
  { intros x c l y Hx Hc Hl Hy. split.
    - apply (row_growth_of_numbers L3 dims [mom] v); try exact Hn3;
        rewrite get_set_cell.
      + destruct (String.eqb_spec mom (Report.current_col v)); [names_clash | exact Hc].
      + destruct (String.eqb_spec mom (Report.last_month_col v)); [names_clash | exact Hl].
      + destruct (String.eqb_spec mom (Report.last_year_col v)); [names_clash | exact Hy].
    - unfold g1. rewrite (row_growth_of_numbers L dims [] v x c l y); try assumption.
      reflexivity. }
  rewrite (assign_opt_all L3 yoy _ _ g2).
  2:{ intros r Hr. unfold L3 in Hr. cbn [assign rows] in Hr. apply in_map_iff in Hr.
      destruct Hr as [x [<- Hx]]. destruct (Hnum x Hx) as [c [l [y [Hc [Hl Hy]]]]].
      unfold g2. destruct (Hrow3 x c l y Hx Hc Hl Hy) as [-> _]. reflexivity. }
  set (L4 := assign L3 yoy (Dtype "float64") g2).
  assert (Hn4 : column_names L4 = (dims ++ [cur; lm; ly]) ++ [mom; yoy]).
  { unfold L4, column_names, assign. cbn [columns].
    rewrite names_set_dtype_fresh; unfold column_names in Hn3; rewrite Hn3.
    - now rewrite <- !app_assoc.
    - intros H. apply in_app_iff in H. cbn [In] in H.
      destruct H as [H | [H | [H | [H | [H | []]]]]];
        try names_clash; contradiction. }
  (* the rounding *)
  rewrite Hn4, foldM_app, round_column_skips.
  2:{ intros c Hc. apply in_app_iff in Hc. destruct Hfresh as [_ [_ [_ [_ [Hv Hd]]]]].
      destruct (report_columns_not_rounded v) as [R1 [R2 R3]].
      destruct Hc as [Hc | [<- | [<- | [<- | []]]]];
        [now apply Hd | exact (eq_trans R1 Hv) | exact (eq_trans R2 Hv)
         | exact (eq_trans R3 Hv)]. }
  set (round_at := fun (col : string) (r : row) =>
                     set_cell r col match get r col with
                                    | Num x => Num (fround x 2)
                                    | Str _ => NA
                                    end).
  assert (Hround : forall (df : DataFrame) (col : string),
             contains "增长率" col = true ->
             (forall r, In r (rows df) -> exists x, get r col = Num x) ->
             Report.round_column df col
             = Some (mkDataFrame (columns df) (map (round_at col) (rows df)))).
  { intros df col Hcol Hcells. unfold Report.round_column. rewrite Hcol.
    rewrite (mapM_all _ (round_at col)); [reflexivity |].
    intros r Hr. destruct (Hcells r Hr) as [x Hx]. unfold round_at. now rewrite Hx. }
  assert (Hcell4 : forall x c l y,
             In x (rows L) ->
             get x cur = Num c -> get x lm = Num l -> get x ly = Num y ->
             set_cell (set_cell x mom (g1 x)) yoy (g2 (set_cell x mom (g1 x)))
             = set_cell (set_cell x mom
                                  (Num (fst (ReportRate.calculate_growth_rates c l y))))
                        yoy (Num (snd (ReportRate.calculate_growth_rates c l y)))).
  { intros x c l y Hx Hc Hl Hy. destruct (Hrow3 x c l y Hx Hc Hl Hy) as [E1 E2].
    unfold g2. rewrite E1. now rewrite E2. }
  cbn [foldM]. rewrite (Hround L4 mom).
  2:{ vm_compute. reflexivity. }
  2:{ intros r Hr. unfold L4, L3 in Hr. cbn [assign rows] in Hr. rewrite map_map in Hr.
      apply in_map_iff in Hr. destruct Hr as [x [<- Hx]].
      destruct (Hnum x Hx) as [c [l [y [Hc [Hl Hy]]]]].
      rewrite (Hcell4 x c l y Hx Hc Hl Hy), !get_set_cell.
      destruct (String.eqb_spec yoy mom); [names_clash |].
      rewrite String.eqb_refl. eexists. reflexivity. }
  rewrite Hround.
  2:{ vm_compute. reflexivity. }
  2:{ cbn [rows]. intros r Hr. unfold L4, L3 in Hr. cbn [assign rows] in Hr.
      rewrite !map_map in Hr. apply in_map_iff in Hr. destruct Hr as [x [<- Hx]].
      destruct (Hnum x Hx) as [c [l [y [Hc [Hl Hy]]]]].
      rewrite (Hcell4 x c l y Hx Hc Hl Hy). unfold round_at. rewrite !get_set_cell.
      destruct (String.eqb_spec mom yoy); [names_clash |].
      rewrite String.eqb_refl. eexists. reflexivity. }
  eexists. split; [reflexivity |]. split.
  - unfold column_names in *. cbn [columns]. rewrite Hn4. now rewrite <- app_assoc.
  - cbn [rows]. unfold L4, L3. cbn [assign rows]. rewrite !map_map.
    eexists. split; [reflexivity |]. intros x Hx. cbv beta. split.
    + intros k Hk1 Hk2. unfold round_at. rewrite !get_set_cell.
      destruct (String.eqb_spec yoy k); [names_clash |].
      destruct (String.eqb_spec mom k); [names_clash |]. reflexivity.
    + intros c l y Hc Hl Hy. rewrite (Hcell4 x c l y Hx Hc Hl Hy).
      unfold round_at. rewrite !get_set_cell.
      rewrite !String.eqb_refl.
      destruct (String.eqb_spec yoy mom); [names_clash |].
      destruct (String.eqb_spec mom yoy); [names_clash |].
      now split.
Qed.

(* ================================================================== *)
(** * The report: the analysis by dimensions *)

Lemma aggregate_period_with_rows observed aggregation df dims v A :
  Report.aggregate_period observed aggregation df dims v = Some A ->
  distinct_categories df -> rows A <> [] ->
  is_aggregate A dims [v] /\ rows_shaped A (dims ++ [v]) /\ ~ In v dims /\ dims <> [].
Proof.
  unfold Report.aggregate_period. intros H Hcat Hrows.
  destruct (rows df) as [| r0 rs].
  - injection H as <-. now elim Hrows.
  - destruct (Report.aggregation_of aggregation) as [how |]; [| discriminate].
    apply (group_and_aggregate_is_aggregate observed how df dims v A H).
    now apply categorical_key_distinct.
Qed.

Lemma prior_value_number agg dims v x :
  (rows agg <> [] -> is_aggregate agg dims [v]) ->
  exists l, prior_value agg dims v x = Num l.
Proof.
  intros H. unfold prior_value.
  destruct (Pandas.matches dims x (rows agg)) as [| y t] eqn:Hm; [now exists NaN |].
  assert (Hy : In y (rows agg)).
  { assert (Hin : In y (Pandas.matches dims x (rows agg))) by (rewrite Hm; now left).
    unfold Pandas.matches in Hin. apply filter_In in Hin. tauto. }
  destruct H as [_ _ _ Ht].
  - intros E. rewrite E in Hy. contradiction.
  - apply (Ht y v Hy). now left.
Qed.

Lemma prior_value_of_key agg dims v x x' :
  key_of dims x = key_of dims x' ->
  prior_value agg dims v x = prior_value agg dims v x'.
Proof.
  intros H. unfold prior_value, Pandas.matches. now rewrite H.
Qed.

(** The rows [analyze_by_dimensions] returns for a current period that
    has groups. *)
Lemma analysis_rows observed (periods : Report.Periods) dims v aggregation
      (Ac Al Ay : DataFrame) :
  Report.aggregate_period observed aggregation (Report.current periods) dims v = Some Ac ->
  Report.aggregate_period observed aggregation (Report.last_month periods) dims v
  = Some Al ->
  Report.aggregate_period observed aggregation (Report.last_year periods) dims v
  = Some Ay ->
  rows Ac <> [] ->
  report_names_fresh dims v ->
  distinct_categories (Report.current periods) ->
  distinct_categories (Report.last_month periods) ->
  distinct_categories (Report.last_year periods) ->
  exists L1 L2 result F,
    Report.add_period (Report.rename_column Ac v (Report.current_col v)) Al dims v
                      (Report.last_month_col v) = Some L1
    /\ Report.add_period L1 Ay dims v (Report.last_year_col v) = Some L2
    /\ Report.add_growth_rates L2 v = Some result
    /\ column_names result
       = dims ++ [Report.current_col v; Report.last_month_col v; Report.last_year_col v;
                  Report.mom_col; Report.yoy_col]
    /\ rows result = map F (rows Ac)
    /\ forall x, In x (rows Ac) ->
         key_of dims (F x) = key_of dims x
         /\ exists c l y,
              get x v = Num c
              /\ prior_value Al dims v x = Num l
              /\ prior_value Ay dims v x = Num y
              /\ get (F x) (Report.current_col v) = Num c
              /\ get (F x) (Report.last_month_col v) = Num l
              /\ get (F x) (Report.last_year_col v) = Num y
              /\ get (F x) Report.mom_col
                 = Num (fround (fst (ReportRate.calculate_growth_rates c l y)) 2)
              /\ get (F x) Report.yoy_col
                 = Num (fround (snd (ReportRate.calculate_growth_rates c l y)) 2).
Proof.
  intros Hc Hl Hy Hrows Hfresh Dc Dl Dy.
  destruct (aggregate_period_with_rows _ _ _ _ _ _ Hc Dc Hrows) as [Hagg [Hshape [Hv Hne]]].
  pose proof Hfresh as [_ [Hcd [Hld [Hyd _]]]].
  destruct (growth_names_not_dimensions dims v Hfresh) as [Hmd Hyyd].
  assert (Hapart : Report.last_month_col v <> Report.current_col v
                   /\ Report.last_year_col v <> Report.current_col v
                   /\ Report.last_year_col v <> Report.last_month_col v).
  { unfold Report.current_col, Report.last_month_col, Report.last_year_col.
    repeat split; discriminate. }
  destruct Hapart as [A1 [A2 A3]].
  destruct (rename_column_of_aggregate Ac dims v (Report.current_col v)
                                       Hagg Hshape Hv Hcd)
    as [Hagg0 [Hshape0 [F0 [HF0 HF0x]]]].
  destruct (add_period_spec (Report.rename_column Ac v (Report.current_col v)) Al dims
                            [Report.current_col v] v (Report.last_month_col v))
    as [L1 [HL1 [Hshape1 [F1 [HF1 HF1x]]]]]; try assumption.
  { intros k Hk [<- | []]. contradiction. }
  { intros [E | []]. now apply A1. }
  { intros Hr. destruct (aggregate_period_with_rows _ _ _ _ _ _ Hl Dl Hr) as [? [? _]].
    now split. }
  destruct (add_period_spec L1 Ay dims [Report.current_col v; Report.last_month_col v]
                            v (Report.last_year_col v))
    as [L2 [HL2 [Hshape2 [F2 [HF2 HF2x]]]]]; try assumption.
  { intros k Hk [<- | [<- | []]]; contradiction. }
  { intros [E | [E | []]]; [now apply A2 | now apply A3]. }
  { intros Hr. destruct (aggregate_period_with_rows _ _ _ _ _ _ Hy Dy Hr) as [? [? _]].
    now split. }
  assert (Hcells : forall x, In x (rows Ac) ->
             key_of dims (F2 (F1 (F0 x))) = key_of dims x
             /\ get (F2 (F1 (F0 x))) (Report.current_col v) = get x v
             /\ get (F2 (F1 (F0 x))) (Report.last_month_col v) = prior_value Al dims v x
             /\ get (F2 (F1 (F0 x))) (Report.last_year_col v) = prior_value Ay dims v x).
  { intros x Hx. destruct (HF0x x Hx) as [K0 V0].
    assert (Hx0 : In (F0 x) (rows (Report.rename_column Ac v (Report.current_col v)))).
    { rewrite HF0. now apply in_map. }
    destruct (HF1x (F0 x) Hx0) as [K1 [V1 P1]].
    assert (Hx1 : In (F1 (F0 x)) (rows L1)) by (rewrite HF1; now apply in_map).
    destruct (HF2x (F1 (F0 x)) Hx1) as [K2 [V2 P2]].
    split; [congruence |]. split; [| split].
    - rewrite V2 by now left. rewrite V1 by now left. exact V0.
    - rewrite V2 by (right; now left). rewrite P1. now apply prior_value_of_key.
    - rewrite P2. apply prior_value_of_key. congruence. }
  assert (Hnumbers : forall x, In x (rows Ac) ->
             exists c l y, get x v = Num c /\ prior_value Al dims v x = Num l
                           /\ prior_value Ay dims v x = Num y).
  { intros x Hx. destruct Hagg as [_ _ _ Ht]. destruct (Ht x v Hx (or_introl eq_refl))
      as [c Hcv].
    destruct (prior_value_number Al dims v x) as [l Hlv].
    { intros Hr. now destruct (aggregate_period_with_rows _ _ _ _ _ _ Hl Dl Hr). }
    destruct (prior_value_number Ay dims v x) as [y Hyv].
    { intros Hr. now destruct (aggregate_period_with_rows _ _ _ _ _ _ Hy Dy Hr). }
    exists c, l, y. now split. }
  destruct (add_growth_rates_spec L2 dims v) as [result [Hres [Hnames [F3 [HF3 HF3x]]]]].
  { exact Hshape2. }
  { exact Hfresh. }
  { intros x2 Hx2. rewrite HF2, HF1, HF0, !map_map in Hx2. apply in_map_iff in Hx2.
    destruct Hx2 as [x [<- Hx]]. destruct (Hcells x Hx) as [_ [E1 [E2 E3]]].
    destruct (Hnumbers x Hx) as [c [l [y [Nc [Nl Ny]]]]].
    exists c, l, y. rewrite E1, E2, E3. now split. }
  exists L1, L2, result, (fun x => F3 (F2 (F1 (F0 x)))).
  split; [exact HL1 |]. split; [exact HL2 |]. split; [exact Hres |].
  split; [exact Hnames |]. split.
  { rewrite HF3, HF2, HF1, HF0, !map_map. reflexivity. }
  intros x Hx. destruct (Hcells x Hx) as [K [E1 [E2 E3]]].
  destruct (Hnumbers x Hx) as [c [l [y [Nc [Nl Ny]]]]].
  assert (Hx2 : In (F2 (F1 (F0 x))) (rows L2)).
  { rewrite HF2, HF1, HF0, !map_map.
    exact (in_map (fun x => F2 (F1 (F0 x))) _ _ Hx). }
  destruct (HF3x _ Hx2) as [Hkeep Hgrowth].
  assert (Hk : forall k, k <> Report.mom_col -> k <> Report.yoy_col ->
                         get (F3 (F2 (F1 (F0 x)))) k = get (F2 (F1 (F0 x))) k)
    by exact Hkeep.
  split.
  - rewrite <- K. apply key_of_ext. intros k Hin. apply Hk; intros ->; contradiction.
  - assert (Hother : forall k, In k [Report.current_col v; Report.last_month_col v;
                                     Report.last_year_col v] ->
                               k <> Report.mom_col /\ k <> Report.yoy_col).
    { pose proof (report_names_differ v) as Hdiff. intros k Hin.
      unfold Report.current_col, Report.last_month_col, Report.last_year_col,
        Report.mom_col, Report.yoy_col in *.
      destruct Hin as [<- | [<- | [<- | []]]]; split; discriminate. }
    assert (G1 : get (F2 (F1 (F0 x))) (Report.current_col v) = Num c) by congruence.
    assert (G2 : get (F2 (F1 (F0 x))) (Report.last_month_col v) = Num l) by congruence.
    assert (G3 : get (F2 (F1 (F0 x))) (Report.last_year_col v) = Num y) by congruence.
    exists c, l, y.
    split; [exact Nc |]. split; [exact Nl |]. split; [exact Ny |].
    split; [rewrite Hk; [exact G1 | |]; apply Hother; cbn; tauto |].
    split; [rewrite Hk; [exact G2 | |]; apply Hother; cbn; tauto |].
    split; [rewrite Hk; [exact G3 | |]; apply Hother; cbn; tauto |].
    now apply Hgrowth.
Qed.


(** X21. When [analyze_by_dimensions] has nothing to compare: without
    prepared periods it raises; when the current period has no row and
    the other periods aggregate without an exception, it returns the
    empty frame, whatever the prior periods hold; and an aggregation
    it does not know raises only if one of the periods has a row. *)
Theorem report_without_current_rows
        (observed : bool) (self : Report.DataAnalysisReport)
        (dims : list string) (v aggregation : string) :
  (Report.data self = None ->
   Report.analyze_by_dimensions observed self dims v aggregation = None)
  /\ (forall periods Al Ay,
         Report.data self = Some periods ->
         rows (Report.current periods) = [] ->
         Report.aggregate_period observed aggregation (Report.last_month periods) dims v
         = Some Al ->
         Report.aggregate_period observed aggregation (Report.last_year periods) dims v
         = Some Ay ->
         Report.analyze_by_dimensions observed self dims v aggregation
         = Some empty_frame)
  /\ (forall periods,
         Report.data self = Some periods ->
         Report.aggregation_of aggregation = None ->
         (Report.analyze_by_dimensions observed self dims v aggregation = None
          <-> rows (Report.current periods) <> []
              \/ rows (Report.last_month periods) <> []
              \/ rows (Report.last_year periods) <> [])).
Proof.
  split; [| split].
  - intros H. unfold Report.analyze_by_dimensions. now rewrite H.
  - intros periods Al Ay Hdata Hempty Hl Hy.
    unfold Report.analyze_by_dimensions. rewrite Hdata.
    unfold Report.aggregate_period at 1. rewrite Hempty, Hl, Hy. reflexivity.
  - intros periods Hdata Hunknown.
    unfold Report.analyze_by_dimensions, Report.aggregate_period.
    rewrite Hdata, Hunknown.
    destruct (rows (Report.current periods)) as [| c cs].
    + destruct (rows (Report.last_month periods)) as [| l ls].
      * destruct (rows (Report.last_year periods)) as [| y ys]; cbn [rows].
        -- split; [discriminate |]. intros [H | [H | H]]; now elim H.
        -- split; [| reflexivity]. intros _. right. right. discriminate.
      * split; [| reflexivity]. intros _. right. left. discriminate.
    + split; [| reflexivity]. intros _. left. discriminate.
Qed.

Lemma periods_hold_the_rows_of_their_dates_witness :
  exists target periods,
    Report.report_date report_prepared = Some target
    /\ Report.last_month_date report_prepared = Some (days_before 30 target)
    /\ Report.last_year_date report_prepared = Some (days_before 365 target)
    /\ Report.data report_prepared = Some periods
    /\ (forall date, @None fnum = Some date -> target = date)
    /\ (forall r date,
           In (date, r) [(target, rows (Report.current periods));
                         (days_before 30 target, rows (Report.last_month periods));
                         (days_before 365 target, rows (Report.last_year periods))] ->
           forall x, In x r <-> In x (rows report_sales)
                                /\ exists d, get x "date" = Num d /\ feqb d date = true)
    /\ (forall x, In x (rows (Report.current periods)) ->
                  (In x (rows (Report.last_month periods)) ->
                   days_before 30 target = target)
                  /\ (In x (rows (Report.last_year periods)) ->
                      days_before 365 target = target))
    /\ (@None fnum = None ->
        (exists x d, In x (rows report_sales) /\ get x "date" = Num d
                     /\ fisna d = false) ->
        rows (Report.current periods) <> []).
Proof.
  apply (periods_hold_the_rows_of_their_dates (days_before 30) (days_before 365)
           Report.init report_sales "date" None report_prepared).
  vm_compute. reflexivity.
Defined.


Lemma report_without_current_rows_witness :
  Report.analyze_by_dimensions false Report.init ["region"] "amount" "sum" = None.
Proof.
  apply (proj1 (report_without_current_rows false Report.init ["region"] "amount" "sum")).
  reflexivity.
Defined.

(* ================================================================== *)
(** * The automatic script end to end *)

(** X22. [run_analysis] of the automatic script, from the loaded data
    on, when at least one dimension is found: if it returns a report,
    both files were aggregated over the dimensions and metrics
    classified in the current one; the keys of the report are the union
    of the two aggregates' keys, each once, with a zero total on the
    side that lacks a key; and every row holds, for each metric, the
    growth of its two totals and that growth as a percentage text. The
    column names of the current file are distinct and none is named
    like a derived column. *)
Theorem automatic_run_is_the_report
        (is_str is_num : dtype -> bool) (observed : bool) (fp : Qc -> string)
        (self after : AutoMonthly.AutoMonthlyAnalyzer)
        (current previous formatted : DataFrame) :
  AutoMonthly.run_analysis is_str is_num observed fp self current previous
  = (after, Some formatted) ->
  AutoMonthly.dimension_columns after <> [] ->
  NoDup (column_names current) ->
  auto_names_fresh (column_names current) (column_names current) ->
  distinct_categories current -> distinct_categories previous ->
  exists current_agg previous_agg,
    AutoMonthly.aggregate_data observed current (AutoMonthly.dimension_columns after)
                               (AutoMonthly.metric_columns after) = Some current_agg
    /\ AutoMonthly.aggregate_data observed previous (AutoMonthly.dimension_columns after)
                                  (AutoMonthly.metric_columns after) = Some previous_agg
    /\ union_merge current_agg previous_agg formatted
                   (AutoMonthly.dimension_columns after)
                   (AutoMonthly.metric_columns after)
    /\ forall r m,
         In r (rows formatted) -> In m (AutoMonthly.metric_columns after) ->
         exists c p,
           get r (AutoMonthly.current_col m) = Num c
           /\ get r (AutoMonthly.previous_col m) = Num p
           /\ get r (AutoMonthly.growth_col m) = Num (AutoMonthlyRate.growth_rate c p)
           /\ AutoMonthly.format_percentage fp (Num (AutoMonthlyRate.growth_rate c p))
              = Some (get r (AutoMonthly.formatted_col m)).
Proof.
  intros Hrun Hdims Hnd Hfresh Dc Dp.
  unfold AutoMonthly.run_analysis, AutoMonthly.identify_column_types in Hrun.
  rewrite classify_by_kind in Hrun.
  set (kind := auto_column_kind is_str is_num (AutoMonthly.exclude_set self)) in *.
  set (dims := columns_of_kind kind true (columns current)) in *.
  set (metrics := columns_of_kind kind false (columns current)) in *.
  assert (Hsub : forall c, In c (dims ++ metrics) -> In c (column_names current)).
  { intros c Hc. apply in_app_iff in Hc.
    destruct Hc as [Hc | Hc]; apply In_columns_of_kind in Hc; destruct Hc as [d [Hin _]];
      exact (in_map fst _ _ Hin). }
  assert (Hdistinct : NoDup (dims ++ metrics)) by now apply columns_of_kind_distinct.
  assert (Hdisj : forall k, In k dims -> ~ In k metrics).
  { intros k Hk. now apply (NoDup_app_disjoint dims metrics k). }
  assert (Hfr : auto_names_fresh dims metrics).
  { intros m Hm.
    destruct (Hfresh m (Hsub m (in_or_app _ _ _ (or_intror Hm)))) as [H1 [H2 [H3 H4]]].
    assert (Hno : forall c, ~ In c (column_names current) -> ~ In c dims).
    { intros c Hc Hin. apply Hc. apply Hsub. apply in_or_app. now left. }
    repeat split; now apply Hno. }
  destruct metrics as [| m0 ms] eqn:Em; [discriminate |].
  injection Hrun as <- Hrun.
  cbn [AutoMonthly.dimension_columns AutoMonthly.metric_columns] in *.
  destruct (AutoMonthly.aggregate_data observed current dims (m0 :: ms))
    as [ca |] eqn:Hca; [| discriminate].
  destruct (AutoMonthly.aggregate_data observed previous dims (m0 :: ms))
    as [pa |] eqn:Hpa; [| discriminate].
  assert (Hagg : forall df a, distinct_categories df ->
                              AutoMonthly.aggregate_data observed df dims (m0 :: ms)
                              = Some a ->
                              is_aggregate a dims (m0 :: ms)).
  { intros df a Hcat Ha. unfold AutoMonthly.aggregate_data in Ha.
    destruct dims as [| d0 ds]; [now elim Hdims |].
    apply (groupby_sum_is_aggregate _ _ _ _ _ Ha Hdisj).
    now apply categorical_key_distinct. }
  pose proof (Hagg current ca Dc Hca) as Hcur.
  pose proof (Hagg previous pa Dp Hpa) as Hprev.
  destruct (automatic_report_rows fp ca pa dims (m0 :: ms) Hdims Hdisj Hfr Hcur Hprev)
    as [c1 [c2 [c3 H]]].
  cbv zeta in H. destruct H as [Hmerge [Hgrow [Hfmt Hnum]]].
  rewrite Hmerge, Hgrow, Hfmt in Hrun. injection Hrun as <-.
  destruct (automatic_rows_spec fp ca pa dims (m0 :: ms) c3 Hfr Hcur Hprev Hnum)
    as [Hunion Hrows].
  exists ca, pa. repeat (split; [reflexivity |]). split; [exact Hunion | exact Hrows].
Qed.

Lemma automatic_run_is_the_report_witness :
  let after := fst sales_automatic_run in
  let formatted := snd sales_automatic_run in
  exists current_agg previous_agg,
    AutoMonthly.aggregate_data false sales_current (AutoMonthly.dimension_columns after)
                               (AutoMonthly.metric_columns after) = Some current_agg
    /\ AutoMonthly.aggregate_data false sales_previous
                                  (AutoMonthly.dimension_columns after)
                                  (AutoMonthly.metric_columns after) = Some previous_agg
    /\ union_merge current_agg previous_agg formatted
                   (AutoMonthly.dimension_columns after)
                   (AutoMonthly.metric_columns after)
    /\ forall r m,
         In r (rows formatted) -> In m (AutoMonthly.metric_columns after) ->
         exists c p,
           get r (AutoMonthly.current_col m) = Num c
           /\ get r (AutoMonthly.previous_col m) = Num p
           /\ get r (AutoMonthly.growth_col m) = Num (AutoMonthlyRate.growth_rate c p)
           /\ AutoMonthly.format_percentage float_repr
                                            (Num (AutoMonthlyRate.growth_rate c p))
              = Some (get r (AutoMonthly.formatted_col m)).
Proof.
  intros after formatted.
  apply (automatic_run_is_the_report is_object_dtype is_number_dtype false float_repr
           (AutoMonthly.init []) after sales_current sales_previous formatted).
  - vm_compute. reflexivity.
  - vm_compute. discriminate.
  - repeat constructor; cbn; intuition discriminate.
  - intros m [<- | [<- | []]]; repeat split; intros [E | [E | []]]; discriminate E.
  - apply plain_columns_distinct_categories.
    intros c cats [<- | [<- | []]]; discriminate.
  - apply plain_columns_distinct_categories.
    intros c cats [<- | [<- | []]]; discriminate.
Defined.

(* ================================================================== *)
(** * The range of a metric over both periods *)

Lemma Qc_ltb_irrefl (a : Qc) : Qc_ltb a a = false.
Proof.
  destruct (Qc_ltb a a) eqn:E; [| reflexivity].
  apply Qc_ltb_lt in E. exfalso. exact (Qcle_not_lt a a (Qcle_refl a) E).
Qed.

Lemma Qc_ltb_trans_le (a b c : Qc) :
  Qc_ltb b a = false -> Qc_ltb c b = false -> Qc_ltb c a = false.
Proof.
  intros H1 H2. destruct (Qc_ltb c a) eqn:E; [| reflexivity].
  apply Qc_ltb_lt in E.
  assert (Hab : (a <= b)%Qc).
  { apply Qcnot_lt_le. intros H. apply Qc_ltb_lt in H. congruence. }
  assert (Hbc : (b <= c)%Qc).
  { apply Qcnot_lt_le. intros H. apply Qc_ltb_lt in H. congruence. }
  exfalso. apply (Qcle_not_lt c c (Qcle_refl c)).
  apply (Qclt_le_trans _ a); [exact E |]. now apply (Qcle_trans _ b).
Qed.

Lemma Qc_ltb_asym (a b : Qc) : Qc_ltb a b = true -> Qc_ltb b a = false.
Proof.
  intros H. destruct (Qc_ltb b a) eqn:E; [| reflexivity].
  apply Qc_ltb_lt in H. apply Qc_ltb_lt in E.
  exfalso. apply (Qcle_not_lt a a (Qcle_refl a)). now apply (Qclt_trans _ b).
Qed.

Lemma fleb_refl (x : fnum) : fisna x = false -> fleb x x = true.
Proof.
  destruct x; cbn; try reflexivity; try discriminate.
  intros _. now rewrite Qc_ltb_irrefl.
Qed.

Lemma fleb_trans (x y z : fnum) :
  fleb x y = true -> fleb y z = true -> fleb x z = true.
Proof.
  destruct x as [a | | |], y as [b | | |], z as [c | | |]; cbn;
    try reflexivity; try discriminate.
  intros H1 H2. apply negb_true_iff in H1. apply negb_true_iff in H2.
  apply negb_true_iff. now apply (Qc_ltb_trans_le a b c).
Qed.

Lemma fleb_of_fltb (x y : fnum) :
  fisna x = false -> fisna y = false -> fltb x y = true -> fleb x y = true.
Proof.
  destruct x as [a | | |], y as [b | | |]; cbn; try reflexivity; try discriminate.
  intros _ _ H. now rewrite (Qc_ltb_asym a b H).
Qed.

Lemma fleb_of_not_fltb (x y : fnum) :
  fisna x = false -> fisna y = false -> fltb y x = false -> fleb x y = true.
Proof.
  destruct x as [a | | |], y as [b | | |]; cbn; try reflexivity; try discriminate.
  intros _ _ ->. reflexivity.
Qed.

(** [min] and [max] of a series without missing values bound each of
    its values, and are among them. *)
Lemma series_min_least (x : fnum) (t : list fnum) :
  (forall y, In y (x :: t) -> fisna y = false) ->
  forall y, In y (x :: t) -> fleb (DataAnalyzerV2.series_min (x :: t)) y = true.
Proof.
  cbn [DataAnalyzerV2.series_min]. revert x.
  induction t as [| z t IH]; intros x Hna y Hy.
  - destruct Hy as [<- | []]. cbn. apply fleb_refl. apply Hna. now left.
  - cbn [fold_left].
    assert (Hx : fisna x = false) by (apply Hna; now left).
    assert (Hz : fisna z = false) by (apply Hna; right; now left).
    set (m := if fltb z x then z else x).
    assert (Hm : fisna m = false) by (unfold m; now destruct (fltb z x)).
    assert (Hmx : fleb m x = true).
    { unfold m. destruct (fltb z x) eqn:E; [now apply fleb_of_fltb | now apply fleb_refl]. }
    assert (Hmz : fleb m z = true).
    { unfold m. destruct (fltb z x) eqn:E;
        [now apply fleb_refl | now apply fleb_of_not_fltb]. }
    assert (Hna' : forall y, In y (m :: t) -> fisna y = false).
    { intros w [<- | Hw]; [exact Hm |]. apply Hna. right. now right. }
    pose proof (IH m Hna') as Hall.
    destruct Hy as [<- | [<- | Hy]].
    + apply (fleb_trans _ m); [apply Hall; now left | exact Hmx].
    + apply (fleb_trans _ m); [apply Hall; now left | exact Hmz].
    + apply Hall. now right.
Qed.

Lemma series_max_greatest (x : fnum) (t : list fnum) :
  (forall y, In y (x :: t) -> fisna y = false) ->
  forall y, In y (x :: t) -> fleb y (DataAnalyzerV2.series_max (x :: t)) = true.
Proof.
  cbn [DataAnalyzerV2.series_max]. revert x.
  induction t as [| z t IH]; intros x Hna y Hy.
  - destruct Hy as [<- | []]. cbn. apply fleb_refl. apply Hna. now left.
  - cbn [fold_left].
    assert (Hx : fisna x = false) by (apply Hna; now left).
    assert (Hz : fisna z = false) by (apply Hna; right; now left).
    set (m := if fltb x z then z else x).
    assert (Hm : fisna m = false) by (unfold m; now destruct (fltb x z)).
    assert (Hmx : fleb x m = true).
    { unfold m. destruct (fltb x z) eqn:E; [now apply fleb_of_fltb | now apply fleb_refl]. }
    assert (Hmz : fleb z m = true).
    { unfold m. destruct (fltb x z) eqn:E;
        [now apply fleb_refl | now apply fleb_of_not_fltb]. }
    assert (Hna' : forall y, In y (m :: t) -> fisna y = false).
    { intros w [<- | Hw]; [exact Hm |]. apply Hna. right. now right. }
    pose proof (IH m Hna') as Hall.
    destruct Hy as [<- | [<- | Hy]].
    + apply (fleb_trans _ m); [exact Hmx | apply Hall; now left].
    + apply (fleb_trans _ m); [exact Hmz | apply Hall; now left].
    + apply Hall. now right.
Qed.

Lemma series_min_among (x : fnum) (t : list fnum) :
  In (DataAnalyzerV2.series_min (x :: t)) (x :: t).
Proof.
  cbn [DataAnalyzerV2.series_min]. revert x.
  induction t as [| y t IH]; intros x; [now left |].
  cbn [fold_left]. destruct (fltb y x).
  - right. apply IH.
  - destruct (IH x) as [H | H]; [now left | right; now right].
Qed.

Lemma In_metric_values stf (rs : list row) (metric_name : string) (x : fnum) :
  In x (filter (fun x => negb (fisna x))
               (flat_map (fun c => match Pandas.to_numeric_coerce stf c with
                                   | Num x => [x]
                                   | Str _ => []
                                   end)
                         (map (fun r => get r metric_name) rs)))
  <-> exists r, In r rs /\ metric_value stf metric_name r x.
Proof.
  rewrite filter_In, in_flat_map. unfold metric_value. split.
  - intros [[c [Hc Hx]] Hna]. apply in_map_iff in Hc. destruct Hc as [r [<- Hr]].
    exists r. split; [exact Hr |].
    destruct (Pandas.to_numeric_coerce stf (get r metric_name)) as [v | s];
      [| now destruct Hx].
    destruct Hx as [<- | []]. split; [reflexivity | now apply negb_true_iff].
  - intros [r [Hr [Hv Hna]]]. split; [| now rewrite Hna].
    exists (get r metric_name). split.
    + now apply (in_map (fun r => get r metric_name)).
    + rewrite Hv. now left.
Qed.

(** X23. The range [analyze_metric_range] reports covers both periods:
    every number of the metric column, in a row of the current or of
    the prior frame, lies between the minimum and the maximum returned;
    both bounds are values of the column when it holds a number at all,
    and both are [nan] when it holds none. Texts count with the number
    they convert to, and cells that convert to nothing are skipped.
    The column is one that a frame has: on a column of neither frame
    pandas raises [KeyError], which the range as modelled does not
    show. *)
Theorem metric_range_covers_both_periods
        (stf : string -> option fnum) (current previous : DataFrame)
        (metric_name : string) :
  has_column current metric_name = true \/ has_column previous metric_name = true ->
  let range := DataAnalyzerV2.analyze_metric_range stf current previous metric_name in
  let both := rows current ++ rows previous in
  (forall r x, In r both -> metric_value stf metric_name r x ->
               fleb (fst range) x = true /\ fleb x (snd range) = true)
  /\ ((exists r x, In r both /\ metric_value stf metric_name r x) ->
      exists lowest highest,
        In lowest both /\ metric_value stf metric_name lowest (fst range)
        /\ In highest both /\ metric_value stf metric_name highest (snd range))
  /\ ((forall r x, In r both -> ~ metric_value stf metric_name r x) ->
      range = (NaN, NaN)).
Proof.
  intros _ range both.
  pose proof (In_metric_values stf both metric_name) as Hin.
  set (values := filter _ _) in Hin.
  assert (Hrange : range = (DataAnalyzerV2.series_min values,
                            DataAnalyzerV2.series_max values)).
  { unfold range, DataAnalyzerV2.analyze_metric_range, series, values, both.
    now rewrite map_app. }
  clearbody range.
  assert (Hna : forall y, In y values -> fisna y = false).
  { intros y Hy. apply Hin in Hy. now destruct Hy as [r [_ [_ Hy]]]. }
  subst range. cbn [fst snd].
  destruct values as [| v vs] eqn:Ev.
  - split; [| split].
    + intros r x Hr Hx. destruct (proj2 (Hin x)). now exists r.
    + intros [r [x [Hr Hx]]]. destruct (proj2 (Hin x)). now exists r.
    + reflexivity.
  - split; [| split].
    + intros r x Hr Hx.
      assert (Hxv : In x (v :: vs)) by (apply Hin; now exists r).
      split; [now apply series_min_least | now apply series_max_greatest].
    + intros _.
      destruct (proj1 (Hin _) (series_min_among v vs)) as [lo [Hlo Hvlo]].
      destruct (proj1 (Hin _) (series_max_among v vs)) as [hi [Hhi Hvhi]].
      exists lo, hi. repeat split; assumption || apply Hvlo || apply Hvhi.
    + intros Hnone. exfalso.
      destruct (proj1 (Hin v) (or_introl eq_refl)) as [r [Hr Hv]].
      exact (Hnone r v Hr Hv).
Qed.

Lemma metric_range_covers_both_periods_witness :
  let range :=
    DataAnalyzerV2.analyze_metric_range no_text_number sales_current sales_previous
                                        "sales" in
  let both := rows sales_current ++ rows sales_previous in
  (forall r x, In r both -> metric_value no_text_number "sales" r x ->
               fleb (fst range) x = true /\ fleb x (snd range) = true)
  /\ ((exists r x, In r both /\ metric_value no_text_number "sales" r x) ->
      exists lowest highest,
        In lowest both /\ metric_value no_text_number "sales" lowest (fst range)
        /\ In highest both /\ metric_value no_text_number "sales" highest (snd range))
  /\ ((forall r x, In r both -> ~ metric_value no_text_number "sales" r x) ->
      range = (NaN, NaN)).
Proof.
  apply (metric_range_covers_both_periods no_text_number sales_current sales_previous
           "sales").
  left. vm_compute. reflexivity.
Defined.

(* ================================================================== *)
(** * The interval mode end to end *)

Lemma unique_labels_NoDup (labels : list string) :
  DataAnalyzerV2.unique_labels labels = true -> NoDup labels.
Proof.
  induction labels as [| a t IH]; cbn [DataAnalyzerV2.unique_labels]; intros H.
  - constructor.
  - apply andb_true_iff in H. destruct H as [Ha Ht]. constructor; [| now apply IH].
    apply negb_true_iff in Ha. now apply mem_not_In.
Qed.

(** The binned frame keeps the columns of the frame it was made from
    and has the interval column, a categorical one whose categories are
    the labels, all different. *)
Lemma binned_columns stf df metric_name cutpoints labels binned :
  DataAnalyzerV2.apply_interval_binning stf df metric_name cutpoints labels
  = Some binned ->
  has_column binned DataAnalyzerV2.interval_col = true
  /\ (forall c, has_column df c = true -> has_column binned c = true)
  /\ column_dtype (columns binned) DataAnalyzerV2.interval_col
     = Some (Categorical labels)
  /\ NoDup labels.
Proof.
  intros H.
  pose proof (apply_interval_binning_rows _ _ _ _ _ _ H) as [_ Hd].
  unfold DataAnalyzerV2.apply_interval_binning in H.
  destruct (has_column df metric_name) eqn:Hm; [| discriminate].
  destruct (DataAnalyzerV2.pd_cut_ok _ labels) eqn:Hok; [| discriminate].
  injection H as <-.
  assert (Hhas : forall c,
             has_column
               (assign (assign df metric_name (Dtype "float64")
                               (fun r => Pandas.to_numeric_coerce
                                           stf (get r metric_name)))
                       DataAnalyzerV2.interval_col (Categorical labels)
                       (fun r => DataAnalyzerV2.cut_value
                                   ([NInf] ++ map Fin cutpoints ++ [PInf]) labels
                                   (get r metric_name))) c
             = has_column df c || String.eqb c DataAnalyzerV2.interval_col).
  { intros c. unfold has_column, column_names, assign. cbn [columns].
    rewrite mem_after_set_dtype, mem_set_dtype; [reflexivity |]. exact Hm. }
  split; [| split; [| split]].
  - rewrite Hhas, String.eqb_refl. apply orb_true_r.
  - intros c Hc. now rewrite Hhas, Hc.
  - exact Hd.
  - unfold DataAnalyzerV2.pd_cut_ok in Hok. apply andb_true_iff in Hok.
    apply unique_labels_NoDup. now destruct Hok.
Qed.

(** The summary of a binned frame by interval is an aggregate, and its
    keys are labels. *)
Lemma interval_summary_is_aggregate stf observed binned labels others :
  has_column binned DataAnalyzerV2.interval_col = true ->
  forallb (has_column binned) others = true ->
  ~ In DataAnalyzerV2.interval_col others ->
  column_dtype (columns binned) DataAnalyzerV2.interval_col
  = Some (Categorical labels) ->
  NoDup labels ->
  is_aggregate (DataAnalyzerV2.group_and_summarize
                  stf observed binned [DataAnalyzerV2.interval_col] others)
               [DataAnalyzerV2.interval_col] others
  /\ forall key,
       In key (frame_keys (DataAnalyzerV2.group_and_summarize
                             stf observed binned [DataAnalyzerV2.interval_col] others)
                          [DataAnalyzerV2.interval_col]) ->
       exists l, In l labels /\ key = [Str l].
Proof.
  intros Hk Hm Hfree Hd Hnd.
  assert (Hdisj : forall k, In k [DataAnalyzerV2.interval_col] -> ~ In k others).
  { intros k [<- | []]. exact Hfree. }
  destruct (coerce_present_spec stf binned others) as [_ [_ Hsame]].
  specialize (Hsame _ Hfree). rewrite Hd in Hsame.
  unfold DataAnalyzerV2.group_and_summarize.
  rewrite (filter_all _ others).
  2:{ intros m Hin. rewrite has_column_coerce_v2. rewrite forallb_forall in Hm.
      now apply Hm. }
  destruct (groupby_sum_succeeds observed
              (DataAnalyzerV2.coerce_columns stf binned others)
              [DataAnalyzerV2.interval_col] others) as [g Hg].
  - discriminate.
  - rewrite forallb_coerce_v2. cbn [forallb]. now rewrite Hk.
  - now rewrite forallb_coerce_v2.
  - rewrite Hg. split.
    + apply (groupby_sum_is_aggregate _ _ _ _ _ Hg Hdisj).
      intros cats [kn [[= <-] Hc]]. rewrite Hsame in Hc. now injection Hc as <-.
    + intros key Hkey. unfold frame_keys in Hkey.
      rewrite (groupby_sum_rows _ _ _ _ _ Hg) in Hkey. rewrite map_map in Hkey.
      apply in_map_iff in Hkey. destruct Hkey as [k [<- Hin]].
      rewrite (key_of_grouped _ _ _ _ _ _ Hin).
      unfold Pandas.group_keys in Hin. rewrite Hsame in Hin.
      apply in_map_iff in Hin. destruct Hin as [l [<- Hl]]. exists l.
      split; [| reflexivity]. destruct observed; [| exact Hl].
      apply filter_In in Hl. now destruct Hl.
Qed.

(** No derived column is named like the interval column. *)
Lemma interval_names_fresh (others : list string) :
  derived_names_fresh [DataAnalyzerV2.interval_col] others.
Proof.
  intros m _.
  assert (H : forall sfx, (6 < String.length sfx)%nat ->
                          ~ In (m ++ sfx)%string [DataAnalyzerV2.interval_col]).
  { intros sfx Hlen [E | []]. apply (f_equal String.length) in E.
    rewrite string_length_append in E. cbn in E. lia. }
  repeat split; apply H; cbn; lia.
Qed.

(** X24. [run_metric_interval_summary] of the second analyzer, after
    [run] loaded both files: a result other than the empty frame came
    from cut points that the prompt accepted for the range of the
    chosen metric over both periods; it has the interval column
    followed, for every metric other than the chosen one, by prior,
    current, change and growth; every row is the row of one of the
    interval labels made from these cut points; and every row holds the
    change and the growth of its two totals. Both files are taken to
    have every metric column, and no metric is named like the interval
    column. *)
Theorem interval_summary_is_the_comparison
        (stf : string -> option fnum) (py_float : string -> option Qc)
        (float_str : Qc -> string) (observed : bool)
        (self : DataAnalyzerV2.ExcelDataAnalyzer) (current previous : DataFrame)
        (selected_metric : string) (answers : list string) (result : DataFrame) :
  DataAnalyzerV2.current_month_data self = Some current ->
  DataAnalyzerV2.previous_month_data self = Some previous ->
  DataAnalyzerV2.run_metric_interval_summary stf py_float float_str observed self
                                             selected_metric answers = Some result ->
  is_empty result = false ->
  ~ In DataAnalyzerV2.interval_col (DataAnalyzerV2.metric_columns self) ->
  forallb (has_column current) (DataAnalyzerV2.metric_columns self) = true ->
  forallb (has_column previous) (DataAnalyzerV2.metric_columns self) = true ->
  let others := filter (fun col => negb (String.eqb col selected_metric))
                       (DataAnalyzerV2.metric_columns self) in
  let range := DataAnalyzerV2.analyze_metric_range stf current previous
                                                   selected_metric in
  exists cutpoints,
    DataAnalyzerV2.get_interval_cutpoints py_float answers (fst range) (snd range)
    = Some cutpoints
    /\ ~ In selected_metric others
    /\ column_names result
       = DataAnalyzerV2.interval_col
         :: flat_map (fun col => [DataAnalyzerV2.previous_col col;
                                  DataAnalyzerV2.current_col col;
                                  DataAnalyzerV2.change_col col;
                                  DataAnalyzerV2.growth_col col]) others
    /\ (forall r, In r (rows result) ->
                  exists l,
                    In l (DataAnalyzerV2.create_interval_labels
                            float_str cutpoints (fst range) (snd range))
                    /\ get r DataAnalyzerV2.interval_col = Str l)
    /\ forall r m,
         In r (rows result) -> In m others ->
         exists c p,
           get r (DataAnalyzerV2.current_col m) = Num c
           /\ get r (DataAnalyzerV2.previous_col m) = Num p
           /\ get r (DataAnalyzerV2.change_col m) = Num (DataAnalyzerV2Rate.change c p)
           /\ get r (DataAnalyzerV2.growth_col m)
              = Num (DataAnalyzerV2Rate.growth_rate c p).
Proof.
  intros Hc Hp Hrun Hres Hfree Hcm Hpm others range.
  unfold DataAnalyzerV2.run_metric_interval_summary in Hrun.
  rewrite Hc, Hp in Hrun. fold others in Hrun.
  destruct (DataAnalyzerV2.metric_columns self) as [| m0 ms] eqn:Em.
  { injection Hrun as <-. discriminate. }
  fold range in Hrun. destruct range as [lo hi] eqn:Erange. cbn [fst snd].
  destruct (DataAnalyzerV2.get_interval_cutpoints py_float answers lo hi)
    as [cutpoints |] eqn:Hcut; [| discriminate].
  cbv zeta in Hrun.
  set (labels := DataAnalyzerV2.create_interval_labels float_str cutpoints lo hi) in *.
  destruct (DataAnalyzerV2.apply_interval_binning stf current selected_metric
                                                  cutpoints labels)
    as [cb |] eqn:Hcb; [| discriminate].
  destruct (DataAnalyzerV2.apply_interval_binning stf previous selected_metric
                                                  cutpoints labels)
    as [pb |] eqn:Hpb; [| discriminate].
  destruct (is_empty _ || is_empty _) eqn:He.
  { injection Hrun as <-. discriminate. }
  injection Hrun as <-.
  assert (Hin_others : forall m, In m others -> In m (m0 :: ms)).
  { intros m Hm. unfold others in Hm. apply filter_In in Hm. now destruct Hm. }
  assert (Hfree' : ~ In DataAnalyzerV2.interval_col others).
  { intros H. apply Hfree. now apply Hin_others. }
  assert (Hside : forall df b,
             DataAnalyzerV2.apply_interval_binning stf df selected_metric
                                                   cutpoints labels = Some b ->
             forallb (has_column df) (m0 :: ms) = true ->
             is_aggregate (DataAnalyzerV2.group_and_summarize
                             stf observed b [DataAnalyzerV2.interval_col] others)
                          [DataAnalyzerV2.interval_col] others
             /\ forall key,
                  In key (frame_keys (DataAnalyzerV2.group_and_summarize
                                        stf observed b [DataAnalyzerV2.interval_col]
                                        others)
                                     [DataAnalyzerV2.interval_col]) ->
                  exists l, In l labels /\ key = [Str l]).
  { intros df b Hb Hall.
    destruct (binned_columns _ _ _ _ _ _ Hb) as [Hk [Hkeep [Hd Hnd]]].
    apply interval_summary_is_aggregate; try assumption.
    apply forallb_forall. intros m Hm. apply Hkeep.
    rewrite forallb_forall in Hall. apply Hall. now apply Hin_others. }
  destruct (Hside current cb Hcb Hcm) as [Hcur Hcurk].
  destruct (Hside previous pb Hpb Hpm) as [Hprev Hprevk].
  pose proof (interval_names_fresh others) as Hfr.
  assert (Hdisj : forall k, In k [DataAnalyzerV2.interval_col] -> ~ In k others).
  { intros k [<- | []]. exact Hfree'. }
  destruct (comparison_body_v2_of_aggregates _ _ [DataAnalyzerV2.interval_col] others
              ltac:(discriminate) Hdisj Hfr Hcur Hprev) as [cols [Hbody Hnames]].
  destruct (compared_rows_spec DataAnalyzerV2Rate.change DataAnalyzerV2Rate.growth_rate
              _ _ [DataAnalyzerV2.interval_col] others cols Hfr Hcur Hprev)
    as [[_ [Hunion _]] Hrows].
  exists cutpoints. split; [reflexivity |]. split.
  { unfold others. intros H. apply filter_In in H. destruct H as [_ H].
    now rewrite String.eqb_refl in H. }
  unfold DataAnalyzerV2.calculate_comparison. rewrite Hbody.
  split; [exact Hnames |]. split; [| exact Hrows].
  intros r Hr.
  pose proof (in_map (key_of [DataAnalyzerV2.interval_col]) _ _ Hr) as Hkey.
  apply (proj1 (Hunion _)) in Hkey.
  destruct Hkey as [Hkey | Hkey];
    [apply Hcurk in Hkey | apply Hprevk in Hkey];
    destruct Hkey as [l [Hl E]]; exists l; (split; [exact Hl |]);
    cbn [key_of map] in E; now injection E.
Qed.

Lemma interval_summary_is_the_comparison_witness :
  let others := filter (fun col => negb (String.eqb col "loan_amount"))
                       (DataAnalyzerV2.metric_columns loans_analyzer) in
  let range := DataAnalyzerV2.analyze_metric_range decimal_number loans loans_previous
                                                   "loan_amount" in
  exists cutpoints,
    DataAnalyzerV2.get_interval_cutpoints decimal_literal ["500, 100"]
                                          (fst range) (snd range)
    = Some cutpoints
    /\ ~ In "loan_amount" others
    /\ column_names loans_interval_summary
       = DataAnalyzerV2.interval_col
         :: flat_map (fun col => [DataAnalyzerV2.previous_col col;
                                  DataAnalyzerV2.current_col col;
                                  DataAnalyzerV2.change_col col;
                                  DataAnalyzerV2.growth_col col]) others
    /\ (forall r, In r (rows loans_interval_summary) ->
                  exists l,
                    In l (DataAnalyzerV2.create_interval_labels
                            float_repr cutpoints (fst range) (snd range))
                    /\ get r DataAnalyzerV2.interval_col = Str l)
    /\ forall r m,
         In r (rows loans_interval_summary) -> In m others ->
         exists c p,
           get r (DataAnalyzerV2.current_col m) = Num c
           /\ get r (DataAnalyzerV2.previous_col m) = Num p
           /\ get r (DataAnalyzerV2.change_col m) = Num (DataAnalyzerV2Rate.change c p)
           /\ get r (DataAnalyzerV2.growth_col m)
              = Num (DataAnalyzerV2Rate.growth_rate c p).
Proof.
  apply (interval_summary_is_the_comparison
           decimal_number decimal_literal float_repr false loans_analyzer
           loans loans_previous "loan_amount" ["500, 100"] loans_interval_summary).
  - reflexivity.
  - reflexivity.
  - vm_compute. reflexivity.
  - vm_compute. reflexivity.
  - intros [E | [E | []]]; discriminate E.
  - vm_compute. reflexivity.
  - vm_compute. reflexivity.
Defined.

(* ================================================================== *)
(** * The summary of the report *)

Lemma rate_sign_cases (x : fnum) :
  ((if fgtb x (Fin 0%Qc) then 1 else 0) + (if fltb x (Fin 0%Qc) then 1 else 0)
   + (if fisna x || feqb x (Fin 0%Qc) then 1 else 0) = 1)%nat.
Proof.
  destruct x as [q | | |]; try reflexivity.
  unfold fgtb. cbn [fltb fisna feqb orb].
  destruct (Qc_dec q 0%Qc) as [[Hlt | Hgt] | Heq].
  - rewrite (proj2 (Qc_ltb_lt q 0%Qc) Hlt).
    rewrite (Qc_ltb_asym q 0%Qc (proj2 (Qc_ltb_lt q 0%Qc) Hlt)).
    rewrite Qc_eq_bool_neq; [reflexivity |].
    intros E. subst q. exact (Qcle_not_lt _ _ (Qcle_refl 0%Qc) Hlt).
  - rewrite (proj2 (Qc_ltb_lt 0%Qc q) Hgt).
    rewrite (Qc_ltb_asym 0%Qc q (proj2 (Qc_ltb_lt 0%Qc q) Hgt)).
    rewrite Qc_eq_bool_neq; [reflexivity |].
    intros E. subst q. exact (Qcle_not_lt _ _ (Qcle_refl 0%Qc) Hgt).
  - subst q. rewrite Qc_ltb_irrefl, Qc_eq_bool_refl. reflexivity.
Qed.

Lemma length_filter_cons {A} (f : A -> bool) (x : A) (l : list A) :
  List.length (filter f (x :: l))
  = ((if f x then 1 else 0) + List.length (filter f l))%nat.
Proof. cbn [filter]. now destruct (f x). Qed.

(** Every row is counted once: as growing, as falling, or as flat or
    missing. *)
Lemma rates_counted_once (col : string) (rs : list row) : forall rates,
  mapM num_of_cell (map (fun r => get r col) rs) = Some rates ->
  (List.length (filter (fun x => fgtb x (Fin 0%Qc)) rates)
   + List.length (filter (fun x => fltb x (Fin 0%Qc)) rates)
   + List.length (filter (flat_or_missing col) rs)
   = List.length rs)%nat.
Proof.
  induction rs as [| r rs IH]; intros rates H; cbn [map mapM] in H.
  - injection H as <-. reflexivity.
  - destruct (get r col) as [x | s] eqn:Hx; cbn [num_of_cell] in H; [| discriminate].
    destruct (mapM num_of_cell (map (fun r => get r col) rs)) as [t |] eqn:Ht;
      [| discriminate].
    injection H as <-. specialize (IH t eq_refl).
    rewrite !length_filter_cons. unfold flat_or_missing at 1. rewrite Hx.
    pose proof (rate_sign_cases x) as Hone. cbn [List.length]. lia.
Qed.

Lemma rate_among (col : string) (rs : list row) : forall rates r x,
  mapM num_of_cell (map (fun r => get r col) rs) = Some rates ->
  In r rs -> get r col = Num x -> In x rates.
Proof.
  induction rs as [| r0 rs IH]; intros rates r x H Hr Hx; [contradiction |].
  cbn [map mapM] in H.
  destruct (get r0 col) as [x0 | s] eqn:H0; cbn [num_of_cell] in H; [| discriminate].
  destruct (mapM num_of_cell (map (fun r => get r col) rs)) as [t |] eqn:Ht;
    [| discriminate].
  injection H as <-. destruct Hr as [<- | Hr].
  - left. congruence.
  - right. now apply (IH t r x).
Qed.

Lemma growth_stats_counted_once (df : DataFrame) (col : string)
      (stats : Report.GrowthStats) :
  Report.growth_stats df col = Some stats -> counted_once df col stats.
Proof.
  unfold Report.growth_stats. destruct (has_column df col); [| discriminate].
  unfold series.
  destruct (mapM num_of_cell (map (fun r => get r col) (rows df))) as [rates |] eqn:Hr;
    [| discriminate].
  intros [= <-]. split; cbn [Report.positive_items Report.negative_items
                               Report.min_rate Report.max_rate].
  - now apply rates_counted_once.
  - intros r x Hin Hx Hna.
    assert (Hp : In x (filter (fun x => negb (fisna x)) rates)).
    { apply filter_In. split; [now apply (rate_among col (rows df) rates r) |].
      now rewrite Hna. }
    assert (Hall : forall y, In y (filter (fun x => negb (fisna x)) rates) ->
                             fisna y = false).
    { intros y Hy. apply filter_In in Hy. destruct Hy as [_ Hy].
      now apply negb_true_iff. }
    destruct (filter (fun x => negb (fisna x)) rates) as [| v vs]; [contradiction |].
    split; [now apply series_min_least | now apply series_max_greatest].
Qed.

Lemma dict_set_new {V : Type} (d : list (string * V)) (k : string) (v : V) :
  ~ In k (map fst d) -> Report.dict_set d k v = d ++ [(k, v)].
Proof.
  induction d as [| [n w] d IH]; intros H; [reflexivity |].
  cbn [Report.dict_set]. destruct (String.eqb_spec n k) as [-> | Hne].
  - exfalso. apply H. now left.
  - cbn [app]. f_equal. apply IH. intros Hin. apply H. now right.
Qed.

(** The loop of [generate_summary_report] over analyses with distinct
    names: one entry is appended for each analysis with rows. *)
Lemma summary_loop (results : list (string * DataFrame)) :
  forall acc summary,
    NoDup (map fst acc ++ map fst results) ->
    foldM (fun summary (item : string * DataFrame) =>
             let '(dim_name, result_df) := item in
             match rows result_df with
             | [] => Some summary
             | _ :: _ =>
                 match Report.summary_entry result_df with
                 | Some entry => Some (Report.dict_set summary dim_name entry)
                 | None => None
                 end
             end) results acc = Some summary ->
    exists added,
      summary = acc ++ added
      /\ map fst added = map fst (filter (fun item => has_rows (snd item)) results)
      /\ forall name entry,
           In (name, entry) added ->
           exists df, In (name, df) results /\ rows df <> []
                      /\ Report.summary_entry df = Some entry.
Proof.
  induction results as [| [name df] results IH]; intros acc summary Hnd H.
  - cbn [foldM] in H. injection H as <-. exists []. rewrite app_nil_r.
    split; [reflexivity |]. split; [reflexivity |]. intros ? ? [].
  - cbn [foldM] in H. cbn [filter snd]. unfold has_rows at 1.
    destruct (rows df) as [| r0 rs] eqn:Hrows.
    + destruct (IH acc summary) as [added [E [Hn Hin]]]; [| exact H |].
      { cbn [map fst] in Hnd. now apply NoDup_remove_1 in Hnd. }
      exists added. split; [exact E |]. split; [exact Hn |].
      intros n e Hne. destruct (Hin n e Hne) as [d [Hd Hrest]].
      exists d. split; [now right | exact Hrest].
    + destruct (Report.summary_entry df) as [entry |] eqn:He; [| discriminate].
      cbn [map fst] in Hnd.
      assert (Hnew : ~ In name (map fst acc)).
      { apply NoDup_remove_2 in Hnd. intros Hin. apply Hnd. apply in_or_app. now left. }
      rewrite (dict_set_new acc name entry Hnew) in H.
      destruct (IH (acc ++ [(name, entry)]) summary) as [added [E [Hn Hin]]];
        [| exact H |].
      { rewrite map_app, <- app_assoc. exact Hnd. }
      exists ((name, entry) :: added). rewrite <- app_assoc in E.
      split; [exact E |]. split; [cbn [map fst]; now rewrite Hn |].
      intros n e [[= <- <-] | Hne].
      * exists df. split; [now left |]. split; [| exact He].
        rewrite Hrows. discriminate.
      * destruct (Hin n e Hne) as [d [Hd Hrest]].
        exists d. split; [now right | exact Hrest].
Qed.

(** X25. [generate_summary_report] on analyses with distinct names (the
    keys of a dict): when it returns, the summary lists, in order, the
    analyses that have rows and no other; an entry records the number
    of rows of its analysis; for each of the two growth columns every
    row is counted once, as a growth, as a decline, or as a row whose
    rate is zero or missing, so that a group without a prior period is
    counted neither as a growth nor as a decline; and the minimum and
    the maximum recorded bound every rate of the column. *)
Theorem summary_counts_every_row_once
        (analysis_results : list (string * DataFrame))
        (summary : list (string * Report.Summary)) :
  NoDup (map fst analysis_results) ->
  Report.generate_summary_report analysis_results = Some summary ->
  map fst summary
  = map fst (filter (fun item => has_rows (snd item)) analysis_results)
  /\ forall name entry,
       In (name, entry) summary ->
       exists result_df,
         In (name, result_df) analysis_results
         /\ rows result_df <> []
         /\ Report.total_records entry = List.length (rows result_df)
         /\ counted_once result_df Report.mom_col (Report.mom_stats entry)
         /\ counted_once result_df Report.yoy_col (Report.yoy_stats entry).
Proof.
  intros Hnd H. unfold Report.generate_summary_report in H.
  destruct (summary_loop analysis_results [] summary Hnd H) as [added [E [Hn Hin]]].
  cbn [app] in E. subst added. split; [exact Hn |].
  intros name entry He. destruct (Hin name entry He) as [df [Hdf [Hrows Hentry]]].
  exists df. split; [exact Hdf |]. split; [exact Hrows |].
  unfold Report.summary_entry in Hentry.
  destruct (Report.growth_stats df Report.mom_col) as [mom |] eqn:Hm; [| discriminate].
  destruct (Report.growth_stats df Report.yoy_col) as [yoy |] eqn:Hy; [| discriminate].
  injection Hentry as <-.
  cbn [Report.total_records Report.mom_stats Report.yoy_stats].
  split; [reflexivity |].
  split; now apply growth_stats_counted_once.
Qed.

Lemma summary_counts_every_row_once_witness :
  map fst report_summary
  = map fst (filter (fun item => has_rows (snd item)) report_results)
  /\ forall name entry,
       In (name, entry) report_summary ->
       exists result_df,
         In (name, result_df) report_results
         /\ rows result_df <> []
         /\ Report.total_records entry = List.length (rows result_df)
         /\ counted_once result_df Report.mom_col (Report.mom_stats entry)
         /\ counted_once result_df Report.yoy_col (Report.yoy_stats entry).
Proof.
  apply (summary_counts_every_row_once report_results report_summary).
  - repeat constructor; cbn; intuition discriminate.
  - vm_compute. reflexivity.
Defined.

Lemma growth_stats_of_numbers (df : DataFrame) (col : string) :
  has_column df col = true ->
  (forall r, In r (rows df) -> exists x, get r col = Num x) ->
  exists stats, Report.growth_stats df col = Some stats.
Proof.
  intros Hcol Hnum. unfold Report.growth_stats. rewrite Hcol.
  rewrite (mapM_all num_of_cell
                    (fun c => match c with Num x => x | Str _ => NaN end)).
  - eexists. reflexivity.
  - intros c Hc. unfold series in Hc. apply in_map_iff in Hc.
    destruct Hc as [r [<- Hr]]. destruct (Hnum r Hr) as [x ->]. reflexivity.
Qed.

(** An analysis that [analyze_by_dimensions] returned with rows has
    both growth columns, with a number in every row. *)
Lemma analysis_has_entry observed self periods dims v aggregation result :
  Report.data self = Some periods ->
  Report.analyze_by_dimensions observed self dims v aggregation = Some result ->
  rows result <> [] ->
  report_names_fresh dims v ->
  distinct_categories (Report.current periods) ->
  distinct_categories (Report.last_month periods) ->
  distinct_categories (Report.last_year periods) ->
  exists entry, Report.summary_entry result = Some entry.
Proof.
  intros Hdata Hrun Hrows Hfresh Dc Dl Dy.
  unfold Report.analyze_by_dimensions in Hrun. rewrite Hdata in Hrun.
  destruct (Report.aggregate_period observed aggregation (Report.current periods) dims v)
    as [Ac |] eqn:Hc; [| discriminate].
  destruct (Report.aggregate_period observed aggregation (Report.last_month periods)
                                    dims v) as [Al |] eqn:Hl; [| discriminate].
  destruct (Report.aggregate_period observed aggregation (Report.last_year periods)
                                    dims v) as [Ay |] eqn:Hy; [| discriminate].
  assert (Hac : rows Ac <> []).
  { intros E. rewrite E in Hrun. injection Hrun as <-. now apply Hrows. }
  destruct (analysis_rows observed periods dims v aggregation Ac Al Ay
                          Hc Hl Hy Hac Hfresh Dc Dl Dy)
    as [L1 [L2 [res [F [H1 [H2 [H3 [Hnames [HF HFx]]]]]]]]].
  destruct (rows Ac) as [| x0 xs] eqn:Erows; [now elim Hac |].
  cbv zeta in Hrun. rewrite H1, H2, H3 in Hrun. injection Hrun as <-.
  rewrite <- Erows in HF, HFx.
  assert (Hcols : forall col, In col [Report.mom_col; Report.yoy_col] ->
                              exists stats, Report.growth_stats res col = Some stats).
  { intros col Hcol. apply growth_stats_of_numbers.
    - apply mem_In. fold (column_names res). rewrite Hnames. apply in_or_app. right.
      destruct Hcol as [<- | [<- | []]]; cbn; tauto.
    - intros r Hr. rewrite HF in Hr. apply in_map_iff in Hr.
      destruct Hr as [x [<- Hx]].
      destruct (HFx x Hx) as [_ [c [l [y [_ [_ [_ [_ [_ [_ [G4 G5]]]]]]]]]]].
      destruct Hcol as [<- | [<- | []]]; eexists; eassumption. }
  destruct (Hcols Report.mom_col) as [mom Hm]; [now left |].
  destruct (Hcols Report.yoy_col) as [yoy Hyy]; [right; now left |].
  unfold Report.summary_entry. rewrite Hm, Hyy. eexists. reflexivity.
Qed.

Lemma summary_loop_succeeds (results : list (string * DataFrame)) :
  (forall name df, In (name, df) results -> rows df <> [] ->
                   exists entry, Report.summary_entry df = Some entry) ->
  forall acc,
  exists summary,
    foldM (fun summary (item : string * DataFrame) =>
             let '(dim_name, result_df) := item in
             match rows result_df with
             | [] => Some summary
             | _ :: _ =>
                 match Report.summary_entry result_df with
                 | Some entry => Some (Report.dict_set summary dim_name entry)
                 | None => None
                 end
             end) results acc = Some summary.
Proof.
  induction results as [| [name df] results IH]; intros H acc.
  - exists acc. reflexivity.
  - cbn [foldM].
    assert (Hrest : forall n d, In (n, d) results -> rows d <> [] ->
                                exists entry, Report.summary_entry d = Some entry).
    { intros n d Hin. apply (H n d). now right. }
    destruct (rows df) as [| r0 rs] eqn:Hrows; [now apply IH |].
    destruct (H name df (or_introl eq_refl)) as [entry He].
    { rewrite Hrows. discriminate. }
    rewrite He. now apply IH.
Qed.

(** X26. The analyses of [analyze_by_dimensions] can always be
    summarised: on a dict whose values are results that
    [analyze_by_dimensions] returned from the prepared periods,
    [generate_summary_report] raises nothing, neither the [KeyError]
    of a missing growth column nor the [TypeError] of a text among the
    rates. Dimension and value names are taken not to interfere with
    the names of the report's columns. *)
Theorem analyses_are_summarised
        (observed : bool) (self : Report.DataAnalysisReport) (periods : Report.Periods)
        (analysis_results : list (string * DataFrame)) :
  Report.data self = Some periods ->
  distinct_categories (Report.current periods) ->
  distinct_categories (Report.last_month periods) ->
  distinct_categories (Report.last_year periods) ->
  (forall name result,
      In (name, result) analysis_results ->
      exists dims v aggregation,
        Report.analyze_by_dimensions observed self dims v aggregation = Some result
        /\ report_names_fresh dims v) ->
  exists summary, Report.generate_summary_report analysis_results = Some summary.
Proof.
  intros Hdata Dc Dl Dy Hall. unfold Report.generate_summary_report.
  apply summary_loop_succeeds. intros name df Hin Hrows.
  destruct (Hall name df Hin) as [dims [v [aggregation [Hrun Hfresh]]]].
  exact (analysis_has_entry observed self periods dims v aggregation df
                            Hdata Hrun Hrows Hfresh Dc Dl Dy).
Qed.

Lemma analyses_are_summarised_witness :
  exists summary,
    Report.generate_summary_report [("region", report_by_region)] = Some summary.
Proof.
  assert (Hplain : forall df, columns df = columns report_sales -> distinct_categories df).
  { intros df E. apply plain_columns_distinct_categories. rewrite E.
    intros c cats [<- | [<- | [<- | []]]]; discriminate. }
  apply (analyses_are_summarised false report_prepared report_periods
                                 [("region", report_by_region)]).
  - vm_compute. reflexivity.
  - now apply Hplain.
  - now apply Hplain.
  - now apply Hplain.
  - intros name result [[= <- <-] | []].
    exists ["region"], "amount", "sum". split.
    + vm_compute. reflexivity.
    + repeat split; try (intros [E | []]; discriminate E); try reflexivity.
      intros d [<- | []]. reflexivity.
Defined.

(* ================================================================== *)
(** * The automatic script without dimensions *)

(** One row through the growth loop and the formatting loop. *)
Lemma automatic_row_facts fp (metrics : list string) (r0 : row) (m : string)
      (c p : fnum) :
  In m metrics ->
  get r0 (AutoMonthly.current_col m) = Num c ->
  get r0 (AutoMonthly.previous_col m) = Num p ->
  let r := derive_row AutoMonthly.formatted_col (auto_format_value fp) metrics
                      (derive_row AutoMonthly.growth_col auto_growth_value metrics r0) in
  get r (AutoMonthly.current_col m) = Num c
  /\ get r (AutoMonthly.previous_col m) = Num p
  /\ get r (AutoMonthly.growth_col m) = Num (AutoMonthlyRate.growth_rate c p)
  /\ AutoMonthly.format_percentage fp (Num (AutoMonthlyRate.growth_rate c p))
     = Some (get r (AutoMonthly.formatted_col m)).
Proof.
  intros Hm Hc Hp r.
  assert (Hg : get (derive_row AutoMonthly.growth_col auto_growth_value metrics r0)
                   (AutoMonthly.growth_col m)
               = Num (AutoMonthlyRate.growth_rate c p)).
  { rewrite get_derive_row_new.
    - now apply auto_growth_value_number.
    - intros a b E. now apply append_same_suffix in E.
    - intros a b r' v. apply auto_growth_value_stable.
    - exact Hm. }
  assert (Hkeep : forall k,
             (forall m', k <> AutoMonthly.growth_col m'
                         /\ k <> AutoMonthly.formatted_col m') ->
             get r k = get r0 k).
  { intros k Hk. unfold r. rewrite !get_derive_row_other; [reflexivity | |];
      intros m' _; now destruct (Hk m'). }
  split; [| split; [| split]].
  - rewrite Hkeep; [exact Hc |]. intros m'.
    destruct (auto_names_differ m' m) as [N1 [_ [N3 _]]]. split; congruence.
  - rewrite Hkeep; [exact Hp |]. intros m'.
    destruct (auto_names_differ m' m) as [_ [N2 [_ [N4 _]]]]. split; congruence.
  - unfold r. rewrite get_derive_row_other; [exact Hg |].
    intros m' _ E. destruct (auto_names_differ m' m) as [_ [_ [_ [_ N]]]]. now apply N.
  - unfold r. rewrite get_derive_row_new.
    + unfold auto_format_value. rewrite Hg.
      destruct (format_percentage_of_number fp (AutoMonthlyRate.growth_rate c p))
        as [text ->]. reflexivity.
    + intros a b E. now apply append_same_suffix in E.
    + intros a b r' v. apply auto_format_value_stable.
    + exact Hm.
Qed.

(** A row of totals under renamed columns. *)
Lemma get_suffixed (f : string -> cell) (sfx : string) (l : list string) (m : string) :
  In m l ->
  get (map (fun c : string * cell => ((fst c ++ sfx)%string, snd c))
           (map (fun m => (m, f m)) l)) (m ++ sfx)%string
  = f m.
Proof.
  induction l as [| a l IH]; intros Hm; [contradiction |].
  cbn [map get fst snd].
  destruct (String.eqb_spec (a ++ sfx)%string (m ++ sfx)%string) as [E | Hne].
  - apply append_same_suffix in E. now subst.
  - destruct Hm as [-> | Hm]; [now elim Hne | now apply IH].
Qed.

Lemma names_suffixed (f : string -> cell) (sfx : string) (l : list string) :
  map fst (map (fun c : string * cell => ((fst c ++ sfx)%string, snd c))
               (map (fun m => (m, f m)) l))
  = map (fun m => (m ++ sfx)%string) l.
Proof. rewrite !map_map. reflexivity. Qed.

Lemma fillna0_total (df : DataFrame) (m : string) :
  fillna0 (Num (series_sum (series df m))) = Num (filled_total df m).
Proof.
  unfold fillna0, filled_total, isna. cbv zeta.
  now destruct (series_sum (series df m)).
Qed.

(** X27. [run_analysis] of the automatic script, from the loaded data
    on, when no dimension is found: a report it returns has a single
    row, the grand totals; for every metric the row holds the sum of
    the metric over the current file, its sum over the prior file, the
    growth of these two totals and that growth as a percentage
    text. *)
Theorem automatic_run_without_dimensions
        (is_str is_num : dtype -> bool) (observed : bool) (fp : Qc -> string)
        (self after : AutoMonthly.AutoMonthlyAnalyzer)
        (current previous formatted : DataFrame) :
  AutoMonthly.run_analysis is_str is_num observed fp self current previous
  = (after, Some formatted) ->
  AutoMonthly.dimension_columns after = [] ->
  exists r,
    rows formatted = [r]
    /\ forall m,
         In m (AutoMonthly.metric_columns after) ->
         get r (AutoMonthly.current_col m) = Num (filled_total current m)
         /\ get r (AutoMonthly.previous_col m) = Num (filled_total previous m)
         /\ get r (AutoMonthly.growth_col m)
            = Num (AutoMonthlyRate.growth_rate (filled_total current m)
                                               (filled_total previous m))
         /\ AutoMonthly.format_percentage
              fp (Num (AutoMonthlyRate.growth_rate (filled_total current m)
                                                   (filled_total previous m)))
            = Some (get r (AutoMonthly.formatted_col m)).
Proof.
  intros Hrun Hdims.
  unfold AutoMonthly.run_analysis, AutoMonthly.identify_column_types in Hrun.
  rewrite classify_by_kind in Hrun.
  set (kind := auto_column_kind is_str is_num (AutoMonthly.exclude_set self)) in *.
  set (dims := columns_of_kind kind true (columns current)) in *.
  set (metrics := columns_of_kind kind false (columns current)) in *.
  destruct metrics as [| m0 ms] eqn:Em; [discriminate |].
  injection Hrun as <- Hrun.
  cbn [AutoMonthly.dimension_columns AutoMonthly.metric_columns] in *.
  rewrite Hdims in Hrun. clear dims Hdims.
  set (all := m0 :: ms) in *.
  unfold AutoMonthly.aggregate_data in Hrun.
  destruct (forallb (has_column current) all); [| discriminate].
  destruct (forallb (has_column previous) all); [| discriminate].
  unfold AutoMonthly.merge_monthly_data, AutoMonthly.concat_axis1,
    AutoMonthly.rename_columns, AutoMonthly.fillna_frame in Hrun.
  cbn [rows columns AutoMonthly.concat_rows] in Hrun.
  set (rc := map (fun c : string * cell => ((fst c ++ "_本月")%string, snd c))
                 (map (fun m => (m, Num (series_sum (series current m)))) all)) in *.
  set (rp := map (fun c : string * cell => ((fst c ++ "_上月")%string, snd c))
                 (map (fun m => (m, Num (series_sum (series previous m)))) all)) in *.
  set (r0 := map (fun c : string * cell => (fst c, fillna0 (snd c))) (rc ++ rp)) in *.
  assert (Hnames : map fst (rc ++ rp)
                   = map (fun m => (m ++ "_本月")%string) all
                     ++ map (fun m => (m ++ "_上月")%string) all).
  { unfold rc, rp. now rewrite map_app, !names_suffixed. }
  assert (Hcur : forall m, In m all ->
                           get r0 (AutoMonthly.current_col m)
                           = Num (filled_total current m)).
  { intros m Hm. unfold r0. rewrite get_fillna_row, Hnames.
    replace (mem (AutoMonthly.current_col m) _) with true.
    2:{ symmetry. apply mem_In. apply in_or_app. left.
        exact (in_map (fun m => (m ++ "_本月")%string) all m Hm). }
    rewrite get_app. unfold rc at 1. rewrite names_suffixed.
    replace (mem (AutoMonthly.current_col m) _) with true.
    2:{ symmetry. apply mem_In.
        exact (in_map (fun m => (m ++ "_本月")%string) all m Hm). }
    unfold rc, AutoMonthly.current_col.
    rewrite (get_suffixed (fun m => Num (series_sum (series current m)))) by exact Hm.
    apply fillna0_total. }
  assert (Hprev : forall m, In m all ->
                            get r0 (AutoMonthly.previous_col m)
                            = Num (filled_total previous m)).
  { intros m Hm. unfold r0. rewrite get_fillna_row, Hnames.
    replace (mem (AutoMonthly.previous_col m) _) with true.
    2:{ symmetry. apply mem_In. apply in_or_app. right.
        exact (in_map (fun m => (m ++ "_上月")%string) all m Hm). }
    rewrite get_app. unfold rc at 1. rewrite names_suffixed.
    replace (mem (AutoMonthly.previous_col m) _) with false.
    2:{ symmetry. apply mem_not_In. intros Hin. apply in_map_iff in Hin.
        destruct Hin as [m' [E _]]. symmetry in E.
        exact (previous_not_current m m' E). }
    unfold rp, AutoMonthly.previous_col.
    rewrite (get_suffixed (fun m => Num (series_sum (series previous m)))) by exact Hm.
    apply fillna0_total. }
  match type of Hrun with
  | match match AutoMonthly.calculate_growth_rate ?fr _ with _ => _ end with _ => _ end
    = _ => set (merged := fr) in *
  | match AutoMonthly.calculate_growth_rate ?fr _ with _ => _ end = _ =>
      set (merged := fr) in *
  end.
  assert (Hrows : rows merged = [r0]) by reflexivity.
  assert (Hcols : forall k, has_column merged k = mem k (map fst (rc ++ rp))).
  { intros k. unfold has_column, column_names, merged. cbn [columns].
    rewrite Hnames, map_app, !map_map. reflexivity. }
  destruct (calculate_growth_rate_rows all merged) as [c2 [Hgrow Hmem]].
  { intros m Hm. rewrite !Hcols, Hnames. split; apply mem_In; apply in_or_app.
    - left. exact (in_map (fun m => (m ++ "_本月")%string) all m Hm).
    - right. exact (in_map (fun m => (m ++ "_上月")%string) all m Hm). }
  { rewrite Hrows. intros r [<- | []] m Hm. split; eexists.
    - exact (Hcur m Hm).
    - exact (Hprev m Hm). }
  rewrite Hrows in Hgrow. cbn [map] in Hgrow.
  destruct (format_results_rows fp all
              (mkDataFrame c2 [derive_row AutoMonthly.growth_col auto_growth_value
                                          all r0])) as [c3 Hfmt].
  { intros m Hm. unfold has_column, column_names. cbn [columns]. rewrite Hmem.
    apply orb_true_iff. right. apply mem_In. now apply in_map. }
  { cbn [rows]. intros r m [<- | []] Hm.
    rewrite get_derive_row_new.
    - rewrite (auto_growth_value_number m r0 _ _ (Hcur m Hm) (Hprev m Hm)).
      eexists. reflexivity.
    - intros a b E. now apply append_same_suffix in E.
    - intros a b r' v. apply auto_growth_value_stable.
    - exact Hm. }
  cbn [rows map] in Hfmt.
  rewrite Hgrow, Hfmt in Hrun. injection Hrun as <-.
  eexists. split; [reflexivity |]. cbn [rows].
  intros m Hm.
  exact (automatic_row_facts fp all r0 m _ _ Hm (Hcur m Hm) (Hprev m Hm)).
Qed.

Lemma automatic_run_without_dimensions_witness :
  exists r,
    rows (snd totals_automatic_run) = [r]
    /\ forall m,
         In m (AutoMonthly.metric_columns (fst totals_automatic_run)) ->
         get r (AutoMonthly.current_col m) = Num (filled_total totals_current m)
         /\ get r (AutoMonthly.previous_col m) = Num (filled_total totals_previous m)
         /\ get r (AutoMonthly.growth_col m)
            = Num (AutoMonthlyRate.growth_rate (filled_total totals_current m)
                                               (filled_total totals_previous m))
         /\ AutoMonthly.format_percentage
              float_repr
              (Num (AutoMonthlyRate.growth_rate (filled_total totals_current m)
                                                (filled_total totals_previous m)))
            = Some (get r (AutoMonthly.formatted_col m)).
Proof.
  apply (automatic_run_without_dimensions
           is_object_dtype is_number_dtype false float_repr (AutoMonthly.init [])
           (fst totals_automatic_run) totals_current totals_previous
           (snd totals_automatic_run)).
  - vm_compute. reflexivity.
  - vm_compute. reflexivity.
Defined.
